(** * SimpleModbusSlave: a shallow embedding of the Modbus RTU slave

    The development follows the C++ source function by function:
    [check_integrity], [build_response_basis], [send_msg],
    [response_exception], [flush], [receive], [reply] and
    [SimpleModbusSlave::loop].

    Conventions.
    - A [uint8_t] / [uint16_t] is a [Z] with its wrap-around written out
      ([u8], [u16]); [int] is 32 bits wide (the example hardware is an
      ESP32), so sums of two 16-bit values never wrap.
    - A C array is a [list Z]; [load] and [store] check the index against
      the array, and every function that touches an array lives in the
      option monad: [None] means the C program has no defined result
      (an access outside an array) or that a recursion budget ran out.
    - The serial port, the clock and the driver-enable pin are one
      explicit [world] value threaded through the code.  Time passes
      only in [delay], one millisecond at a time, and bytes reach the
      receive buffer only while time passes.
    - What the source uses but no file of it defines is a parameter:
      the checksum ([crc16], and the two bytes [add_crc16] appends) and
      the two informative status codes. *)

From stdpp Require Import base option list numbers.
From Stdlib Require Import ZArith Lia.

Local Open Scope Z_scope.

(** ** Machine integers *)

Definition u8 (x : Z) : Z := x mod 256.
Definition u16 (x : Z) : Z := x mod 65536.

(** [(hi << 8) + lo], assigned to a [uint16_t]. *)
Definition word (hi lo : Z) : Z := u16 (Z.shiftl hi 8 + lo).

Arguments u8 : simpl never.
Arguments u16 : simpl never.
Arguments word : simpl never.

(** ** Arrays *)

Definition load (buf : list Z) (i : Z) : option Z :=
  if 0 <=? i then buf !! Z.to_nat i else None.

Definition store (buf : list Z) (i v : Z) : option (list Z) :=
  if (0 <=? i) && (i <? Z.of_nat (length buf))
  then Some (<[Z.to_nat i := v]> buf)
  else None.

(** The first [n] cells of an array, when it has that many. *)
Definition load_range (buf : list Z) (n : Z) : option (list Z) :=
  if (0 <=? n) && (n <=? Z.of_nat (length buf))
  then Some (take (Z.to_nat n) buf)
  else None.

(** ** The world: serial line, clock, driver-enable pin *)

Inductive event :=
  | DigitalWrite (pin level : Z)
  | SerialWrite (bytes : list Z).

(** [rx] holds the bytes waiting in the receive buffer, [arrivals] the
    bytes that will arrive during each coming millisecond, [out] what the
    station did to the outside so far, oldest first, and [pin_DE] the
    global [_pin_DE]. *)
Record world := World {
  rx : list Z;
  arrivals : list (list Z);
  out : list event;
  pin_DE : Z
}.

Definition set_rx (r : list Z) (w : world) : world :=
  World r (arrivals w) (out w) (pin_DE w).

Definition emit (e : event) (w : world) : world :=
  World (rx w) (arrivals w) (out w ++ [e]) (pin_DE w).

(** [Serial2.available()], used only as a truth value. *)
Definition Serial2_available (w : world) : bool :=
  match rx w with [] => false | _ :: _ => true end.

(** [Serial2.read()]: the oldest byte, or -1 when there is none. *)
Definition Serial2_read (w : world) : Z * world :=
  match rx w with
  | [] => (-1, w)
  | b :: r => (b, set_rx r w)
  end.

(** One millisecond passes: what arrived joins the receive buffer. *)
Definition tick (w : world) : world :=
  match arrivals w with
  | [] => w
  | c :: cs => World (rx w ++ c) cs (out w) (pin_DE w)
  end.

Definition delay (ms : nat) (w : world) : world := Nat.iter ms tick w.

(** Modelled from the spec: [Serial2.flush()] belongs to the board
    support package, not to this repository; the line flush "drains and
    discards" what is on the transport, so it empties the receive
    buffer. *)
Definition Serial2_flush (w : world) : world := set_rx [] w.

Definition Serial2_write (bytes : list Z) (w : world) : world :=
  emit (SerialWrite bytes) w.

Definition digitalWrite (pin level : Z) (w : world) : world :=
  emit (DigitalWrite pin level) w.

(** [SimpleModbusSlave::setup]: the pin is remembered; opening the port
    at the given speed leaves no trace in the model. *)
Definition setup (baud RS485DE_Pin : Z) (w : world) : world :=
  World (rx w) (arrivals w) (out w) RS485DE_Pin.

(** ** Constants of the source *)

Definition _MODBUS_RTU_SLAVE : Z := 0.
Definition _MODBUS_RTU_FUNCTION : Z := 1.
Definition _MODBUS_RTU_PRESET_REQ_LENGTH : Z := 6.
Definition _MODBUS_RTU_PRESET_RSP_LENGTH : Z := 2.
Definition _MODBUS_RTU_CHECKSUM_LENGTH : Z := 2.
Definition _MODBUSINO_RTU_MAX_ADU_LENGTH : Z := 256.
Definition _FC_READ_HOLDING_REGISTERS : Z := 0x03.
Definition _FC_WRITE_MULTIPLE_REGISTERS : Z := 0x10.

Definition MODBUS_BROADCAST_ADDRESS : Z := 0.
Definition MODBUS_EXCEPTION_ILLEGAL_FUNCTION : Z := 1.
Definition MODBUS_EXCEPTION_ILLEGAL_DATA_ADDRESS : Z := 2.
Definition MODBUS_EXCEPTION_ILLEGAL_DATA_VALUE : Z := 3.

Inductive step_t := _STEP_FUNCTION | _STEP_META | _STEP_DATA.

(** The constructor: [_slave] takes the identity given when the test
    [slave >= 0 & slave <= 247] (a bitwise and of the two comparisons)
    is not 0, and keeps what it held, [_slave0], otherwise. *)
Definition SimpleModbusSlave (slave _slave0 : Z) : Z :=
  if Z.land (Z.b2z (slave >=? 0)) (Z.b2z (slave <=? 247)) =? 0
  then _slave0 else slave.

(** Accesses to the caller's register table, recorded in program order. *)
Inductive access :=
  | TabRead (i : Z)
  | TabWrite (i v : Z).

(** The loop state of [receive]. *)
Record rstate := RState {
  length_to_read : Z;
  req_index : Z;
  step : step_t;
  function : Z;
  req : list Z
}.

(** What one pass over the end-of-step code of [receive] decides. *)
Inductive ctl :=
  | Continue (st : rstate) (w : world)
  | Return (rc : Z) (rq : list Z) (w : world).

(** How the [while] loop of [receive] ends: by a [return] inside it, or
    by falling out of it with the frame accumulated.  [wl] lists the
    indices of [req] written by the loop, in program order. *)
Inductive rres :=
  | Returned (rc : Z) (rq : list Z) (w : world) (wl : list Z)
  | Completed (st : rstate) (w : world) (wl : list Z).

(** What the wait for one byte ends with. *)
Inductive rx_result :=
  | RxByte (b : Z) (w : world)
  | RxTimeout (w : world).

Section Slave.

(** The checksum primitive is supplied from outside the repository:
    [crc16 bytes] is the 16-bit checksum of a byte sequence and
    [crc16_bytes bytes] the two bytes that [add_crc16] puts behind it. *)
Variable crc16 : list Z -> Z.
Variable crc16_bytes : list Z -> Z * Z.

(** The two informative codes are used by the source but defined in no
    file of it; they are parameters here. *)
Variable MODBUS_INFORMATIVE_NOT_FOR_US : Z.
Variable MODBUS_INFORMATIVE_RX_TIMEOUT : Z.

(** Modelled from the spec: [add_crc16] is the "frame-appending
    counterpart" of the checksum; it is missing from the source.  It
    stores the two checksum bytes of [msg[0 .. msg_length)] at
    [msg[msg_length]] and [msg[msg_length + 1]]. *)
Definition add_crc16 (msg : list Z) (msg_length : Z) : option (list Z) :=
  data ← load_range msg msg_length;
  msg1 ← store msg msg_length (crc16_bytes data).1;
  store msg1 (msg_length + 1) (crc16_bytes data).2.

Definition check_integrity (msg : list Z) (msg_length : Z) : option Z :=
  if 2 <=? msg_length then
    data ← load_range msg msg_length;
    if crc16 data =? 0 then Some msg_length else Some (-1)
  else Some (-1).

Definition build_response_basis (slave function : Z) (rsp : list Z)
  : option (list Z * Z) :=
  rsp1 ← store rsp 0 slave;
  rsp2 ← store rsp1 1 function;
  Some (rsp2, _MODBUS_RTU_PRESET_RSP_LENGTH).

Definition send_msg (msg : list Z) (msg_length : Z) (w : world)
  : option (list Z * world) :=
  msg1 ← add_crc16 msg msg_length;
  let w1 := digitalWrite (pin_DE w) 1 w in
  bytes ← load_range msg1 (msg_length + 2);
  let w2 := Serial2_write bytes w1 in
  Some (msg1, digitalWrite (pin_DE w) 0 w2).

Definition response_exception (slave function exception_code : Z)
  (rsp : list Z) : option (list Z * Z) :=
  '(rsp1, rsp_length) ← build_response_basis slave (u8 (function + 0x80)) rsp;
  rsp2 ← store rsp1 rsp_length exception_code;
  Some (rsp2, u8 (rsp_length + 1)).

(** [flush]: [n] counts the rounds still allowed, [10 - i]. *)
Fixpoint flush_rounds (n : nat) (w : world) : world :=
  if Serial2_available w then
    match n with
    | O => w
    | S n' => flush_rounds n' (delay 3 (Serial2_flush w))
    end
  else w.

Definition flush (w : world) : world := flush_rounds 10 w.

(** The per-byte wait of [receive]: [++i == 10] fires on the tenth
    unsuccessful poll, that is after [n = 9] delays of one millisecond.
    The boolean tells whether a byte is there; [false] is the timeout. *)
Fixpoint rx_wait (n : nat) (w : world) : bool * world :=
  if Serial2_available w then (true, w)
  else match n with
       | O => (false, w)
       | S n' => rx_wait n' (delay 1 w)
       end.

(** Waiting for a byte and reading it. *)
Definition next_byte (w : world) : rx_result :=
  let '(arrived, w1) := rx_wait 9 w in
  if arrived then let '(b, w2) := Serial2_read w1 in RxByte b w2
  else RxTimeout w1.

Definition for_me (a _slave : Z) : bool :=
  (a =? _slave) || (a =? MODBUS_BROADCAST_ADDRESS).

(** The code run when [length_to_read] reaches 0.  The index of the
    second test of the address filter is the value of the comparison
    [_MODBUS_RTU_SLAVE != MODBUS_BROADCAST_ADDRESS], as written. *)
Definition end_of_step (_slave : Z) (st : rstate) (w : world) : option ctl :=
  a ← load (req st) _MODBUS_RTU_SLAVE;
  a' ← load (req st)
        (if _MODBUS_RTU_SLAVE =? MODBUS_BROADCAST_ADDRESS then 0 else 1);
  if negb (a =? _slave) && negb (a' =? 0) then
    Some (Return (-1 - MODBUS_INFORMATIVE_NOT_FOR_US) (req st) (flush w))
  else
    match step st with
    | _STEP_FUNCTION =>
        function ← load (req st) _MODBUS_RTU_FUNCTION;
        if function =? _FC_READ_HOLDING_REGISTERS then
          Some (Continue (RState 4 (req_index st) _STEP_META function (req st)) w)
        else if function =? _FC_WRITE_MULTIPLE_REGISTERS then
          Some (Continue (RState 5 (req_index st) _STEP_META function (req st)) w)
        else
          let w1 := flush w in
          if for_me a _slave then
            '(rq, rsp_length) ←
              response_exception _slave function
                MODBUS_EXCEPTION_ILLEGAL_FUNCTION (req st);
            '(rq1, w2) ← send_msg rq rsp_length w1;
            Some (Return (-1 - MODBUS_EXCEPTION_ILLEGAL_FUNCTION) rq1 w2)
          else Some (Return (-1) (req st) w1)
    | _STEP_META =>
        length_to_read ←
          (if function st =? _FC_WRITE_MULTIPLE_REGISTERS
           then n ← load (req st) (_MODBUS_RTU_FUNCTION + 5);
                Some (u8 (_MODBUS_RTU_CHECKSUM_LENGTH + n))
           else Some _MODBUS_RTU_CHECKSUM_LENGTH);
        if req_index st + length_to_read >? _MODBUSINO_RTU_MAX_ADU_LENGTH then
          let w1 := flush w in
          if for_me a _slave then
            '(rq, rsp_length) ←
              response_exception _slave (function st)
                MODBUS_EXCEPTION_ILLEGAL_DATA_VALUE (req st);
            '(rq1, w2) ← send_msg rq rsp_length w1;
            Some (Return (-1 - MODBUS_EXCEPTION_ILLEGAL_FUNCTION) rq1 w2)
          else Some (Return (-1) (req st) w1)
        else
          Some (Continue
                  (RState length_to_read (req_index st) _STEP_DATA
                          (function st) (req st)) w)
    | _STEP_DATA => Some (Continue st w)
    end.

(** The [while] loop of [receive].  Every round reads one byte, so the
    budget [fuel] counts rounds; [receive_trace_post] shows that the
    budget given by [receive] is never used up. *)
Fixpoint receive_loop (fuel : nat) (_slave : Z) (st : rstate) (w : world)
  (wl : list Z) : option rres :=
  if length_to_read st =? 0 then Some (Completed st w wl)
  else
    match fuel with
    | O => None
    | S fuel' =>
        match next_byte w with
        | RxTimeout w1 =>
            Some (Returned (-1 - MODBUS_INFORMATIVE_RX_TIMEOUT) (req st) w1 wl)
        | RxByte b w1 =>
            rq ← store (req st) (req_index st) (u8 b);
            let st1 :=
              RState (u8 (length_to_read st - 1)) (u8 (req_index st + 1))
                     (step st) (function st) rq in
            let wl1 := wl ++ [req_index st] in
            if length_to_read st1 =? 0 then
              c ← end_of_step _slave st1 w1;
              match c with
              | Continue st2 w2 => receive_loop fuel' _slave st2 w2 wl1
              | Return rc rq1 w2 => Some (Returned rc rq1 w2 wl1)
              end
            else receive_loop fuel' _slave st1 w1 wl1
        end
    end.

(** The state [receive] starts from.  [function] is not initialised by
    the source; it is assigned in [_STEP_FUNCTION] before any use, and 0
    stands for its indeterminate first value. *)
Definition receive_init (req : list Z) : rstate :=
  RState (_MODBUS_RTU_FUNCTION + 1) 0 _STEP_FUNCTION 0 req.

(** No reception takes more rounds than this: 2 bytes up to the function
    code, at most 5 more of header, at most 255 of data and checksum. *)
Definition receive_fuel : nat := 263.

Definition receive_trace (req : list Z) (_slave : Z) (w : world)
  : option rres :=
  receive_loop receive_fuel _slave (receive_init req) w [].

Definition receive (req0 : list Z) (_slave : Z) (w : world)
  : option (Z * list Z * world) :=
  r ← receive_trace req0 _slave w;
  match r with
  | Returned rc rq w1 _ => Some (rc, rq, w1)
  | Completed st w1 _ =>
      rc ← check_integrity (req st) (req_index st);
      Some (rc, req st, w1)
  end.

(** The register loops of [reply].  [i] is a [uint16_t], the bound
    [lim = address + nb] an [int]. *)
Fixpoint read_registers (fuel : nat) (i lim : Z) (tab_reg rsp : list Z)
  (rsp_length : Z) (acc : list access) : option (list Z * Z * list access) :=
  if i <? lim then
    match fuel with
    | O => None
    | S fuel' =>
        v ← load tab_reg i;
        rsp1 ← store rsp rsp_length (u8 (Z.shiftr v 8));
        rsp2 ← store rsp1 (u8 (rsp_length + 1)) (u8 (Z.land v 0xFF));
        read_registers fuel' (u16 (i + 1)) lim tab_reg rsp2
          (u8 (u8 (rsp_length + 1) + 1)) (acc ++ [TabRead i])
    end
  else Some (rsp, rsp_length, acc).

Fixpoint write_registers (fuel : nat) (i j lim : Z) (req tab_reg : list Z)
  (acc : list access) : option (list Z * list access) :=
  if i <? lim then
    match fuel with
    | O => None
    | S fuel' =>
        hi ← load req (_MODBUS_RTU_FUNCTION + j);
        lo ← load req (_MODBUS_RTU_FUNCTION + j + 1);
        let v := word hi lo in
        tab1 ← store tab_reg i v;
        write_registers fuel' (u16 (i + 1)) (u16 (j + 2)) lim req tab1
          (acc ++ [TabWrite i v])
    end
  else Some (tab_reg, acc).

(** [memcpy (dst + off, src + off, n)], byte by byte. *)
Fixpoint memcpy_at (n : nat) (off : Z) (dst src : list Z) : option (list Z) :=
  match n with
  | O => Some dst
  | S n' =>
      b ← load src off;
      dst1 ← store dst off b;
      memcpy_at n' (off + 1) dst1 src
  end.

(** The loops run on a 16-bit counter below a bound that has passed the
    test against [nb_reg], itself 16 bits wide: they make fewer rounds
    than this. *)
Definition register_fuel : nat := Z.to_nat 65536.

(** [reply]; [rsp] is the local response array with whatever it holds
    on entry.  The result is the register table afterwards, the accesses
    made to it, and the world. *)
Definition reply (tab_reg : list Z) (nb_reg : Z) (req : list Z)
  (req_length : Z) (_slave : Z) (rsp : list Z) (w : world)
  : option (list Z * list access * world) :=
  slave ← load req _MODBUS_RTU_SLAVE;
  function ← load req _MODBUS_RTU_FUNCTION;
  a_hi ← load req (_MODBUS_RTU_FUNCTION + 1);
  a_lo ← load req (_MODBUS_RTU_FUNCTION + 2);
  n_hi ← load req (_MODBUS_RTU_FUNCTION + 3);
  n_lo ← load req (_MODBUS_RTU_FUNCTION + 4);
  let address := word a_hi a_lo in
  let nb := word n_hi n_lo in
  if negb (slave =? _slave) && negb (slave =? MODBUS_BROADCAST_ADDRESS)
  then Some (tab_reg, [], w)
  else if address + nb >? nb_reg then
    '(rsp1, rsp_length) ←
      response_exception slave function
        MODBUS_EXCEPTION_ILLEGAL_DATA_ADDRESS rsp;
    '(_, w1) ← send_msg rsp1 rsp_length w;
    Some (tab_reg, [], w1)
  else
  let req_length := u8 (req_length - _MODBUS_RTU_CHECKSUM_LENGTH) in
  if function =? _FC_READ_HOLDING_REGISTERS then
    '(rsp1, rsp_length) ← build_response_basis slave function rsp;
    rsp2 ← store rsp1 rsp_length (u8 (Z.shiftl nb 1));
    '(rsp3, rsp_length, acc) ←
      read_registers register_fuel address (address + nb) tab_reg rsp2
        (u8 (rsp_length + 1)) [];
    '(_, w1) ← send_msg rsp3 rsp_length w;
    Some (tab_reg, acc, w1)
  else
    '(tab1, acc) ←
      write_registers register_fuel address 6 (address + nb) req tab_reg [];
    '(rsp1, rsp_length) ← build_response_basis slave function rsp;
    rsp2 ← memcpy_at 4 rsp_length rsp1 req;
    '(_, w1) ← send_msg rsp2 (u8 (rsp_length + 4)) w;
    Some (tab1, acc, w1).

(** [SimpleModbusSlave::loop]: the status, the register table, the
    accesses made to it, and the world.  [req] and [rsp] are the two
    local arrays as they are found on the stack. *)
Definition loop (tab_reg : list Z) (nb_reg : Z) (_slave : Z)
  (req rsp : list Z) (w : world)
  : option (Z * list Z * list access * world) :=
  if Serial2_available w then
    '(rc, rq, w1) ← receive req _slave w;
    if rc >? 0 then
      '(tab1, acc, w2) ← reply tab_reg nb_reg rq (u8 rc) _slave rsp w1;
      Some (rc, tab1, acc, w2)
    else Some (rc, tab_reg, [], w1)
  else Some (0, tab_reg, [], w).

End Slave.

(** * The vocabulary of the statements *)

(** A message body followed by its two checksum bytes. *)
Definition framed (crc16_bytes : list Z -> Z * Z) (body : list Z)
  : list Z :=
  body ++ [(crc16_bytes body).1; (crc16_bytes body).2].

(** The world after [body] went out on the line, framed, between the
    two toggles of the driver-enable pin. *)
Definition transmitted (crc16_bytes : list Z -> Z * Z) (body : list Z)
  (w : world) : world :=
  digitalWrite (pin_DE w) 0
    (Serial2_write (framed crc16_bytes body) (digitalWrite (pin_DE w) 1 w)).

(** Register values as they go on the wire: two bytes each, the most
    significant first, in the order of the list. *)
Fixpoint big_endian (regs : list Z) : list Z :=
  match regs with
  | [] => []
  | v :: regs' => u8 (Z.shiftr v 8) :: u8 (Z.land v 0xFF) :: big_endian regs'
  end.

(** The table index an access goes to. *)
Definition access_index (e : access) : Z :=
  match e with TabRead i | TabWrite i _ => i end.

(** A write request is well formed when its function code is 0x10, its
    byte-count field is twice its register count, and the frame has the
    length this announces (7 header bytes, the register values, 2
    checksum bytes) within the maximum ADU size. *)
Definition write_request_valid (req : list Z) (req_length : Z) : bool :=
  match req with
  | _ :: f :: _ :: _ :: n_hi :: n_lo :: byte_count :: _ =>
      (f =? _FC_WRITE_MULTIPLE_REGISTERS)
      && (byte_count =? 2 * word n_hi n_lo)
      && (req_length =? 9 + byte_count)
      && (req_length <=? _MODBUSINO_RTU_MAX_ADU_LENGTH)
  | _ => false
  end.

(** Every cell of a [uint8_t] array holds a byte. *)
Definition all_bytes (buf : list Z) : bool :=
  forallb (fun b => (0 <=? b) && (b <? 256)) buf.

(** Modelled from the spec: [MODBUS_INFORMATIVE_NOT_FOR_US] and
    [MODBUS_INFORMATIVE_RX_TIMEOUT] are defined in no file of the source.
    The statuses are "distinct negative codes", and the comment closing
    [loop] lists the two informative statuses after those of the three
    exception codes: both codes lie above the exception codes and
    differ from each other. *)
Definition informative_codes (not_for_us rx_timeout : Z) : Prop :=
  MODBUS_EXCEPTION_ILLEGAL_DATA_VALUE < not_for_us
  /\ MODBUS_EXCEPTION_ILLEGAL_DATA_VALUE < rx_timeout
  /\ not_for_us <> rx_timeout.

(** The header of the request is in place: an address this station
    answers to, and one of the two supported function codes. *)
Definition header_ok (_slave : Z) (st : rstate) : Prop :=
  exists a,
    load (req st) 0 = Some a /\ for_me a _slave = true
    /\ load (req st) 1 = Some (function st)
    /\ (function st = _FC_READ_HOLDING_REGISTERS
        \/ function st = _FC_WRITE_MULTIPLE_REGISTERS).

(** What holds each time the [while] loop of [receive] tests its
    condition; [wl] is the list of indices written so far. *)
Definition loop_inv (_slave : Z) (st : rstate) (wl : list Z) : Prop :=
  let k := Z.of_nat (length wl) in
  length (req st) = 256%nat /\ wl = seqZ 0 k /\ req_index st = u8 k /\
  match step st with
  | _STEP_FUNCTION => 1 <= length_to_read st /\ k + length_to_read st = 2
  | _STEP_META =>
      header_ok _slave st /\ 2 <= k /\ 1 <= length_to_read st
      /\ k + length_to_read st <= 7
  | _STEP_DATA =>
      header_ok _slave st /\ 2 <= k /\ 0 <= length_to_read st
      /\ k + length_to_read st <= 256
  end.

(** An upper bound on the rounds still to come. *)
Definition rounds_left (st : rstate) : Z :=
  match step st with
  | _STEP_FUNCTION => 260 + length_to_read st
  | _STEP_META => 255 + length_to_read st
  | _STEP_DATA => length_to_read st
  end.

(** What holds when the loop is left; [o] is what had gone out before. *)
Definition loop_post (not_for_us rx_timeout : Z) (_slave : Z)
  (o : list event) (r : rres) : Prop :=
  match r with
  | Returned rc rq w wl =>
      (rc = -1 - rx_timeout \/ rc = -1 - not_for_us
       \/ rc = -1 - MODBUS_EXCEPTION_ILLEGAL_FUNCTION)
      /\ length rq = 256%nat /\ wl = seqZ 0 (Z.of_nat (length wl))
      /\ Z.of_nat (length wl) <= 256
  | Completed st w wl =>
      loop_inv _slave st wl /\ step st = _STEP_DATA
      /\ length_to_read st = 0 /\ out w = o
  end.

(** The indices of [req] written during a reception. *)
Definition writes (r : rres) : list Z :=
  match r with
  | Returned _ _ _ wl => wl
  | Completed _ _ wl => wl
  end.

(** One round of [flush]: what waits is discarded, then 3 ms pass. *)
Definition flush_round (w : world) : world := delay 3 (Serial2_flush w).

(** The station sent one exception frame between [w] and [w1]. *)
Definition sent_exception (crc16_bytes : list Z -> Z * Z) (_slave : Z)
  (w w1 : world) : Prop :=
  exists fn code,
    (code = MODBUS_EXCEPTION_ILLEGAL_FUNCTION
     \/ code = MODBUS_EXCEPTION_ILLEGAL_DATA_VALUE)
    /\ out w1
       = out w ++ [DigitalWrite (pin_DE w) 1;
                   SerialWrite (framed crc16_bytes [_slave; u8 (fn + 0x80); code]);
                   DigitalWrite (pin_DE w) 0].

(** What a reception may have done to the outside. *)
Definition receive_effect (crc16_bytes : list Z -> Z * Z) (_slave : Z)
  (w : world) (rc : Z) (w1 : world) : Prop :=
  pin_DE w1 = pin_DE w
  /\ (out w1 = out w
      \/ (rc = -1 - MODBUS_EXCEPTION_ILLEGAL_FUNCTION
          /\ sent_exception crc16_bytes _slave w w1)).

(** The request array after the bytes [got] were stored from its start. *)
Definition stored (got req0 : list Z) : list Z :=
  (u8 <$> got) ++ drop (length got) req0.

(** ** A concrete checksum: CRC-16/MODBUS

    Used to run the model on whole frames. *)
Module Crc.

Definition shift_xor (c : Z) : Z :=
  if Z.odd c then Z.lxor (Z.shiftr c 1) 0xA001 else Z.shiftr c 1.

Definition feed (c b : Z) : Z := Nat.iter 8 shift_xor (Z.lxor c b).

Definition crc16 (bytes : list Z) : Z := fold_left feed bytes 0xFFFF.

Definition crc16_bytes (bytes : list Z) : Z * Z :=
  (Z.land (crc16 bytes) 0xFF, Z.shiftr (crc16 bytes) 8).

End Crc.

(** A line on which [bytes] wait and nothing more arrives; the
    driver-enable pin is 33, [MODBUS_DE] of the example hardware. *)
Definition line (bytes : list Z) : world := World bytes [] [] 33.

(** A local array of 256 bytes that happens to hold zeros. *)
Definition zeros : list Z := replicate 256 0.

(** A message body with its CRC-16/MODBUS appended. *)
Definition frame (body : list Z) : list Z := framed Crc.crc16_bytes body.

(** One cycle of station [_slave] on [line bytes], the declared size of
    the table being its length.  The informative codes are 5 and 6, for
    which the statuses are the -6 and -7 of the comment closing [loop]. *)
Definition run (tab_reg : list Z) (_slave : Z) (bytes : list Z) :=
  loop Crc.crc16 Crc.crc16_bytes 5 6 tab_reg (Z.of_nat (length tab_reg))
       _slave zeros zeros (line bytes).

(** * Properties *)

Lemma register_fuel_val : Z.of_nat register_fuel = 65536.
Proof. reflexivity. Qed.

(** ** Arrays *)

Lemma store_Some (buf : list Z) (i v : Z) :
  0 <= i < Z.of_nat (length buf) ->
  store buf i v = Some (<[Z.to_nat i := v]> buf).
Proof.
  intros H. unfold store.
  destruct (Z.leb_spec 0 i); [|lia].
  destruct (Z.ltb_spec i (Z.of_nat (length buf))); [|lia].
  reflexivity.
Qed.

Lemma store_inv (buf : list Z) (i v : Z) (buf' : list Z) :
  store buf i v = Some buf' ->
  0 <= i < Z.of_nat (length buf) /\ buf' = <[Z.to_nat i := v]> buf.
Proof.
  unfold store.
  destruct (Z.leb_spec 0 i); [|discriminate].
  destruct (Z.ltb_spec i (Z.of_nat (length buf))); [|discriminate].
  intros [= <-]. split; [lia | reflexivity].
Qed.

Lemma store_length (buf : list Z) (i v : Z) (buf' : list Z) :
  store buf i v = Some buf' -> length buf' = length buf.
Proof.
  intros H. apply store_inv in H as [_ ->]. apply length_insert.
Qed.

Lemma load_nat (buf : list Z) (n : nat) : load buf (Z.of_nat n) = buf !! n.
Proof.
  unfold load. destruct (Z.leb_spec 0 (Z.of_nat n)); [|lia].
  by rewrite Nat2Z.id.
Qed.

Lemma load_store_ne (buf buf' : list Z) (i j v : Z) :
  store buf i v = Some buf' -> 0 <= j -> i <> j -> load buf' j = load buf j.
Proof.
  intros H Hj Hne. apply store_inv in H as [Hi ->]. unfold load.
  destruct (Z.leb_spec 0 j); [|lia].
  apply list_lookup_insert_ne. lia.
Qed.

Lemma load_store_eq (buf buf' : list Z) (i v : Z) :
  store buf i v = Some buf' -> load buf' i = Some v.
Proof.
  intros H. apply store_inv in H as [Hi ->]. unfold load.
  destruct (Z.leb_spec 0 i); [|lia].
  apply list_lookup_insert_eq. lia.
Qed.

Lemma load_range_app (body rest : list Z) :
  load_range (body ++ rest) (Z.of_nat (length body)) = Some body.
Proof.
  unfold load_range. rewrite length_app.
  destruct (Z.leb_spec 0 (Z.of_nat (length body))); [|lia].
  destruct (Z.leb_spec (Z.of_nat (length body))
              (Z.of_nat (length body + length rest))); [|lia].
  simpl. by rewrite Nat2Z.id, take_app_length.
Qed.

Lemma store_app_r (body rest : list Z) (i v : Z) :
  0 <= i < Z.of_nat (length rest) ->
  store (body ++ rest) (Z.of_nat (length body) + i) v
  = Some (body ++ <[Z.to_nat i := v]> rest).
Proof.
  intros H. rewrite store_Some by (rewrite length_app; lia).
  f_equal.
  replace (Z.to_nat (Z.of_nat (length body) + i))
    with (length body + Z.to_nat i)%nat by lia.
  apply insert_app_r.
Qed.

(** ** The world *)

Lemma out_delay (n : nat) (w : world) : out (delay n w) = out w.
Proof.
  induction n as [|n IH]; [reflexivity|].
  unfold delay in *. simpl. unfold tick at 1.
  destruct (arrivals (Nat.iter n tick w)); simpl; exact IH.
Qed.

Lemma pin_delay (n : nat) (w : world) : pin_DE (delay n w) = pin_DE w.
Proof.
  induction n as [|n IH]; [reflexivity|].
  unfold delay in *. simpl. unfold tick at 1.
  destruct (arrivals (Nat.iter n tick w)); simpl; exact IH.
Qed.

Lemma out_flush_rounds (n : nat) (w : world) : out (flush_rounds n w) = out w.
Proof.
  revert w. induction n as [|n IH]; intros w; cbn [flush_rounds].
  - by destruct (Serial2_available w).
  - destruct (Serial2_available w); [|reflexivity].
    by rewrite IH, out_delay.
Qed.

Lemma pin_flush_rounds (n : nat) (w : world) :
  pin_DE (flush_rounds n w) = pin_DE w.
Proof.
  revert w. induction n as [|n IH]; intros w; cbn [flush_rounds].
  - by destruct (Serial2_available w).
  - destruct (Serial2_available w); [|reflexivity].
    by rewrite IH, pin_delay.
Qed.

Lemma out_flush (w : world) : out (flush w) = out w.
Proof. apply out_flush_rounds. Qed.

Lemma pin_flush (w : world) : pin_DE (flush w) = pin_DE w.
Proof. apply pin_flush_rounds. Qed.

Lemma rx_wait_quiet (n : nat) (w : world) :
  out (rx_wait n w).2 = out w /\ pin_DE (rx_wait n w).2 = pin_DE w.
Proof.
  revert w. induction n as [|n IH]; intros w; cbn [rx_wait].
  - by destruct (Serial2_available w).
  - destruct (Serial2_available w); [done|].
    destruct (IH (delay 1 w)) as [-> ->].
    by rewrite out_delay, pin_delay.
Qed.

Lemma next_byte_quiet (w w1 : world) (b : Z) :
  next_byte w = RxByte b w1 -> out w1 = out w /\ pin_DE w1 = pin_DE w.
Proof.
  unfold next_byte. pose proof (rx_wait_quiet 9 w) as [Ho Hp].
  destruct (rx_wait 9 w) as [[] w0]; [|discriminate].
  simpl in Ho, Hp. rewrite <- Ho, <- Hp.
  unfold Serial2_read. destruct (rx w0); intros [= <- <-]; done.
Qed.

Lemma next_byte_timeout_quiet (w w1 : world) :
  next_byte w = RxTimeout w1 -> out w1 = out w /\ pin_DE w1 = pin_DE w.
Proof.
  unfold next_byte. pose proof (rx_wait_quiet 9 w) as [Ho Hp].
  destruct (rx_wait 9 w) as [[] w0].
  - destruct (Serial2_read w0). discriminate.
  - simpl in Ho, Hp. by intros [= <-].
Qed.

Section SlaveFacts.

Variable crc16 : list Z -> Z.
Variable crc16_bytes : list Z -> Z * Z.
Variable MODBUS_INFORMATIVE_NOT_FOR_US : Z.
Variable MODBUS_INFORMATIVE_RX_TIMEOUT : Z.

Abbreviation framed := (framed crc16_bytes).
Abbreviation transmitted := (transmitted crc16_bytes).

Lemma out_transmitted (body : list Z) (w : world) :
  out (transmitted body w)
  = out w ++ [DigitalWrite (pin_DE w) 1; SerialWrite (framed body);
              DigitalWrite (pin_DE w) 0].
Proof. unfold transmitted. simpl. by rewrite <- !app_assoc. Qed.

Lemma send_msg_app (body rest : list Z) (w : world) :
  (2 <= length rest)%nat ->
  send_msg crc16_bytes (body ++ rest) (Z.of_nat (length body)) w
  = Some (framed body ++ drop 2 rest, transmitted body w).
Proof.
  intros Hrest.
  destruct rest as [|x [|y rest]]; simpl in Hrest; try lia.
  unfold send_msg, add_crc16. rewrite load_range_app. simpl.
  replace (Z.of_nat (length body)) with (Z.of_nat (length body) + 0) at 1 by lia.
  rewrite store_app_r by (simpl; lia). simpl.
  rewrite store_app_r by (simpl; lia). simpl.
  replace (body ++ (crc16_bytes body).1 :: (crc16_bytes body).2 :: rest)
    with (framed body ++ rest)
    by (unfold framed; by rewrite <- app_assoc).
  replace (Z.of_nat (length body) + 2) with (Z.of_nat (length (framed body)))
    by (unfold framed; rewrite length_app; simpl; lia).
  rewrite load_range_app. simpl. by rewrite drop_0.
Qed.

Lemma build_response_basis_cells (slave fn : Z) (rsp : list Z) :
  (2 <= length rsp)%nat ->
  build_response_basis slave fn rsp = Some ([slave; fn] ++ drop 2 rsp, 2).
Proof.
  intros H. destruct rsp as [|x [|y rsp]]; simpl in H; try lia.
  unfold build_response_basis.
  rewrite store_Some by (simpl; lia). simpl.
  rewrite store_Some by (simpl; lia). reflexivity.
Qed.

Lemma response_exception_cells (slave fn code : Z) (rsp : list Z) :
  (3 <= length rsp)%nat ->
  response_exception slave fn code rsp
  = Some ([slave; u8 (fn + 0x80); code] ++ drop 3 rsp, 3).
Proof.
  intros H. unfold response_exception.
  rewrite build_response_basis_cells by lia.
  destruct rsp as [|x [|y [|z rsp]]]; simpl in H; try lia.
  simpl. rewrite store_Some by (simpl; lia). reflexivity.
Qed.

Lemma send_msg_take (msg : list Z) (msg_length : Z) (w : world) :
  0 <= msg_length -> msg_length + 2 <= Z.of_nat (length msg) ->
  exists msg',
    send_msg crc16_bytes msg msg_length w
    = Some (msg', transmitted (take (Z.to_nat msg_length) msg) w)
    /\ length msg' = length msg.
Proof.
  intros H0 H2.
  pose proof (take_drop (Z.to_nat msg_length) msg) as Hsplit.
  assert (Hlen : length (take (Z.to_nat msg_length) msg) = Z.to_nat msg_length)
    by (rewrite length_take; lia).
  assert (Hrest : (2 <= length (drop (Z.to_nat msg_length) msg))%nat)
    by (rewrite length_drop; lia).
  set (body := take (Z.to_nat msg_length) msg) in *.
  set (rest := drop (Z.to_nat msg_length) msg) in *.
  assert (E : send_msg crc16_bytes msg msg_length w
              = send_msg crc16_bytes (body ++ rest) (Z.of_nat (length body)) w)
    by (rewrite Hsplit; f_equal; lia).
  eexists. split.
  - rewrite E. by apply send_msg_app.
  - rewrite <- Hsplit. unfold framed.
    rewrite !length_app, length_drop. simpl. lia.
Qed.

End SlaveFacts.

(** ** Machine integers *)

Lemma u8_small (x : Z) : 0 <= x < 256 -> u8 x = x.
Proof. intros H. unfold u8. by apply Z.mod_small. Qed.

Lemma u16_small (x : Z) : 0 <= x < 65536 -> u16 x = x.
Proof. intros H. unfold u16. by apply Z.mod_small. Qed.

Lemma u8_range (x : Z) : 0 <= u8 x < 256.
Proof. unfold u8. apply Z.mod_pos_bound. lia. Qed.

Lemma word_range (hi lo : Z) : 0 <= word hi lo < 65536.
Proof. unfold word, u16. apply Z.mod_pos_bound. lia. Qed.

(** For bytes, [(hi << 8) + lo] is [256 * hi + lo] and fits 16 bits. *)
Lemma word_bytes (hi lo : Z) :
  0 <= hi < 256 -> 0 <= lo < 256 -> word hi lo = 256 * hi + lo.
Proof.
  intros Hhi Hlo. unfold word. rewrite Z.shiftl_mul_pow2 by lia.
  change (2 ^ 8) with 256. rewrite u16_small; lia.
Qed.

(** ** The dispatcher *)

Lemma big_endian_length (regs : list Z) :
  length (big_endian regs) = (2 * length regs)%nat.
Proof. induction regs as [|v regs IH]; simpl; lia. Qed.

(** For a 16-bit value the two bytes are the quotient and the remainder
    by 256. *)
Lemma big_endian_16 (v : Z) :
  0 <= v < 65536 -> big_endian [v] = [v / 256; v mod 256].
Proof.
  intros Hv. simpl. rewrite Z.shiftr_div_pow2 by lia.
  change (2 ^ 8) with 256. change 255 with (Z.ones 8).
  rewrite Z.land_ones by lia. change (2 ^ 8) with 256.
  rewrite !u8_small; [done | apply Z.mod_pos_bound; lia |].
  split; [apply Z.div_pos; lia | apply Z.div_lt_upper_bound; lia].
Qed.

Lemma read_registers_run (k : nat) :
  forall (fuel : nat) (i : Z) (tab_reg pre rest : list Z) (acc : list access),
    (k < fuel)%nat -> 0 <= i ->
    i + Z.of_nat k <= Z.of_nat (length tab_reg) ->
    i + Z.of_nat k <= 65535 ->
    Z.of_nat (length pre) + 2 * Z.of_nat k <= 255 ->
    (2 * k <= length rest)%nat ->
    read_registers fuel i (i + Z.of_nat k) tab_reg (pre ++ rest)
      (Z.of_nat (length pre)) acc
    = Some (pre ++ big_endian (take k (drop (Z.to_nat i) tab_reg))
              ++ drop (2 * k) rest,
            Z.of_nat (length pre) + 2 * Z.of_nat k,
            acc ++ (TabRead <$> seqZ i (Z.of_nat k))).
Proof.
  induction k as [|k IH]; intros fuel i tab_reg pre rest acc Hfuel Hi Htab H16 Hpre Hrest.
  - destruct fuel; [lia|]. cbn [read_registers].
    destruct (Z.ltb_spec i (i + Z.of_nat 0)); [lia|].
    simpl. by rewrite !app_nil_r, Z.add_0_r.
  - destruct fuel as [|fuel]; [lia|]. cbn [read_registers].
    destruct (Z.ltb_spec i (i + Z.of_nat (S k))); [|lia].
    destruct (lookup_lt_is_Some_2 tab_reg (Z.to_nat i)) as [v Hv]; [lia|].
    unfold load at 1. destruct (Z.leb_spec 0 i); [|lia].
    rewrite Hv. simpl.
    destruct rest as [|x [|y rest]]; simpl in Hrest; try lia.
    replace (Z.of_nat (length pre)) with (Z.of_nat (length pre) + 0) at 1 by lia.
    rewrite store_app_r by (simpl; lia). simpl.
    rewrite (u8_small (Z.of_nat (length pre) + 1)) by lia.
    rewrite store_app_r by (simpl; lia). simpl.
    rewrite (u8_small (Z.of_nat (length pre) + 1 + 1)) by lia.
    rewrite (u16_small (i + 1)) by lia.
    replace (pre ++ u8 (Z.shiftr v 8) :: u8 (Z.land v 255) :: rest)
      with ((pre ++ [u8 (Z.shiftr v 8); u8 (Z.land v 255)]) ++ rest)
      by (by rewrite <- app_assoc).
    replace (Z.of_nat (length pre) + 1 + 1)
      with (Z.of_nat (length (pre ++ [u8 (Z.shiftr v 8); u8 (Z.land v 255)])))
      by (rewrite length_app; simpl; lia).
    replace (i + Z.of_nat (S k)) with (i + 1 + Z.of_nat k) by lia.
    rewrite IH; try lia; [|rewrite length_app; simpl; lia].
    rewrite (drop_S _ _ _ Hv). simpl.
    replace (Z.to_nat (i + 1)) with (S (Z.to_nat i)) by lia.
    replace (k + S (k + 0))%nat with (S (2 * k)) by lia. simpl.
    rewrite length_app. simpl.
    rewrite (seqZ_cons i (Z.of_nat (S k))) by lia.
    replace (Z.pred (Z.of_nat (S k))) with (Z.of_nat k) by lia.
    replace (Z.succ i) with (i + 1) by lia.
    rewrite fmap_cons, <- !app_assoc. simpl.
    do 3 f_equal. lia.
Qed.

Lemma load_is_Some (buf : list Z) (i : Z) :
  0 <= i < Z.of_nat (length buf) -> exists v, load buf i = Some v.
Proof.
  intros H. unfold load. destruct (Z.leb_spec 0 i); [|lia].
  apply lookup_lt_is_Some_2. lia.
Qed.

Lemma write_registers_run (k : nat) :
  forall (fuel : nat) (i j : Z) (req tab_reg : list Z) (acc : list access),
    (k < fuel)%nat -> 0 <= i ->
    i + Z.of_nat k <= Z.of_nat (length tab_reg) ->
    i + Z.of_nat k <= 65535 ->
    0 <= j -> j + 2 * Z.of_nat k <= 65535 ->
    1 + j + 2 * Z.of_nat k <= Z.of_nat (length req) ->
    exists tab1 acc1,
      write_registers fuel i j (i + Z.of_nat k) req tab_reg acc
      = Some (tab1, acc1)
      /\ length tab1 = length tab_reg
      /\ access_index <$> acc1
         = (access_index <$> acc) ++ seqZ i (Z.of_nat k)
      /\ (forall x, 0 <= x -> ~ (i <= x < i + Z.of_nat k) ->
            load tab1 x = load tab_reg x)
      /\ (forall m, 0 <= m < Z.of_nat k ->
            exists hi lo,
              load req (1 + j + 2 * m) = Some hi
              /\ load req (1 + j + 2 * m + 1) = Some lo
              /\ load tab1 (i + m) = Some (word hi lo)).
Proof.
  induction k as [|k IH];
    intros fuel i j req tab_reg acc Hfuel Hi Htab H16 Hj Hj16 Hreq.
  - destruct fuel; [lia|]. cbn [write_registers].
    destruct (Z.ltb_spec i (i + Z.of_nat 0)); [lia|].
    exists tab_reg, acc. split; [done|]. split; [done|].
    split; [by rewrite app_nil_r|]. split; [done | intros; lia].
  - destruct fuel as [|fuel]; [lia|]. cbn [write_registers].
    destruct (Z.ltb_spec i (i + Z.of_nat (S k))); [|lia].
    unfold _MODBUS_RTU_FUNCTION.
    destruct (load_is_Some req (1 + j)) as [hi Hhi]; [lia|].
    destruct (load_is_Some req (1 + j + 1)) as [lo Hlo]; [lia|].
    rewrite Hhi, Hlo. cbn [mbind option_bind].
    destruct (store tab_reg i (word hi lo)) as [tab1|] eqn:Hst;
      [|rewrite store_Some in Hst by lia; discriminate].
    cbn [mbind option_bind].
    rewrite (u16_small (i + 1)), (u16_small (j + 2)) by lia.
    replace (i + Z.of_nat (S k)) with (i + 1 + Z.of_nat k) by lia.
    pose proof (store_length _ _ _ _ Hst) as Hlen.
    destruct (IH fuel (i + 1) (j + 2) req tab1
                (acc ++ [TabWrite i (word hi lo)]))
      as (tab2 & acc2 & -> & Hlen2 & Hord & Hout & Hin); try lia.
    exists tab2, acc2. split; [done|]. split; [congruence|]. split.
    { rewrite Hord, fmap_app, <- app_assoc. cbn [fmap list_fmap access_index app].
      rewrite (seqZ_cons i (Z.of_nat (S k))) by lia.
      do 3 f_equal; lia. }
    split.
    + intros x Hx Hnot. rewrite Hout by lia.
      apply (load_store_ne _ _ _ _ _ Hst); lia.
    + intros m Hm. destruct (Z.eq_dec m 0) as [->|Hm0].
      * exists hi, lo. rewrite Z.mul_0_r, !Z.add_0_r.
        split; [done|]. split; [done|].
        rewrite Hout by lia. apply (load_store_eq _ _ _ _ Hst).
      * destruct (Hin (m - 1)) as (hi' & lo' & H1 & H2 & H3); [lia|].
        exists hi', lo'.
        replace (1 + j + 2 * m) with (1 + (j + 2) + 2 * (m - 1)) by lia.
        replace (i + m) with (i + 1 + (m - 1)) by lia. done.
Qed.

Lemma read_registers_reads (fuel : nat) :
  forall (i lim : Z) (tab_reg rsp : list Z) (rsp_length : Z)
         (acc : list access) (rsp' : list Z) (rsp_length' : Z)
         (acc' : list access),
    read_registers fuel i lim tab_reg rsp rsp_length acc
    = Some (rsp', rsp_length', acc') ->
    exists idx, acc' = acc ++ (TabRead <$> idx).
Proof.
  induction fuel as [|fuel IH];
    intros i lim tab_reg rsp rsp_length acc rsp' rsp_length' acc';
    cbn [read_registers]; destruct (i <? lim).
  - discriminate.
  - intros [= _ _ <-]. exists []. by rewrite app_nil_r.
  - destruct (load tab_reg i) as [v|]; [|discriminate]. cbn [mbind option_bind].
    destruct (store rsp rsp_length _) as [rsp1|]; [|discriminate].
    cbn [mbind option_bind].
    destruct (store rsp1 _ _) as [rsp2|]; [|discriminate].
    cbn [mbind option_bind].
    intros H. apply IH in H as [idx ->].
    exists (i :: idx). by rewrite <- app_assoc.
  - intros [= _ _ <-]. exists []. by rewrite app_nil_r.
Qed.

Section ReplyFacts.

Variable crc16_bytes : list Z -> Z * Z.

Abbreviation reply := (reply crc16_bytes).
Abbreviation transmitted := (transmitted crc16_bytes).
Abbreviation send_msg := (send_msg crc16_bytes).

Lemma for_me_filter (a _slave : Z) :
  for_me a _slave = true ->
  negb (a =? _slave) && negb (a =? MODBUS_BROADCAST_ADDRESS) = false.
Proof.
  unfold for_me. rewrite <- negb_orb. by intros ->.
Qed.

Lemma not_for_me_filter (a _slave : Z) :
  a <> _slave -> a <> MODBUS_BROADCAST_ADDRESS ->
  negb (a =? _slave) && negb (a =? MODBUS_BROADCAST_ADDRESS) = true.
Proof.
  intros H1 H2.
  apply Z.eqb_neq in H1 as ->. by apply Z.eqb_neq in H2 as ->.
Qed.

(** The bounds check of [reply] when it fails: the table is left as it
    is, no access to it is made, and the Illegal-Data-Address exception
    goes out. *)
Lemma reply_exception_run
  (tab_reg : list Z) (nb_reg : Z) (a f a_hi a_lo n_hi n_lo : Z)
  (rest : list Z) (req_length _slave : Z) (rsp : list Z) (w : world) :
  for_me a _slave = true ->
  f = _FC_READ_HOLDING_REGISTERS \/ f = _FC_WRITE_MULTIPLE_REGISTERS ->
  length rsp = 256%nat ->
  word a_hi a_lo + word n_hi n_lo > nb_reg ->
  reply tab_reg nb_reg (a :: f :: a_hi :: a_lo :: n_hi :: n_lo :: rest)
        req_length _slave rsp w
  = Some (tab_reg, [],
          transmitted [a; Z.lor f 0x80;
                       MODBUS_EXCEPTION_ILLEGAL_DATA_ADDRESS] w)
  /\ Z.testbit (Z.lor f 0x80) 7 = true.
Proof.
  intros Hme Hf Hrsp Hover.
  assert (Hbyte : u8 (f + 0x80) = Z.lor f 0x80 /\ Z.testbit (Z.lor f 0x80) 7 = true)
    by (destruct Hf as [-> | ->]; split; reflexivity).
  destruct Hbyte as [Hbyte Hbit]. split; [|exact Hbit].
  unfold reply.
  generalize register_fuel_val. generalize register_fuel. intros fuel Hfuel.
  simpl. rewrite (for_me_filter _ _ Hme).
  destruct (Z.gtb_spec (word a_hi a_lo + word n_hi n_lo) nb_reg); [|lia].
  rewrite response_exception_cells by lia. simpl.
  destruct (send_msg_take crc16_bytes
              (a :: u8 (f + 128) :: MODBUS_EXCEPTION_ILLEGAL_DATA_ADDRESS
                 :: drop 3 rsp) 3 w) as (msg' & -> & _).
  { lia. }
  { simpl. rewrite length_drop. lia. }
  simpl. by rewrite Hbyte.
Qed.

(** The whole effect of a read request that fits the response array. *)
Lemma reply_read_run
  (tab_reg : list Z) (nb_reg : Z) (a a_hi a_lo n_hi n_lo : Z)
  (rest : list Z) (req_length _slave : Z) (rsp : list Z) (w : world) :
  for_me a _slave = true ->
  length rsp = 256%nat ->
  word a_hi a_lo + word n_hi n_lo <= nb_reg ->
  nb_reg <= Z.of_nat (length tab_reg) ->
  nb_reg <= 65535 ->
  word n_hi n_lo <= 125 ->
  reply tab_reg nb_reg
        (a :: _FC_READ_HOLDING_REGISTERS :: a_hi :: a_lo :: n_hi :: n_lo :: rest)
        req_length _slave rsp w
  = Some (tab_reg,
          TabRead <$> seqZ (word a_hi a_lo) (word n_hi n_lo),
          transmitted
            ([a; _FC_READ_HOLDING_REGISTERS; 2 * word n_hi n_lo]
               ++ big_endian (take (Z.to_nat (word n_hi n_lo))
                                (drop (Z.to_nat (word a_hi a_lo)) tab_reg)))
            w).
Proof.
  intros Hme Hrsp Hin Htab H16 Hnb.
  pose proof (word_range a_hi a_lo) as Ha.
  pose proof (word_range n_hi n_lo) as Hn.
  unfold reply.
  generalize register_fuel_val. generalize register_fuel. intros fuel Hfuel.
  simpl.
  remember (word a_hi a_lo) as address eqn:Eaddr.
  remember (word n_hi n_lo) as nb eqn:Enb. clear Eaddr Enb.
  rewrite (for_me_filter _ _ Hme).
  destruct (Z.gtb_spec (address + nb) nb_reg); [lia|].
  rewrite build_response_basis_cells by lia. cbn [mbind option_bind].
  destruct rsp as [|x0 [|x1 [|x2 rsp]]]; simpl in Hrsp; try lia.
  simpl. rewrite store_Some by (simpl; lia). simpl.
  rewrite Z.shiftl_mul_pow2 by lia. change (2 ^ 1) with 2.
  rewrite (u8_small (nb * 2)) by lia.
  change (u8 (2 + 1)) with 3.
  pose proof (read_registers_run (Z.to_nat nb) fuel address tab_reg
                [a; _FC_READ_HOLDING_REGISTERS; nb * 2] rsp []) as Hrun.
  rewrite Z2Nat.id in Hrun by lia.
  cbn [app length] in Hrun. change (Z.of_nat 3) with 3 in Hrun.
  rewrite Hrun by lia.
  clear Hrun. cbn [mbind option_bind].
  set (regs := take (Z.to_nat nb) (drop (Z.to_nat address) tab_reg)).
  assert (Hregs : length regs = Z.to_nat nb)
    by (unfold regs; rewrite length_take, length_drop; lia).
  destruct (send_msg_take crc16_bytes
              (a :: _FC_READ_HOLDING_REGISTERS :: nb * 2
                 :: big_endian regs ++ drop (2 * Z.to_nat nb) rsp)
              (3 + 2 * nb) w) as (msg' & -> & _).
  { lia. }
  { cbn [length]. rewrite length_app, big_endian_length, length_drop. lia. }
  cbn [mbind option_bind]. do 3 f_equal.
  replace (Z.to_nat (3 + 2 * nb)) with (3 + length (big_endian regs))%nat
    by (rewrite big_endian_length; lia).
  cbn [Nat.add take]. rewrite take_app_length.
  do 3 f_equal. lia.
Qed.

(** C6, as amended.  A read request (function 0x03) for this station
    whose register range lies inside the declared table and whose
    register count is at most 125: the frame sent is the address byte,
    the function byte, one byte equal to twice the count, and then the
    registers from the start address on, in ascending index order, each
    as two bytes with the most significant first. *)
Theorem reply_read_holding_registers
  (tab_reg : list Z) (nb_reg : Z) (a a_hi a_lo n_hi n_lo : Z)
  (rest : list Z) (req_length _slave : Z) (rsp : list Z) (w : world) :
  for_me a _slave = true ->
  length rsp = 256%nat ->
  word a_hi a_lo + word n_hi n_lo <= nb_reg ->
  nb_reg <= Z.of_nat (length tab_reg) ->
  nb_reg <= 65535 ->
  word n_hi n_lo <= 125 ->
  exists acc,
    reply tab_reg nb_reg
      (a :: _FC_READ_HOLDING_REGISTERS :: a_hi :: a_lo :: n_hi :: n_lo :: rest)
      req_length _slave rsp w
    = Some (tab_reg, acc,
            transmitted
              ([a; _FC_READ_HOLDING_REGISTERS; 2 * word n_hi n_lo]
                 ++ big_endian (take (Z.to_nat (word n_hi n_lo))
                                  (drop (Z.to_nat (word a_hi a_lo)) tab_reg)))
              w).
Proof.
  intros. eexists. by apply reply_read_run.
Qed.

(** The write branch of [reply], for every request whose register
    values lie inside the request array. *)
Lemma reply_write_run
  (tab_reg : list Z) (nb_reg : Z) (a a_hi a_lo n_hi n_lo : Z)
  (rest : list Z) (req_length _slave : Z) (rsp : list Z) (w : world) :
  let req :=
    a :: _FC_WRITE_MULTIPLE_REGISTERS :: a_hi :: a_lo :: n_hi :: n_lo :: rest in
  let address := word a_hi a_lo in
  let nb := word n_hi n_lo in
  for_me a _slave = true ->
  length req = 256%nat ->
  length rsp = 256%nat ->
  _MODBUS_RTU_FUNCTION + 6 + 2 * nb <= Z.of_nat (length req) ->
  address + nb <= nb_reg ->
  nb_reg <= Z.of_nat (length tab_reg) ->
  nb_reg <= 65535 ->
  exists tab1 acc,
    reply tab_reg nb_reg req req_length _slave rsp w
    = Some (tab1, acc,
            transmitted
              [a; _FC_WRITE_MULTIPLE_REGISTERS; a_hi; a_lo; n_hi; n_lo] w)
    /\ length tab1 = length tab_reg
    /\ access_index <$> acc = seqZ address nb
    /\ (forall i, address <= i < address + nb ->
          exists hi lo,
            load req (_MODBUS_RTU_FUNCTION + 6 + 2 * (i - address)) = Some hi
            /\ load req (_MODBUS_RTU_FUNCTION + 6 + 2 * (i - address) + 1)
               = Some lo
            /\ load tab1 i = Some (word hi lo))
    /\ (forall i, 0 <= i -> ~ (address <= i < address + nb) ->
          load tab1 i = load tab_reg i).
Proof.
  intros req address nb Hme Hreq Hrsp Hfit Hin Htab H16.
  pose proof (word_range a_hi a_lo) as Ha.
  pose proof (word_range n_hi n_lo) as Hn.
  rewrite Hreq in Hfit. unfold _MODBUS_RTU_FUNCTION in Hfit.
  destruct (write_registers_run (Z.to_nat nb) register_fuel address 6 req
              tab_reg [])
    as (tab1 & acc & Hrun & Hlen & Hord & Hout & Hval);
    try (pose proof register_fuel_val; lia).
  rewrite Z2Nat.id in Hrun, Hord, Hout, Hval by lia.
  exists tab1, acc.
  split; [|split; [exact Hlen|split; [exact Hord|split]]].
  - unfold reply. subst req.
    revert Hrun. generalize register_fuel. intros fuel Hrun.
    simpl. rewrite (for_me_filter _ _ Hme).
    fold address nb.
    destruct (Z.gtb_spec (address + nb) nb_reg); [lia|].
    rewrite Hrun. cbn [mbind option_bind].
    rewrite build_response_basis_cells by lia. cbn [mbind option_bind app].
    destruct rsp as [|x0 [|x1 [|x2 [|x3 [|x4 [|x5 rsp]]]]]];
      simpl in Hrsp; try lia.
    cbn [drop].
    unfold _MODBUS_RTU_PRESET_RSP_LENGTH. cbn [Z.add Pos.add Pos.succ].
    do 4 (simpl; rewrite store_Some by (cbn [length]; lia)). simpl.
    destruct (send_msg_take crc16_bytes
                (a :: _FC_WRITE_MULTIPLE_REGISTERS :: a_hi :: a_lo :: n_hi
                   :: n_lo :: rsp) 6 w) as (msg' & Hsend & _).
    { lia. }
    { cbn [length]. lia. }
    change (u8 (2 + 4)) with 6. rewrite Hsend. reflexivity.
  - intros i Hi. destruct (Hval (i - address)) as (hi & lo & H1 & H2 & H3); [lia|].
    exists hi, lo. unfold _MODBUS_RTU_FUNCTION.
    replace (address + (i - address)) with i in H3 by lia. done.
  - intros i Hi Hnot. by apply Hout.
Qed.

(** A byte array gives bytes at every index inside it. *)
Lemma all_bytes_load (buf : list Z) (i b : Z) :
  all_bytes buf = true -> load buf i = Some b -> 0 <= b < 256.
Proof.
  intros Hall Hb. unfold all_bytes in Hall. rewrite forallb_forall in Hall.
  unfold load in Hb. destruct (0 <=? i); [|discriminate].
  apply list_elem_of_lookup_2, list_elem_of_In, Hall in Hb. lia.
Qed.

(** C7.  A well-formed write request (function 0x10) for this station,
    an array of bytes, whose register range lies inside the declared
    table; start address and count are [256 * hi + lo] of their two
    bytes.  Afterwards the table holds, at every index of the range, the
    value [256 * hi + lo] of the two bytes found in the request at
    offset 6 from the function byte plus 2 per register; the table is
    written in ascending index order; every index outside the range
    keeps its value; and the frame sent is the address and function
    bytes followed by the four bytes of the start address and count
    fields of the request. *)
Theorem reply_write_multiple_registers
  (tab_reg : list Z) (nb_reg : Z) (a a_hi a_lo n_hi n_lo : Z)
  (rest : list Z) (req_length _slave : Z) (rsp : list Z) (w : world) :
  let req :=
    a :: _FC_WRITE_MULTIPLE_REGISTERS :: a_hi :: a_lo :: n_hi :: n_lo :: rest in
  let address := 256 * a_hi + a_lo in
  let nb := 256 * n_hi + n_lo in
  all_bytes req = true ->
  for_me a _slave = true ->
  length req = 256%nat ->
  length rsp = 256%nat ->
  write_request_valid req req_length = true ->
  address + nb <= nb_reg ->
  nb_reg <= Z.of_nat (length tab_reg) ->
  nb_reg <= 65535 ->
  exists tab1 acc,
    reply tab_reg nb_reg req req_length _slave rsp w
    = Some (tab1, acc,
            transmitted
              [a; _FC_WRITE_MULTIPLE_REGISTERS; a_hi; a_lo; n_hi; n_lo] w)
    /\ length tab1 = length tab_reg
    /\ access_index <$> acc = seqZ address nb
    /\ (forall i, address <= i < address + nb ->
          exists hi lo,
            load req (_MODBUS_RTU_FUNCTION + 6 + 2 * (i - address)) = Some hi
            /\ load req (_MODBUS_RTU_FUNCTION + 6 + 2 * (i - address) + 1)
               = Some lo
            /\ load tab1 i = Some (256 * hi + lo))
    /\ (forall i, 0 <= i -> ~ (address <= i < address + nb) ->
          load tab1 i = load tab_reg i).
Proof.
  intros req address nb Hbytes Hme Hreq Hrsp Hvalid Hin Htab H16.
  assert (Hhdr : (0 <= a_hi < 256 /\ 0 <= a_lo < 256)
                 /\ 0 <= n_hi < 256 /\ 0 <= n_lo < 256).
  { repeat split;
      first [ apply (all_bytes_load req 2 a_hi Hbytes eq_refl)
            | apply (all_bytes_load req 3 a_lo Hbytes eq_refl)
            | apply (all_bytes_load req 4 n_hi Hbytes eq_refl)
            | apply (all_bytes_load req 5 n_lo Hbytes eq_refl) ]. }
  destruct Hhdr as ((Hah & Hal) & Hnh & Hnl).
  assert (Eaddr : word a_hi a_lo = address) by (by apply word_bytes).
  assert (Enb : word n_hi n_lo = nb) by (by apply word_bytes).
  destruct (reply_write_run tab_reg nb_reg a a_hi a_lo n_hi n_lo rest
              req_length _slave rsp w)
    as (tab1 & acc & Hrun & Hlen & Hord & Hval & Hout); try assumption.
  - fold req. rewrite Hreq. unfold _MODBUS_RTU_FUNCTION.
    subst req. destruct rest as [|bc rest]; [discriminate|].
    cbn [write_request_valid] in Hvalid.
    apply andb_prop in Hvalid as [Hvalid H4].
    apply andb_prop in Hvalid as [Hvalid H3].
    apply andb_prop in Hvalid as [_ H2].
    apply Z.eqb_eq in H2, H3. apply Z.leb_le in H4.
    unfold _MODBUSINO_RTU_MAX_ADU_LENGTH in H4.
    pose proof (word_range n_hi n_lo). lia.
  - rewrite Eaddr, Enb. exact Hin.
  - fold req in Hrun, Hval. rewrite Eaddr, Enb in Hord, Hval, Hout.
    exists tab1, acc.
    split; [exact Hrun|]. split; [exact Hlen|]. split; [exact Hord|].
    split; [|exact Hout].
    intros i Hi. destruct (Hval i Hi) as (hi & lo & Hhi & Hlo & Hst).
    exists hi, lo. split; [exact Hhi|]. split; [exact Hlo|].
    rewrite Hst. f_equal. apply word_bytes.
    + exact (all_bytes_load req _ hi Hbytes Hhi).
    + exact (all_bytes_load req _ lo Hbytes Hlo).
Qed.

(** C10.  Dispatching a read request (function 0x03) leaves the register
    table as it was: whatever result the dispatch has, the table in it is
    the table given, and every access recorded is a read; and for a
    request in range with at most 125 registers there is a result. *)
Theorem reply_read_keeps_table
  (tab_reg : list Z) (nb_reg : Z) (a a_hi a_lo n_hi n_lo : Z)
  (rest : list Z) (req_length _slave : Z) (rsp : list Z) (w : world) :
  let req :=
    a :: _FC_READ_HOLDING_REGISTERS :: a_hi :: a_lo :: n_hi :: n_lo :: rest in
  (forall tab1 acc w1,
      reply tab_reg nb_reg req req_length _slave rsp w = Some (tab1, acc, w1) ->
      tab1 = tab_reg /\ exists idx, acc = TabRead <$> idx)
  /\ (for_me a _slave = true ->
      length rsp = 256%nat ->
      word a_hi a_lo + word n_hi n_lo <= nb_reg ->
      nb_reg <= Z.of_nat (length tab_reg) ->
      nb_reg <= 65535 ->
      word n_hi n_lo <= 125 ->
      exists acc w1,
        reply tab_reg nb_reg req req_length _slave rsp w
        = Some (tab_reg, acc, w1)).
Proof.
  intros req. split.
  - intros tab1 acc w1. unfold reply, req.
    generalize register_fuel. intros fuel. simpl.
    destruct (negb (a =? _slave) && negb (a =? MODBUS_BROADCAST_ADDRESS)).
    { intros [= <- <- <-]. split; [done|]. by exists []. }
    destruct (word a_hi a_lo + word n_hi n_lo >? nb_reg).
    { destruct (response_exception _ _ _ _) as [[rsp1 len]|];
        [|discriminate]. cbn [mbind option_bind].
      destruct (send_msg _ _ _) as [[msg w2]|]; [|discriminate].
      intros [= <- <- <-]. split; [done|]. by exists []. }
    destruct (build_response_basis _ _ _) as [[rsp1 len]|]; [|discriminate].
    cbn [mbind option_bind].
    destruct (store _ _ _) as [rsp2|]; [|discriminate].
    cbn [mbind option_bind].
    destruct (read_registers _ _ _ _ _ _ _) as [[[rsp3 len3] acc3]|] eqn:Hrd;
      [|discriminate].
    cbn [mbind option_bind].
    destruct (send_msg _ _ _) as [[msg w2]|]; [|discriminate].
    intros [= <- <- <-]. split; [done|].
    apply read_registers_reads in Hrd as [idx ->]. by exists idx.
  - intros. eexists _, _. by apply reply_read_run.
Qed.

End ReplyFacts.

(** ** The receiver *)

Lemma seqZ_snoc (wl : list Z) :
  wl = seqZ 0 (Z.of_nat (length wl)) ->
  wl ++ [Z.of_nat (length wl)]
  = seqZ 0 (Z.of_nat (length (wl ++ [Z.of_nat (length wl)]))).
Proof.
  intros H. rewrite length_app. simpl.
  replace (Z.of_nat (length wl + 1)) with (Z.of_nat (length wl) + 1) by lia.
  rewrite seqZ_app by lia. rewrite <- H. reflexivity.
Qed.

Lemma header_ok_store (_slave : Z) (st : rstate) (i v : Z) (rq : list Z)
  (len : Z) (stp : step_t) :
  header_ok _slave st -> store (req st) i v = Some rq -> 2 <= i ->
  header_ok _slave (RState len (u8 (i + 1)) stp (function st) rq).
Proof.
  intros (a & Ha & Hme & Hf & Hfn) Hst Hi. exists a. simpl.
  rewrite !(load_store_ne _ _ _ _ _ Hst) by lia. done.
Qed.

Section ReceiveFacts.

Variable crc16 : list Z -> Z.
Variable crc16_bytes : list Z -> Z * Z.
Variable MODBUS_INFORMATIVE_NOT_FOR_US : Z.
Variable MODBUS_INFORMATIVE_RX_TIMEOUT : Z.

Abbreviation end_of_step :=
  (end_of_step crc16_bytes MODBUS_INFORMATIVE_NOT_FOR_US).
Abbreviation receive_loop :=
  (receive_loop crc16_bytes MODBUS_INFORMATIVE_NOT_FOR_US
     MODBUS_INFORMATIVE_RX_TIMEOUT).
Abbreviation receive_trace :=
  (receive_trace crc16_bytes MODBUS_INFORMATIVE_NOT_FOR_US
     MODBUS_INFORMATIVE_RX_TIMEOUT).
Abbreviation receive :=
  (receive crc16 crc16_bytes MODBUS_INFORMATIVE_NOT_FOR_US
     MODBUS_INFORMATIVE_RX_TIMEOUT).
Abbreviation loop :=
  (loop crc16 crc16_bytes MODBUS_INFORMATIVE_NOT_FOR_US
     MODBUS_INFORMATIVE_RX_TIMEOUT).
Abbreviation transmitted := (transmitted crc16_bytes).
Abbreviation send_msg := (send_msg crc16_bytes).

(** The address filter at the end of a step. *)
Lemma end_of_step_not_for_us (_slave : Z) (st : rstate) (w : world) (a : Z) :
  load (req st) 0 = Some a ->
  for_me a _slave = false ->
  end_of_step _slave st w
  = Some (Return (-1 - MODBUS_INFORMATIVE_NOT_FOR_US) (req st) (flush w)).
Proof.
  intros Ha Hme. unfold end_of_step, _MODBUS_RTU_SLAVE. simpl.
  rewrite Ha. simpl.
  unfold for_me in Hme. apply orb_false_elim in Hme as [-> H0].
  unfold MODBUS_BROADCAST_ADDRESS in H0. by rewrite H0.
Qed.

(** An exception answer built in place in the request array. *)
Lemma exception_sent (_slave fn code : Z) (rq : list Z) (w : world) :
  length rq = 256%nat ->
  exists rq1,
    (response_exception _slave fn code rq
       ≫= λ '(rq0, rsp_length),
         send_msg rq0 rsp_length w ≫= λ '(rq1, w2), Some (rq1, w2))
    = Some (rq1, transmitted [_slave; u8 (fn + 0x80); code] w)
    /\ length rq1 = 256%nat.
Proof.
  intros Hlen. rewrite response_exception_cells by lia. cbn [mbind option_bind].
  destruct (send_msg_take crc16_bytes
              ([_slave; u8 (fn + 128); code] ++ drop 3 rq) 3 w)
    as (rq1 & -> & Hlen1).
  { lia. }
  { rewrite length_app, length_drop. simpl. lia. }
  exists rq1. split; [reflexivity|].
  rewrite Hlen1, length_app, length_drop. simpl. lia.
Qed.

Lemma end_of_step_function (_slave : Z) (st : rstate) (w : world) (a f : Z) :
  step st = _STEP_FUNCTION ->
  length (req st) = 256%nat ->
  load (req st) 0 = Some a ->
  load (req st) 1 = Some f ->
  for_me a _slave = true ->
  if f =? _FC_READ_HOLDING_REGISTERS then
    end_of_step _slave st w
    = Some (Continue (RState 4 (req_index st) _STEP_META f (req st)) w)
  else if f =? _FC_WRITE_MULTIPLE_REGISTERS then
    end_of_step _slave st w
    = Some (Continue (RState 5 (req_index st) _STEP_META f (req st)) w)
  else
    exists rq1,
      end_of_step _slave st w
      = Some (Return (-1 - MODBUS_EXCEPTION_ILLEGAL_FUNCTION) rq1
                (transmitted
                   [_slave; u8 (f + 0x80); MODBUS_EXCEPTION_ILLEGAL_FUNCTION]
                   (flush w)))
      /\ length rq1 = 256%nat.
Proof.
  intros Hstep Hlen Ha Hf Hme.
  unfold end_of_step, _MODBUS_RTU_SLAVE, _MODBUS_RTU_FUNCTION. simpl.
  rewrite Ha, Hstep. simpl.
  pose proof (for_me_filter _ _ Hme) as Hflt.
  unfold MODBUS_BROADCAST_ADDRESS in Hflt. rewrite Hflt.
  rewrite Hf. simpl.
  destruct (f =? _FC_READ_HOLDING_REGISTERS); [reflexivity|].
  destruct (f =? _FC_WRITE_MULTIPLE_REGISTERS); [reflexivity|].
  rewrite Hme.
  destruct (exception_sent _slave f MODBUS_EXCEPTION_ILLEGAL_FUNCTION
              (req st) (flush w) Hlen) as (rq1 & Hsent & Hlen1).
  exists rq1. split; [|exact Hlen1].
  destruct (response_exception _ _ _ _) as [[rq0 len]|]; [|discriminate].
  cbn [mbind option_bind] in *.
  destruct (send_msg rq0 len (flush w)) as [[rq2 w2]|]; [|discriminate].
  cbn [mbind option_bind] in *. by injection Hsent as -> ->.
Qed.

Lemma end_of_step_meta (_slave : Z) (st : rstate) (w : world) (a : Z) :
  step st = _STEP_META ->
  length (req st) = 256%nat ->
  load (req st) 0 = Some a ->
  for_me a _slave = true ->
  exists len,
    (if function st =? _FC_WRITE_MULTIPLE_REGISTERS
     then exists n, load (req st) 6 = Some n /\ len = u8 (2 + n)
     else len = 2)
    /\ if req_index st + len >? _MODBUSINO_RTU_MAX_ADU_LENGTH then
         exists rq1,
           end_of_step _slave st w
           = Some (Return (-1 - MODBUS_EXCEPTION_ILLEGAL_FUNCTION) rq1
                     (transmitted
                        [_slave; u8 (function st + 0x80);
                         MODBUS_EXCEPTION_ILLEGAL_DATA_VALUE]
                        (flush w)))
           /\ length rq1 = 256%nat
       else
         end_of_step _slave st w
         = Some (Continue
                   (RState len (req_index st) _STEP_DATA (function st) (req st))
                   w).
Proof.
  intros Hstep Hlen Ha Hme.
  pose proof (for_me_filter _ _ Hme) as Hflt.
  unfold MODBUS_BROADCAST_ADDRESS in Hflt.
  assert (Hlen' :
    exists len,
      (if function st =? _FC_WRITE_MULTIPLE_REGISTERS
       then n ← load (req st) 6; Some (u8 (2 + n)) else Some 2) = Some len
      /\ (if function st =? _FC_WRITE_MULTIPLE_REGISTERS
          then exists n, load (req st) 6 = Some n /\ len = u8 (2 + n)
          else len = 2)).
  { destruct (function st =? _FC_WRITE_MULTIPLE_REGISTERS).
    - destruct (load_is_Some (req st) 6) as [n Hn]; [lia|].
      exists (u8 (2 + n)). rewrite Hn. split; [reflexivity|]. by exists n.
    - by exists 2. }
  destruct Hlen' as (len & Hbind & Hlenspec).
  exists len. split; [exact Hlenspec|].
  assert (Hstep_eq :
    end_of_step _slave st w
    = if req_index st + len >? _MODBUSINO_RTU_MAX_ADU_LENGTH then
        '(rq, rsp_length) ←
          response_exception _slave (function st)
            MODBUS_EXCEPTION_ILLEGAL_DATA_VALUE (req st);
        '(rq1, w2) ← send_msg rq rsp_length (flush w);
        Some (Return (-1 - MODBUS_EXCEPTION_ILLEGAL_FUNCTION) rq1 w2)
      else
        Some (Continue
                (RState len (req_index st) _STEP_DATA (function st) (req st))
                w)).
  { unfold end_of_step, _MODBUS_RTU_SLAVE, _MODBUS_RTU_FUNCTION,
      _MODBUS_RTU_CHECKSUM_LENGTH. simpl.
    rewrite Ha, Hstep. simpl. rewrite Hflt.
    change (1 + 5) with 6. rewrite Hbind. cbn [mbind option_bind].
    by rewrite Hme. }
  rewrite Hstep_eq.
  destruct (req_index st + len >? _MODBUSINO_RTU_MAX_ADU_LENGTH); [|reflexivity].
  destruct (exception_sent _slave (function st)
              MODBUS_EXCEPTION_ILLEGAL_DATA_VALUE
              (req st) (flush w) Hlen) as (rq1 & Hsent & Hlen1).
  exists rq1. split; [|exact Hlen1].
  destruct (response_exception _ _ _ _) as [[rq0 len0]|]; [|discriminate].
  cbn [mbind option_bind] in *.
  destruct (send_msg rq0 len0 (flush w)) as [[rq2 w2]|]; [|discriminate].
  cbn [mbind option_bind] in *. by injection Hsent as -> ->.
Qed.

Lemma end_of_step_data (_slave : Z) (st : rstate) (w : world) (a : Z) :
  step st = _STEP_DATA ->
  load (req st) 0 = Some a ->
  for_me a _slave = true ->
  end_of_step _slave st w = Some (Continue st w).
Proof.
  intros Hstep Ha Hme. unfold end_of_step, _MODBUS_RTU_SLAVE. simpl.
  rewrite Ha, Hstep. simpl.
  pose proof (for_me_filter _ _ Hme) as Hflt.
  unfold MODBUS_BROADCAST_ADDRESS in Hflt. by rewrite Hflt.
Qed.

Lemma receive_loop_inv (_slave : Z) (fuel : nat) :
  forall (st : rstate) (w : world) (wl : list Z),
    loop_inv _slave st wl ->
    rounds_left st <= Z.of_nat fuel ->
    exists r,
      receive_loop fuel _slave st w wl = Some r
      /\ loop_post MODBUS_INFORMATIVE_NOT_FOR_US
           MODBUS_INFORMATIVE_RX_TIMEOUT _slave (out w) r.
Proof.
  induction fuel as [|fuel IH]; intros [ltr idx stp fn rq] w wl Hinv Hfuel.
  - destruct Hinv as (Hlen & Hwl & Hidx & Hstep).
    unfold rounds_left in Hfuel. simpl in *.
    assert (ltr = 0 /\ stp = _STEP_DATA) as [-> ->]
      by (destruct stp; simpl in *; split; first [reflexivity | lia]).
    simpl. eexists. split; [reflexivity|].
    unfold loop_post, loop_inv. simpl.
    destruct Hstep as (Hhdr & ? & ? & ?).
    repeat split; first [assumption | lia | done].
  - cbn [receive_loop length_to_read]. 
    destruct (Z.eqb_spec ltr 0) as [->|Hltr].
    { destruct Hinv as (Hlen & Hwl & Hidx & Hstep). simpl in *.
      assert (stp = _STEP_DATA) as ->
        by (destruct stp; simpl in *; first [reflexivity | lia]).
      eexists. split; [reflexivity|].
      unfold loop_post, loop_inv. simpl.
      destruct Hstep as (Hhdr & ? & ? & ?).
      repeat split; first [assumption | lia | done]. }
    destruct Hinv as (Hlen & Hwl & Hidx & Hstep).
    unfold rounds_left in Hfuel.
    cbn [req req_index step function length_to_read] in *.
    remember (Z.of_nat (length wl)) as k eqn:Ek.
    assert (Hk : 1 <= ltr /\ k + ltr <= 256 /\ 0 <= k)
      by (destruct stp; lia).
    assert (idx = k) as -> by (rewrite Hidx; apply u8_small; lia).
    destruct (next_byte w) as [b w1|w1] eqn:Hnb.
    2: { eexists. split; [reflexivity|]. simpl. rewrite <- Ek.
         split; [by auto|]. repeat split; first [assumption | lia]. }
    pose proof (next_byte_quiet _ _ _ Hnb) as [Hout _].
    destruct (store rq k (u8 b)) as [rq1|] eqn:Hst;
      [|rewrite store_Some in Hst by lia; discriminate].
    pose proof (store_length _ _ _ _ Hst) as Hlen1. rewrite Hlen in Hlen1.
    cbn [mbind option_bind].
    rewrite (u8_small (ltr - 1)) by lia.
    assert (Hwl1 : wl ++ [k] = seqZ 0 (Z.of_nat (length (wl ++ [k]))))
      by (subst k; by apply seqZ_snoc).
    assert (Hk1 : Z.of_nat (length (wl ++ [k])) = k + 1)
      by (rewrite length_app; simpl; lia).
    rewrite <- Hout.
    destruct (Z.eqb_spec (ltr - 1) 0) as [H1|H1].
    + rewrite H1. assert (ltr = 1) as -> by lia. clear H1 Hltr.
      destruct (load_is_Some rq1 0) as [a Ha]; [lia|].
      destruct stp.
      * (* the function code has arrived *)
        destruct (load_is_Some rq1 1) as [f Hf]; [lia|].
        destruct (for_me a _slave) eqn:Hme.
        2: { rewrite (end_of_step_not_for_us _ _ _ a) by done.
             eexists. split; [reflexivity|]. simpl.
             split; [by auto|]. repeat split; first [assumption | lia]. }
        pose proof (end_of_step_function _slave
                      (RState 0 (u8 (k + 1)) _STEP_FUNCTION fn rq1) w1 a f
                      eq_refl Hlen1 Ha Hf Hme) as Hes.
        cbn [req req_index] in Hes.
        destruct (Z.eqb_spec f _FC_READ_HOLDING_REGISTERS) as [Hf3|Hf3];
          [|destruct (Z.eqb_spec f _FC_WRITE_MULTIPLE_REGISTERS) as [Hf16|Hf16]].
        -- rewrite Hes. apply IH.
           ++ unfold loop_inv. cbn [req req_index step function length_to_read].
              split; [assumption|]. split; [assumption|]. rewrite Hk1.
              repeat split; try first [assumption | lia].
              exists a. cbn [req function]. repeat split; try assumption.
              by left.
           ++ unfold rounds_left. cbn [step length_to_read]. lia.
        -- rewrite Hes. apply IH.
           ++ unfold loop_inv. cbn [req req_index step function length_to_read].
              split; [assumption|]. split; [assumption|]. rewrite Hk1.
              repeat split; try first [assumption | lia].
              exists a. cbn [req function]. repeat split; try assumption.
              by right.
           ++ unfold rounds_left. cbn [step length_to_read]. lia.
        -- destruct Hes as (rq2 & -> & Hlen2).
           eexists. split; [reflexivity|]. simpl.
           split; [by auto|]. repeat split; first [assumption | lia].
      * (* the header is complete *)
        destruct Hstep as (Hhdr & Hk2 & _ & Hk7).
        pose proof (header_ok_store _slave _ _ _ _ 0 _STEP_META Hhdr Hst Hk2)
          as Hhdr1.
        destruct Hhdr1 as (a' & Ha' & Hme & Hfn & Hfns).
        cbn [req function] in Ha', Hfn, Hfns.
        destruct (end_of_step_meta _slave
                    (RState 0 (u8 (k + 1)) _STEP_META fn rq1) w1 a'
                    eq_refl Hlen1 Ha' Hme) as (len & Hlenspec & Hes).
        cbn [req req_index function] in Hes, Hlenspec.
        assert (Hlenr : 0 <= len < 256).
        { destruct (fn =? _FC_WRITE_MULTIPLE_REGISTERS).
          - destruct Hlenspec as (n & _ & ->). apply u8_range.
          - lia. }
        rewrite (u8_small (k + 1)) in * by lia.
        destruct (Z.gtb_spec (k + 1 + len) _MODBUSINO_RTU_MAX_ADU_LENGTH)
          as [Hbig|Hfit].
        -- destruct Hes as (rq2 & -> & Hlen2).
           eexists. split; [reflexivity|]. simpl.
           split; [by auto|]. repeat split; first [assumption | lia].
        -- rewrite Hes. apply IH.
           ++ unfold loop_inv. cbn [req req_index step function length_to_read].
              unfold _MODBUSINO_RTU_MAX_ADU_LENGTH in Hfit.
              split; [assumption|]. split; [assumption|].
              rewrite Hk1, (u8_small (k + 1)) by lia.
              repeat split; try first [assumption | lia].
              exists a'. cbn [req function]. by repeat split.
           ++ unfold rounds_left. cbn [step length_to_read]. lia.
      * (* the last byte has arrived *)
        destruct Hstep as (Hhdr & Hk2 & _ & Hk256).
        pose proof (header_ok_store _slave _ _ _ _ 0 _STEP_DATA Hhdr Hst Hk2)
          as Hhdr1.
        pose proof Hhdr1 as (a' & Ha' & Hme & _).
        cbn [req function] in Ha'.
        rewrite (end_of_step_data _ _ _ a') by done.
        apply IH.
        -- unfold loop_inv. cbn [req req_index step function length_to_read].
           split; [assumption|]. split; [assumption|]. rewrite Hk1.
           repeat split; first [assumption | lia].
        -- unfold rounds_left. cbn [step length_to_read]. lia.
    + destruct (Z.eqb_spec (ltr - 1) 0); [lia|]. apply IH.
      * unfold loop_inv. cbn [req req_index step function length_to_read].
        split; [assumption|]. split; [assumption|]. rewrite Hk1.
        split; [reflexivity|].
        destruct stp.
        -- lia.
        -- destruct Hstep as (Hhdr & Hk2 & _ & Hk7).
           split; [|lia].
           exact (header_ok_store _slave _ _ _ _ _ _STEP_META Hhdr Hst Hk2).
        -- destruct Hstep as (Hhdr & Hk2 & _ & Hk256).
           split; [|lia].
           exact (header_ok_store _slave _ _ _ _ _ _STEP_DATA Hhdr Hst Hk2).
      * unfold rounds_left. cbn [step length_to_read]. destruct stp; lia.
Qed.

End ReceiveFacts.

(** ** Whole receptions and cycles *)

Section CycleFacts.

Variable crc16 : list Z -> Z.
Variable crc16_bytes : list Z -> Z * Z.
Variable MODBUS_INFORMATIVE_NOT_FOR_US : Z.
Variable MODBUS_INFORMATIVE_RX_TIMEOUT : Z.

Abbreviation end_of_step :=
  (end_of_step crc16_bytes MODBUS_INFORMATIVE_NOT_FOR_US).
Abbreviation receive_loop :=
  (receive_loop crc16_bytes MODBUS_INFORMATIVE_NOT_FOR_US
     MODBUS_INFORMATIVE_RX_TIMEOUT).
Abbreviation receive_trace :=
  (receive_trace crc16_bytes MODBUS_INFORMATIVE_NOT_FOR_US
     MODBUS_INFORMATIVE_RX_TIMEOUT).
Abbreviation receive :=
  (receive crc16 crc16_bytes MODBUS_INFORMATIVE_NOT_FOR_US
     MODBUS_INFORMATIVE_RX_TIMEOUT).
Abbreviation loop :=
  (loop crc16 crc16_bytes MODBUS_INFORMATIVE_NOT_FOR_US
     MODBUS_INFORMATIVE_RX_TIMEOUT).
Abbreviation reply := (reply crc16_bytes).
Abbreviation transmitted := (transmitted crc16_bytes).

Lemma receive_trace_post (req0 : list Z) (_slave : Z) (w : world) :
  length req0 = 256%nat ->
  exists r,
    receive_trace req0 _slave w = Some r /\ loop_post MODBUS_INFORMATIVE_NOT_FOR_US
           MODBUS_INFORMATIVE_RX_TIMEOUT _slave (out w) r.
Proof.
  intros Hlen. unfold receive_trace. apply receive_loop_inv.
  - unfold loop_inv, receive_init, _MODBUS_RTU_FUNCTION. simpl.
    repeat split; first [assumption | reflexivity | lia].
  - unfold rounds_left, receive_init, receive_fuel, _MODBUS_RTU_FUNCTION.
    simpl. lia.
Qed.

(** C9.  Whatever arrives on the line, the reception has a defined
    result (no access outside an array), and the writes of the loop into
    the 256-byte request array go to the indices 0, 1, 2, ... in this
    order, at most 256 of them: every write is at an index below 256 and
    the index never wraps around before a write. *)
Theorem receive_writes_in_bounds (req0 : list Z) (_slave : Z) (w : world) :
  length req0 = Z.to_nat _MODBUSINO_RTU_MAX_ADU_LENGTH ->
  exists r,
    receive_trace req0 _slave w = Some r
    /\ writes r = seqZ 0 (Z.of_nat (length (writes r)))
    /\ Z.of_nat (length (writes r)) <= _MODBUSINO_RTU_MAX_ADU_LENGTH
    /\ Forall (fun i => 0 <= i < _MODBUSINO_RTU_MAX_ADU_LENGTH) (writes r).
Proof.
  intros Hlen. change (Z.to_nat _MODBUSINO_RTU_MAX_ADU_LENGTH) with 256%nat in Hlen.
  destruct (receive_trace_post req0 _slave w Hlen) as (r & Hr & Hpost).
  exists r. split; [exact Hr|].
  assert (Hw : writes r = seqZ 0 (Z.of_nat (length (writes r)))
               /\ Z.of_nat (length (writes r)) <= 256).
  { destruct r as [rc rq w1 wl | st w1 wl]; simpl in *.
    - destruct Hpost as (_ & _ & H1 & H2). done.
    - destruct Hpost as ((_ & H1 & _ & Hs) & Hstep & Hltr & _).
      rewrite Hstep in Hs. split; [done | lia]. }
  destruct Hw as [Hseq Hle]. split; [exact Hseq|]. split; [exact Hle|].
  rewrite Hseq. apply list.Forall_forall. intros i Hi.
  apply elem_of_seqZ in Hi. unfold _MODBUSINO_RTU_MAX_ADU_LENGTH in *. lia.
Qed.

(** The first two rounds of a reception: address and function code. *)
Lemma receive_trace_header (req0 : list Z) (_slave : Z) (w w1 w2 : world)
  (b0 b1 : Z) :
  length req0 = 256%nat ->
  next_byte w = RxByte b0 w1 ->
  next_byte w1 = RxByte b1 w2 ->
  receive_trace req0 _slave w
  = c ← end_of_step _slave
          (RState 0 2 _STEP_FUNCTION 0 (<[1%nat := u8 b1]> (<[0%nat := u8 b0]> req0)))
          w2;
    match c with
    | Continue st2 w3 => receive_loop 261 _slave st2 w3 [0; 1]
    | Return rc rq1 w3 => Some (Returned rc rq1 w3 [0; 1])
    end.
Proof.
  intros Hlen Hb0 Hb1.
  unfold receive_trace, receive_fuel, receive_init, _MODBUS_RTU_FUNCTION.
  change 263%nat with (S (S 261)).
  generalize 261%nat. intros fuel.
  cbn [receive_loop length_to_read req req_index step function].
  change (1 + 1 =? 0) with false. cbn iota.
  rewrite Hb0. cbn iota beta. rewrite store_Some by lia.
  cbn [mbind option_bind].
  change (u8 (1 + 1 - 1)) with 1. change (u8 (0 + 1)) with 1.
  change (1 =? 0) with false. cbn iota.
  rewrite Hb1. cbn iota beta.
  rewrite store_Some by (rewrite length_insert; lia).
  cbn [mbind option_bind].
  change (u8 (1 - 1)) with 0. change (u8 (1 + 1)) with 2.
  change (0 =? 0) with true. cbn iota.
  reflexivity.
Qed.

Lemma load_header (req0 : list Z) (b0 b1 : Z) :
  length req0 = 256%nat ->
  load (<[1%nat := b1]> (<[0%nat := b0]> req0)) 0 = Some b0
  /\ load (<[1%nat := b1]> (<[0%nat := b0]> req0)) 1 = Some b1.
Proof.
  intros Hlen. destruct req0 as [|x [|y req0]]; simpl in Hlen; try lia.
  by split.
Qed.

(** The integrity check as [receive] calls it, on the frame
    accumulated and the length [req_index], the receiver's [uint8_t]
    count: if that count is below 2 or the checksum over that many
    bytes is not 0, nothing is sent, the status is -1, and -1 differs
    from the timeout, not-for-us and exception statuses; otherwise the
    status is the count, and the count is the number of bytes
    consumed. *)
Lemma receive_check_integrity
  (tab_reg : list Z) (nb_reg : Z) (req0 rsp : list Z) (_slave : Z)
  (w w1 : world) (st : rstate) (wl : list Z) :
  length req0 = 256%nat ->
  informative_codes MODBUS_INFORMATIVE_NOT_FOR_US
    MODBUS_INFORMATIVE_RX_TIMEOUT ->
  receive_trace req0 _slave w = Some (Completed st w1 wl) ->
  let n := req_index st in
  (if (2 <=? n) && (crc16 (take (Z.to_nat n) (req st)) =? 0) then
     receive req0 _slave w = Some (n, req st, w1)
     /\ n = Z.of_nat (length wl)
   else
     receive req0 _slave w = Some (-1, req st, w1)
     /\ out w1 = out w
     /\ (Serial2_available w = true ->
         loop tab_reg nb_reg _slave req0 rsp w = Some (-1, tab_reg, [], w1)))
  /\ -1 <> -1 - MODBUS_INFORMATIVE_RX_TIMEOUT
  /\ -1 <> -1 - MODBUS_INFORMATIVE_NOT_FOR_US
  /\ -1 <> -1 - MODBUS_EXCEPTION_ILLEGAL_FUNCTION
  /\ -1 <> -1 - MODBUS_EXCEPTION_ILLEGAL_DATA_ADDRESS
  /\ -1 <> -1 - MODBUS_EXCEPTION_ILLEGAL_DATA_VALUE.
Proof.
  intros Hlen (Hnfu & Hto & _) Htrace n.
  unfold MODBUS_EXCEPTION_ILLEGAL_DATA_VALUE in Hnfu, Hto.
  split; [|unfold MODBUS_EXCEPTION_ILLEGAL_FUNCTION,
             MODBUS_EXCEPTION_ILLEGAL_DATA_ADDRESS,
             MODBUS_EXCEPTION_ILLEGAL_DATA_VALUE; lia].
  destruct (receive_trace_post req0 _slave w Hlen) as (r & Hr & Hpost).
  rewrite Htrace in Hr. injection Hr as <-.
  destruct Hpost as ((Hlen1 & Hwl & Hidx & Hs) & Hstep & Hltr & Hout).
  rewrite Hstep in Hs. destruct Hs as (_ & _ & _ & Hk).
  fold n in Hidx.
  assert (Hn : 0 <= n < 256) by (rewrite Hidx; apply u8_range).
  assert (Hrange : load_range (req st) n = Some (take (Z.to_nat n) (req st))).
  { unfold load_range. rewrite Hlen1.
    destruct (Z.leb_spec 0 n); [|lia].
    destruct (Z.leb_spec n (Z.of_nat 256)); [|lia]. reflexivity. }
  assert (Hrecv :
    receive req0 _slave w
    = Some (if (2 <=? n) && (crc16 (take (Z.to_nat n) (req st)) =? 0)
            then n else -1, req st, w1)).
  { unfold receive. rewrite Htrace. cbn [mbind option_bind].
    unfold check_integrity. fold n.
    destruct (2 <=? n); [|reflexivity].
    rewrite Hrange. cbn [mbind option_bind andb].
    by destruct (crc16 (take (Z.to_nat n) (req st)) =? 0). }
  destruct ((2 <=? n) && (crc16 (take (Z.to_nat n) (req st)) =? 0)) eqn:Hok.
  - split; [exact Hrecv|].
    apply andb_prop in Hok as [H2 _]. apply Z.leb_le in H2.
    rewrite Hltr in Hk. unfold u8 in Hidx.
    destruct (Z.eq_dec (Z.of_nat (length wl)) 256) as [E|E].
    + rewrite E in Hidx. change (256 mod 256) with 0 in Hidx. lia.
    + rewrite Z.mod_small in Hidx by lia. exact Hidx.
  - split; [exact Hrecv|]. split; [exact Hout|].
    intros Hav. unfold loop. rewrite Hav, Hrecv. reflexivity.
Qed.

Lemma loop_negative (tab_reg : list Z) (nb_reg : Z) (req0 rsp : list Z)
  (_slave : Z) (w w1 : world) (rc : Z) (rq : list Z) :
  Serial2_available w = true ->
  receive req0 _slave w = Some (rc, rq, w1) ->
  rc <= 0 ->
  loop tab_reg nb_reg _slave req0 rsp w = Some (rc, tab_reg, [], w1).
Proof.
  intros Hav Hrecv Hrc. unfold loop. rewrite Hav, Hrecv.
  cbn [mbind option_bind]. destruct (Z.gtb_spec rc 0); [lia | reflexivity].
Qed.

Lemma receive_not_for_us (req0 : list Z) (_slave : Z) (w w1 w2 : world)
  (b0 b1 : Z) :
  length req0 = 256%nat ->
  next_byte w = RxByte b0 w1 ->
  next_byte w1 = RxByte b1 w2 ->
  for_me (u8 b0) _slave = false ->
  receive req0 _slave w
  = Some (-1 - MODBUS_INFORMATIVE_NOT_FOR_US,
          <[1%nat := u8 b1]> (<[0%nat := u8 b0]> req0), flush w2).
Proof.
  intros Hlen Hb0 Hb1 Hme. unfold receive.
  rewrite (receive_trace_header _ _ _ _ _ _ _ Hlen Hb0 Hb1).
  destruct (load_header req0 (u8 b0) (u8 b1) Hlen) as [Ha _].
  rewrite (end_of_step_not_for_us _ _ _ _ _ (u8 b0)) by done.
  reflexivity.
Qed.

(** C4.  A frame whose address byte is neither the station identity
    nor the broadcast address 0: once address and function code are in,
    the receiver flushes the line and reports the not-for-this-station
    status; the whole cycle returns that status with the register table
    untouched and nothing added to what went out; and the dispatcher,
    should it be given such a frame, sends nothing either. *)
Theorem not_for_us_sends_nothing
  (tab_reg : list Z) (nb_reg : Z) (req0 rsp : list Z) (_slave : Z)
  (w w1 w2 : world) (b0 b1 : Z) :
  length req0 = 256%nat ->
  informative_codes MODBUS_INFORMATIVE_NOT_FOR_US
    MODBUS_INFORMATIVE_RX_TIMEOUT ->
  Serial2_available w = true ->
  next_byte w = RxByte b0 w1 ->
  next_byte w1 = RxByte b1 w2 ->
  u8 b0 <> _slave ->
  u8 b0 <> MODBUS_BROADCAST_ADDRESS ->
  let rq := <[1%nat := u8 b1]> (<[0%nat := u8 b0]> req0) in
  receive req0 _slave w
  = Some (-1 - MODBUS_INFORMATIVE_NOT_FOR_US, rq, flush w2)
  /\ loop tab_reg nb_reg _slave req0 rsp w
     = Some (-1 - MODBUS_INFORMATIVE_NOT_FOR_US, tab_reg, [], flush w2)
  /\ out (flush w2) = out w
  /\ (forall tab' nb' len rsp' w',
        reply tab' nb' rq len _slave rsp' w' = Some (tab', [], w')).
Proof.
  intros Hlen (Hnfu & _) Hav Hb0 Hb1 Hs H0 rq.
  unfold MODBUS_EXCEPTION_ILLEGAL_DATA_VALUE in Hnfu.
  assert (Hme : for_me (u8 b0) _slave = false).
  { unfold for_me. apply Z.eqb_neq in Hs as ->. by apply Z.eqb_neq in H0 as ->. }
  pose proof (receive_not_for_us _ _ _ _ _ _ _ Hlen Hb0 Hb1 Hme) as Hrecv.
  split; [exact Hrecv|]. split; [|split].
  - apply (loop_negative _ _ _ _ _ _ _ _ _ Hav Hrecv). lia.
  - rewrite out_flush.
    apply next_byte_quiet in Hb0 as [E0 _]. apply next_byte_quiet in Hb1 as [E1 _].
    congruence.
  - intros tab' nb' len rsp' w'. unfold rq.
    destruct req0 as [|x0 [|x1 [|x2 [|x3 [|x4 [|x5 req0]]]]]];
      simpl in Hlen; try lia.
    unfold reply. generalize register_fuel. intros fuel. simpl.
    by rewrite (not_for_me_filter _ _ Hs H0).
Qed.

(** C8, as amended.  A frame whose function code is neither 0x03 nor
    0x10.  If its address byte is the station identity or the broadcast
    address, the line is flushed, an Illegal-Function exception goes out
    and the status is the illegal-function status.  If not, the line is
    flushed, nothing goes out and the status is the not-for-this-station
    status. *)
Theorem receive_unsupported_function
  (tab_reg : list Z) (nb_reg : Z) (req0 rsp : list Z) (_slave : Z)
  (w w1 w2 : world) (b0 b1 : Z) :
  length req0 = 256%nat ->
  informative_codes MODBUS_INFORMATIVE_NOT_FOR_US
    MODBUS_INFORMATIVE_RX_TIMEOUT ->
  Serial2_available w = true ->
  next_byte w = RxByte b0 w1 ->
  next_byte w1 = RxByte b1 w2 ->
  u8 b1 <> _FC_READ_HOLDING_REGISTERS ->
  u8 b1 <> _FC_WRITE_MULTIPLE_REGISTERS ->
  if for_me (u8 b0) _slave then
    let w3 :=
      transmitted
        [_slave; u8 (u8 b1 + 0x80); MODBUS_EXCEPTION_ILLEGAL_FUNCTION]
        (flush w2) in
    (exists rq,
        receive req0 _slave w
        = Some (-1 - MODBUS_EXCEPTION_ILLEGAL_FUNCTION, rq, w3))
    /\ loop tab_reg nb_reg _slave req0 rsp w
       = Some (-1 - MODBUS_EXCEPTION_ILLEGAL_FUNCTION, tab_reg, [], w3)
  else
    loop tab_reg nb_reg _slave req0 rsp w
    = Some (-1 - MODBUS_INFORMATIVE_NOT_FOR_US, tab_reg, [], flush w2)
    /\ out (flush w2) = out w.
Proof.
  intros Hlen (Hnfu & _) Hav Hb0 Hb1 Hf3 Hf16.
  unfold MODBUS_EXCEPTION_ILLEGAL_DATA_VALUE in Hnfu.
  destruct (for_me (u8 b0) _slave) eqn:Hme.
  - destruct (load_header req0 (u8 b0) (u8 b1) Hlen) as [Ha Hf].
    pose proof (end_of_step_function crc16_bytes MODBUS_INFORMATIVE_NOT_FOR_US
                  _slave
                  (RState 0 2 _STEP_FUNCTION 0
                     (<[1%nat := u8 b1]> (<[0%nat := u8 b0]> req0)))
                  w2 (u8 b0) (u8 b1) eq_refl) as Hes.
    cbn [req] in Hes. rewrite !length_insert in Hes.
    specialize (Hes Hlen Ha Hf Hme).
    apply Z.eqb_neq in Hf3, Hf16. rewrite Hf3, Hf16 in Hes.
    destruct Hes as (rq1 & Hes & _).
    assert (Hrecv :
      receive req0 _slave w
      = Some (-1 - MODBUS_EXCEPTION_ILLEGAL_FUNCTION, rq1,
              transmitted
                [_slave; u8 (u8 b1 + 128); MODBUS_EXCEPTION_ILLEGAL_FUNCTION]
                (flush w2))).
    { unfold receive.
      rewrite (receive_trace_header _ _ _ _ _ _ _ Hlen Hb0 Hb1), Hes.
      reflexivity. }
    split; [by exists rq1|].
    apply (loop_negative _ _ _ _ _ _ _ _ _ Hav Hrecv).
    unfold MODBUS_EXCEPTION_ILLEGAL_FUNCTION. lia.
  - pose proof (receive_not_for_us _ _ _ _ _ _ _ Hlen Hb0 Hb1 Hme) as Hrecv.
    split.
    + apply (loop_negative _ _ _ _ _ _ _ _ _ Hav Hrecv). lia.
    + rewrite out_flush.
      apply next_byte_quiet in Hb0 as [E0 _].
      apply next_byte_quiet in Hb1 as [E1 _]. congruence.
Qed.

End CycleFacts.

(** ** Frames handed to the dispatcher *)

Lemma receive_unfold crc16 crc16_bytes nfu to req0 _slave w :
  receive crc16 crc16_bytes nfu to req0 _slave w
  = (r ← receive_trace crc16_bytes nfu to req0 _slave w;
     match r with
     | Returned rc rq w1 _ => Some (rc, rq, w1)
     | Completed st w1 _ =>
         rc ← check_integrity crc16 (req st) (req_index st);
         Some (rc, req st, w1)
     end).
Proof. reflexivity. Qed.

(** Every frame that [receive] accepts, and that [loop] therefore hands
    to [reply], is addressed to this station or to all stations and
    carries function code 0x03 or 0x10. *)
Lemma receive_accepts_header
  (crc16 : list Z -> Z) (crc16_bytes : list Z -> Z * Z)
  (not_for_us rx_timeout : Z) (req0 : list Z) (_slave : Z) (w w1 : world)
  (rc : Z) (rq : list Z) :
  length req0 = 256%nat ->
  informative_codes not_for_us rx_timeout ->
  receive crc16 crc16_bytes not_for_us rx_timeout req0 _slave w
  = Some (rc, rq, w1) ->
  0 < rc ->
  exists a f,
    load rq 0 = Some a /\ for_me a _slave = true
    /\ load rq 1 = Some f
    /\ (f = _FC_READ_HOLDING_REGISTERS \/ f = _FC_WRITE_MULTIPLE_REGISTERS).
Proof.
  intros Hlen (Hnfu & Hto & _) Hrecv Hrc.
  unfold MODBUS_EXCEPTION_ILLEGAL_DATA_VALUE in Hnfu, Hto.
  destruct (receive_trace_post crc16_bytes not_for_us rx_timeout
              req0 _slave w Hlen) as (r & Hr & Hpost).
  rewrite receive_unfold, Hr in Hrecv. cbn [mbind option_bind] in Hrecv.
  destruct r as [rc' rq' w' wl | st w' wl].
  - injection Hrecv as <- <- <-. destruct Hpost as (Hcodes & _).
    unfold MODBUS_EXCEPTION_ILLEGAL_FUNCTION in Hcodes.
    exfalso. clear - Hcodes Hrc Hnfu Hto. lia.
  - destruct (check_integrity crc16 (req st) (req_index st)) as [rc'|];
      [|discriminate].
    injection Hrecv as <- <- <-.
    destruct Hpost as ((_ & _ & _ & Hs) & Hstep & _).
    rewrite Hstep in Hs. destruct Hs as ((a & Ha & Hme & Hf & Hfn) & _).
    by exists a, (function st).
Qed.

(** C3.  A frame that [receive] has verified and [loop] dispatches, with
    a decoded start address plus register count above the declared table
    size: the register table is left as it is, no access to it is made,
    and the frame sent is the address byte, the function byte with its
    high bit set, and the exception code 2. *)
Theorem dispatch_illegal_data_address
  (crc16 : list Z -> Z) (crc16_bytes : list Z -> Z * Z)
  (not_for_us rx_timeout : Z)
  (tab_reg : list Z) (nb_reg : Z) (req0 rsp : list Z) (_slave : Z)
  (w w1 : world) (rc a f a_hi a_lo n_hi n_lo : Z) (rest : list Z) :
  length req0 = 256%nat ->
  length rsp = 256%nat ->
  informative_codes not_for_us rx_timeout ->
  Serial2_available w = true ->
  receive crc16 crc16_bytes not_for_us rx_timeout req0 _slave w
  = Some (rc, a :: f :: a_hi :: a_lo :: n_hi :: n_lo :: rest, w1) ->
  0 < rc ->
  word a_hi a_lo + word n_hi n_lo > nb_reg ->
  let w2 :=
    transmitted crc16_bytes
      [a; Z.lor f 0x80; MODBUS_EXCEPTION_ILLEGAL_DATA_ADDRESS] w1 in
  reply crc16_bytes tab_reg nb_reg
    (a :: f :: a_hi :: a_lo :: n_hi :: n_lo :: rest) (u8 rc) _slave rsp w1
  = Some (tab_reg, [], w2)
  /\ loop crc16 crc16_bytes not_for_us rx_timeout tab_reg nb_reg _slave
       req0 rsp w
     = Some (rc, tab_reg, [], w2)
  /\ Z.testbit (Z.lor f 0x80) 7 = true.
Proof.
  intros Hlen Hrsp Hcodes Hav Hrecv Hrc Hover w2.
  destruct (receive_accepts_header _ _ _ _ _ _ _ _ _ _ Hlen Hcodes Hrecv Hrc)
    as (a' & f' & Ha & Hme & Hf & Hfn).
  injection Ha as <-. injection Hf as <-.
  destruct (reply_exception_run crc16_bytes tab_reg nb_reg a f a_hi a_lo
              n_hi n_lo rest (u8 rc) _slave rsp w1 Hme Hfn Hrsp Hover)
    as [Hreply Hbit].
  split; [exact Hreply|]. split; [|exact Hbit].
  unfold loop. rewrite Hav, Hrecv. cbn [mbind option_bind].
  destruct (Z.gtb_spec rc 0); [|lia].
  by rewrite Hreply.
Qed.

(** ** The oversize test *)

Section OversizeFacts.

Variable crc16 : list Z -> Z.
Variable crc16_bytes : list Z -> Z * Z.
Variable MODBUS_INFORMATIVE_NOT_FOR_US : Z.
Variable MODBUS_INFORMATIVE_RX_TIMEOUT : Z.

Abbreviation end_of_step :=
  (end_of_step crc16_bytes MODBUS_INFORMATIVE_NOT_FOR_US).
Abbreviation receive_loop :=
  (receive_loop crc16_bytes MODBUS_INFORMATIVE_NOT_FOR_US
     MODBUS_INFORMATIVE_RX_TIMEOUT).
Abbreviation receive_trace :=
  (receive_trace crc16_bytes MODBUS_INFORMATIVE_NOT_FOR_US
     MODBUS_INFORMATIVE_RX_TIMEOUT).
Abbreviation receive :=
  (receive crc16 crc16_bytes MODBUS_INFORMATIVE_NOT_FOR_US
     MODBUS_INFORMATIVE_RX_TIMEOUT).
Abbreviation transmitted := (transmitted crc16_bytes).

(** One round of the loop that does not end a step. *)
Lemma receive_loop_round (fuel : nat) (_slave : Z) (st : rstate)
  (w w1 : world) (wl : list Z) (b : Z) :
  next_byte w = RxByte b w1 ->
  2 <= length_to_read st < 256 ->
  0 <= req_index st < 255 ->
  length (req st) = 256%nat ->
  receive_loop (S fuel) _slave st w wl
  = receive_loop fuel _slave
      (RState (length_to_read st - 1) (req_index st + 1) (step st)
              (function st) (<[Z.to_nat (req_index st) := u8 b]> (req st)))
      w1 (wl ++ [req_index st]).
Proof.
  intros Hb Hltr Hidx Hlen. cbn [receive_loop].
  destruct (Z.eqb_spec (length_to_read st) 0); [lia|].
  rewrite Hb. rewrite store_Some by lia. cbn [mbind option_bind length_to_read].
  rewrite (u8_small (length_to_read st - 1)), (u8_small (req_index st + 1))
    by lia.
  destruct (Z.eqb_spec (length_to_read st - 1) 0); [lia|]. reflexivity.
Qed.

(** The round that ends a step. *)
Lemma receive_loop_last_round (fuel : nat) (_slave : Z) (st : rstate)
  (w w1 : world) (wl : list Z) (b : Z) :
  next_byte w = RxByte b w1 ->
  length_to_read st = 1 ->
  0 <= req_index st < 255 ->
  length (req st) = 256%nat ->
  receive_loop (S fuel) _slave st w wl
  = c ← end_of_step _slave
          (RState 0 (req_index st + 1) (step st) (function st)
                  (<[Z.to_nat (req_index st) := u8 b]> (req st)))
          w1;
    match c with
    | Continue st2 w2 =>
        receive_loop fuel _slave st2 w2 (wl ++ [req_index st])
    | Return rc rq1 w2 => Some (Returned rc rq1 w2 (wl ++ [req_index st]))
    end.
Proof.
  intros Hb Hltr Hidx Hlen. cbn [receive_loop]. rewrite Hltr.
  change (1 =? 0) with false. cbn iota.
  rewrite Hb. rewrite store_Some by lia. cbn [mbind option_bind length_to_read].
  change (u8 (1 - 1)) with 0. rewrite (u8_small (req_index st + 1)) by lia.
  reflexivity.
Qed.

(** The oversize branch, for every line: a write request for this
    station whose byte count [n] makes [7 + u8 (2 + n)] exceed 256.  The
    line is flushed and the Illegal-Data-Value exception goes out, and
    the status is that of the illegal function. *)
Lemma receive_oversize (req0 : list Z) (_slave : Z)
  (w w1 w2 w3 w4 w5 w6 w7 : world) (b0 b2 b3 b4 b5 n : Z) :
  length req0 = 256%nat ->
  next_byte w = RxByte b0 w1 ->
  next_byte w1 = RxByte _FC_WRITE_MULTIPLE_REGISTERS w2 ->
  next_byte w2 = RxByte b2 w3 ->
  next_byte w3 = RxByte b3 w4 ->
  next_byte w4 = RxByte b4 w5 ->
  next_byte w5 = RxByte b5 w6 ->
  next_byte w6 = RxByte n w7 ->
  for_me (u8 b0) _slave = true ->
  7 + u8 (_MODBUS_RTU_CHECKSUM_LENGTH + u8 n) > _MODBUSINO_RTU_MAX_ADU_LENGTH ->
  exists rq,
    receive req0 _slave w
    = Some (-1 - MODBUS_EXCEPTION_ILLEGAL_FUNCTION, rq,
            transmitted
              [_slave; u8 (_FC_WRITE_MULTIPLE_REGISTERS + 0x80);
               MODBUS_EXCEPTION_ILLEGAL_DATA_VALUE]
              (flush w7)).
Proof.
  intros Hlen H0 H1 H2 H3 H4 H5 H6 Hme Hbig.
  unfold receive.
  rewrite (receive_trace_header _ _ _ _ _ _ _ _ _ _ Hlen H0 H1).
  change (u8 _FC_WRITE_MULTIPLE_REGISTERS) with 16.
  destruct (load_header req0 (u8 b0) 16 Hlen) as [Ha Hf].
  pose proof (end_of_step_function crc16_bytes MODBUS_INFORMATIVE_NOT_FOR_US
                _slave
                (RState 0 2 _STEP_FUNCTION 0
                   (<[1%nat := 16]> (<[0%nat := u8 b0]> req0)))
                w2 (u8 b0) 16 eq_refl) as Hes.
  cbn [req req_index] in Hes. rewrite !length_insert in Hes.
  specialize (Hes Hlen Ha Hf Hme).
  change (16 =? _FC_READ_HOLDING_REGISTERS) with false in Hes.
  change (16 =? _FC_WRITE_MULTIPLE_REGISTERS) with true in Hes.
  cbn iota in Hes. rewrite Hes.
  cbn [mbind option_bind].
  change 261%nat with (S (S (S (S (S 256))))).
  rewrite (receive_loop_round _ _ _ _ _ _ _ H2);
    cbn [req req_index length_to_read step function];
    rewrite ?length_insert; try lia.
  rewrite (receive_loop_round _ _ _ _ _ _ _ H3);
    cbn [req req_index length_to_read step function];
    rewrite ?length_insert; try lia.
  rewrite (receive_loop_round _ _ _ _ _ _ _ H4);
    cbn [req req_index length_to_read step function];
    rewrite ?length_insert; try lia.
  rewrite (receive_loop_round _ _ _ _ _ _ _ H5);
    cbn [req req_index length_to_read step function];
    rewrite ?length_insert; try lia.
  rewrite (receive_loop_last_round _ _ _ _ _ _ _ H6);
    cbn [req req_index length_to_read step function];
    rewrite ?length_insert; try lia.
  change (2 + 1 + 1 + 1 + 1 + 1) with 7.
  set (rq7 := <[Z.to_nat (2 + 1 + 1 + 1 + 1) := u8 n]> _).
  assert (Hlen7 : length rq7 = 256%nat)
    by (unfold rq7; by rewrite !length_insert).
  assert (Hloads : load rq7 0 = Some (u8 b0) /\ load rq7 6 = Some (u8 n)).
  { unfold rq7.
    destruct req0 as [|x0 [|x1 [|x2 [|x3 [|x4 [|x5 [|x6 req0]]]]]]];
      simpl in Hlen; try lia.
    by split. }
  destruct Hloads as [Ha7 Hn7].
  destruct (end_of_step_meta crc16_bytes MODBUS_INFORMATIVE_NOT_FOR_US _slave
              (RState 0 7 _STEP_META 16 rq7) w7 (u8 b0)
              eq_refl Hlen7 Ha7 Hme) as (len & Hlenspec & Hes7).
  cbn [req req_index function] in Hlenspec, Hes7.
  change (16 =? _FC_WRITE_MULTIPLE_REGISTERS) with true in Hlenspec.
  cbn iota in Hlenspec. destruct Hlenspec as (n' & Hn' & ->).
  rewrite Hn7 in Hn'. injection Hn' as <-.
  unfold _MODBUS_RTU_CHECKSUM_LENGTH in Hbig.
  destruct (Z.gtb_spec (7 + u8 (2 + u8 n)) _MODBUSINO_RTU_MAX_ADU_LENGTH);
    [|lia].
  destruct Hes7 as (rq & -> & _). by exists rq.
Qed.

End OversizeFacts.

(** ** Exception frames *)

Lemma exception_byte (f : Z) :
  0 <= f < 256 -> (u8 (f + 0x80) = Z.lor f 0x80 <-> f < 0x80).
Proof.
  intros Hf.
  assert (Hall :
    forallb (fun f => Bool.eqb (u8 (f + 0x80) =? Z.lor f 0x80) (f <? 0x80))
            (seqZ 0 256) = true) by (vm_compute; reflexivity).
  rewrite forallb_forall in Hall.
  specialize (Hall f). rewrite <- list_elem_of_In in Hall. rewrite elem_of_seqZ in Hall.
  specialize (Hall ltac:(lia)). apply Bool.eqb_prop in Hall.
  rewrite <- Z.eqb_eq, <- Z.ltb_lt, Hall. reflexivity.
Qed.

(** What [response_exception] builds: three bytes before the checksum,
    the address, the function byte and one byte that is the exception
    code.  The function byte is the request's function code plus 0x80
    modulo 256; this is the function code OR 0x80 exactly when the
    function code is below 0x80. *)
Lemma response_exception_frame
  (slave function exception_code : Z) (rsp : list Z) :
  (3 <= length rsp)%nat ->
  0 <= function < 256 ->
  response_exception slave function exception_code rsp
  = Some ([slave; (function + 0x80) mod 256; exception_code] ++ drop 3 rsp, 3)
  /\ ((function + 0x80) mod 256 = Z.lor function 0x80 <-> function < 0x80)
  /\ response_exception 5 0x99 MODBUS_EXCEPTION_ILLEGAL_FUNCTION rsp
     = Some ([5; 0x19; MODBUS_EXCEPTION_ILLEGAL_FUNCTION] ++ drop 3 rsp, 3).
Proof.
  intros Hrsp Hf. split; [|split].
  - by apply response_exception_cells.
  - by apply exception_byte.
  - by apply response_exception_cells.
Qed.

(** The constructor keeps exactly the identities 0 .. 247. *)
Lemma SimpleModbusSlave_range (slave _slave0 : Z) :
  SimpleModbusSlave slave _slave0
  = if (0 <=? slave) && (slave <=? 247) then slave else _slave0.
Proof.
  unfold SimpleModbusSlave. rewrite Z.geb_leb.
  by destruct (0 <=? slave), (slave <=? 247).
Qed.

(** ** Registers on the wire, and the line flush *)

Lemma big_endian_bytes (hi lo : Z) :
  0 <= hi < 256 -> 0 <= lo < 256 -> big_endian [word hi lo] = [hi; lo].
Proof.
  intros Hhi Hlo. rewrite word_bytes by lia. rewrite big_endian_16 by lia.
  f_equal; [|f_equal].
  - rewrite Z.mul_comm, Z.div_add_l by lia. rewrite Z.div_small by lia. lia.
  - rewrite Z.mul_comm, Z.add_comm, Z.mod_add by lia. apply Z.mod_small. lia.
Qed.

(** X1.  Two bytes decoded into a register as [reply] does for a write,
    [(hi << 8) + lo], and encoded again as it does for a read, [v >> 8]
    and [v & 0xFF], are the two bytes again. *)
Theorem register_encode_decode (hi lo : Z) :
  0 <= hi < 256 -> 0 <= lo < 256 -> big_endian [word hi lo] = [hi; lo].
Proof. apply big_endian_bytes. Qed.

(** X2.  A 16-bit register value encoded as [reply] does for a read,
    [v >> 8] and [v & 0xFF], and decoded again as it does for a write,
    [(hi << 8) + lo], is the value again. *)
Theorem register_decode_encode (v : Z) :
  0 <= v < 65536 -> word (u8 (Z.shiftr v 8)) (u8 (Z.land v 0xFF)) = v.
Proof.
  intros Hv. pose proof (big_endian_16 v Hv) as H. simpl in H.
  injection H as -> ->.
  rewrite word_bytes.
  - pose proof (Z.div_mod v 256). lia.
  - split; [apply Z.div_pos; lia | apply Z.div_lt_upper_bound; lia].
  - apply Z.mod_pos_bound. lia.
Qed.

Lemma flush_rounds_iter (n : nat) (w : world) :
  exists k : nat,
    (k <= n)%nat
    /\ flush_rounds n w = Nat.iter k flush_round w
    /\ (forall j : nat, (j < k)%nat ->
          Serial2_available (Nat.iter j flush_round w) = true)
    /\ (Serial2_available (flush_rounds n w) = true -> k = n).
Proof.
  revert w. induction n as [|n IH]; intros w; cbn [flush_rounds].
  - exists 0%nat. split; [lia|]. split; [by destruct (Serial2_available w)|].
    split; [intros; lia | done].
  - destruct (Serial2_available w) eqn:Hav.
    + destruct (IH (delay 3 (Serial2_flush w))) as (k & Hk & Heq & Hbusy & Hlast).
      exists (S k). split; [lia|]. split; [|split].
      * rewrite Heq. by rewrite Nat.iter_succ_r.
      * intros [|j] Hj; [exact Hav|].
        rewrite Nat.iter_succ_r. apply Hbusy. lia.
      * intros H. f_equal. by apply Hlast.
    + exists 0%nat. split; [lia|]. split; [done|].
      split; [intros; lia|]. simpl. congruence.
Qed.

(** X3.  [flush] makes between 0 and 10 rounds, each discarding what
    waits on the line and then waiting 3 ms; it goes on only while
    something waits, so if something still waits afterwards all 10
    rounds were made.  It sends nothing and leaves the driver-enable pin
    alone. *)
Theorem flush_bounded (w : world) :
  exists k : nat,
    (k <= 10)%nat
    /\ flush w = Nat.iter k flush_round w
    /\ (forall j : nat, (j < k)%nat ->
          Serial2_available (Nat.iter j flush_round w) = true)
    /\ (Serial2_available (flush w) = true -> k = 10%nat)
    /\ out (flush w) = out w /\ pin_DE (flush w) = pin_DE w.
Proof.
  destruct (flush_rounds_iter 10 w) as (k & Hk & Heq & Hbusy & Hlast).
  exists k. repeat split; try done.
  - apply out_flush.
  - apply pin_flush.
Qed.

Lemma delay_S (n : nat) (w : world) : delay n (tick w) = delay (S n) w.
Proof. unfold delay. by rewrite Nat.iter_succ_r. Qed.

Lemma delay_add (n m : nat) (w : world) : delay n (delay m w) = delay (m + n) w.
Proof. unfold delay. rewrite Nat.add_comm. by rewrite Nat.iter_add. Qed.

Lemma rx_delay (n : nat) (w : world) :
  rx (delay n w) = rx w ++ concat (take n (arrivals w))
  /\ arrivals (delay n w) = drop n (arrivals w).
Proof.
  revert w. induction n as [|n IH]; intros w.
  - simpl. by rewrite app_nil_r, drop_0.
  - rewrite <- delay_S. destruct (IH (tick w)) as [-> ->].
    unfold tick. destruct (arrivals w) as [|c cs] eqn:Ha; simpl.
    + by rewrite Ha, take_nil, drop_nil.
    + by rewrite <- app_assoc.
Qed.

(** X4.  On a line where nothing arrives during the next 3 ms,
    [flush] with bytes waiting discards them in one round: the receive
    buffer is empty afterwards and 3 ms have passed.  With nothing
    waiting it returns at once and no time passes. *)
Theorem flush_quiet_line (w : world) :
  concat (take 3 (arrivals w)) = [] ->
  flush w = if Serial2_available w
            then World [] (drop 3 (arrivals w)) (out w) (pin_DE w)
            else w.
Proof.
  intros Hq. unfold flush. cbn [flush_rounds].
  destruct (Serial2_available w) eqn:Hav; [|reflexivity].
  destruct (rx_delay 3 (Serial2_flush w)) as [Hrx Harr].
  change (rx (Serial2_flush w)) with (@nil Z) in Hrx.
  change (arrivals (Serial2_flush w)) with (arrivals w) in Hrx, Harr.
  rewrite Hq in Hrx.
  assert (E : delay 3 (Serial2_flush w)
              = World [] (drop 3 (arrivals w)) (out w) (pin_DE w)).
  { pose proof (out_delay 3 (Serial2_flush w)) as Ho.
    pose proof (pin_delay 3 (Serial2_flush w)) as Hp.
    change (out (Serial2_flush w)) with (out w) in Ho.
    change (pin_DE (Serial2_flush w)) with (pin_DE w) in Hp.
    destruct (delay 3 (Serial2_flush w)) as [r a o p]. simpl in *. congruence. }
  rewrite E. reflexivity.
Qed.

(** ** The wait for a byte, and transmission *)

Lemma rx_wait_spec (n : nat) (w : world) :
  (rx_wait n w = (false, delay n w)
   /\ forall k : nat, (k <= n)%nat -> Serial2_available (delay k w) = false)
  \/ (exists k : nat,
        (k <= n)%nat /\ rx_wait n w = (true, delay k w)
        /\ Serial2_available (delay k w) = true
        /\ forall j : nat, (j < k)%nat -> Serial2_available (delay j w) = false).
Proof.
  revert w. induction n as [|n IH]; intros w; cbn [rx_wait].
  - destruct (Serial2_available w) eqn:Hav.
    + right. exists 0%nat. split; [lia|]. split; [done|]. split; [done|].
      intros; lia.
    + left. split; [done|]. intros k Hk. by replace k with 0%nat by lia.
  - destruct (Serial2_available w) eqn:Hav.
    + right. exists 0%nat. split; [lia|]. split; [done|]. split; [done|].
      intros; lia.
    + destruct (IH (delay 1 w)) as [[Heq Hno] | (k & Hk & Heq & Hyes & Hno)].
      * left. rewrite Heq, delay_add. split; [done|].
        intros [|k] Hk; [exact Hav|].
        specialize (Hno k ltac:(lia)). by rewrite delay_add in Hno.
      * right. exists (S k). split; [lia|].
        rewrite delay_add in Heq, Hyes. split; [done|]. split; [done|].
        intros [|j] Hj; [exact Hav|].
        specialize (Hno j ltac:(lia)). by rewrite delay_add in Hno.
Qed.

(** X5.  The wait for a byte in [receive] times out exactly when no
    byte is there at the start nor after each of the next 9
    milliseconds; 9 ms have then passed, and no byte was read. *)
Theorem next_byte_timeout (w w1 : world) :
  next_byte w = RxTimeout w1
  <-> w1 = delay 9 w
      /\ forall k : nat, (k <= 9)%nat -> Serial2_available (delay k w) = false.
Proof.
  unfold next_byte.
  destruct (rx_wait_spec 9 w) as [[Heq Hno] | (k & Hk & Heq & Hyes & Hno)];
    rewrite Heq.
  - split; [intros [= <-]; done | intros [-> _]; done].
  - split.
    + destruct (Serial2_read (delay k w)). discriminate.
    + intros [_ Hall]. rewrite Hall in Hyes by lia. discriminate.
Qed.

(** X6.  A byte that is in the receive buffer after [k <= 9]
    milliseconds, nothing having been there before, is the byte
    [receive] reads: the oldest byte is taken, the others stay in the
    buffer, and [k] ms have passed. *)
Theorem next_byte_arrival (w : world) (k : nat) (b : Z) (r : list Z) :
  (k <= 9)%nat ->
  (forall j : nat, (j < k)%nat -> Serial2_available (delay j w) = false) ->
  rx (delay k w) = b :: r ->
  next_byte w = RxByte b (set_rx r (delay k w)).
Proof.
  intros Hk Hquiet Hrx. unfold next_byte.
  assert (Hav : Serial2_available (delay k w) = true)
    by (unfold Serial2_available; by rewrite Hrx).
  destruct (rx_wait_spec 9 w) as [[Heq Hno] | (k' & Hk' & Heq & Hyes & Hno)];
    rewrite Heq.
  - rewrite Hno in Hav by lia. discriminate.
  - assert (k' = k) as ->.
    { destruct (Nat.lt_trichotomy k' k) as [Hlt | [-> | Hlt]]; [|done|].
      - rewrite Hquiet in Hyes by lia. discriminate.
      - rewrite Hno in Hav by lia. discriminate. }
    unfold Serial2_read. by rewrite Hrx.
Qed.

Lemma next_byte_waiting (w : world) (b : Z) (r : list Z) :
  rx w = b :: r -> next_byte w = RxByte b (set_rx r w).
Proof.
  intros Hrx. apply (next_byte_arrival w 0 b r); [lia | intros; lia | exact Hrx].
Qed.

Section SendFacts.

Variable crc16_bytes : list Z -> Z * Z.

Abbreviation framed := (framed crc16_bytes).
Abbreviation transmitted := (transmitted crc16_bytes).
Abbreviation send_msg := (send_msg crc16_bytes).

Lemma send_msg_None (msg : list Z) (msg_length : Z) (w : world) :
  ~ (0 <= msg_length /\ msg_length + 2 <= Z.of_nat (length msg)) ->
  send_msg msg msg_length w = None.
Proof.
  intros Hno. unfold send_msg, add_crc16.
  destruct (load_range msg msg_length) as [data|] eqn:Hd; [|reflexivity].
  cbn [mbind option_bind].
  destruct (store msg msg_length _) as [msg1|] eqn:H1; [|reflexivity].
  cbn [mbind option_bind].
  destruct (store msg1 (msg_length + 1) _) as [msg2|] eqn:H2; [|reflexivity].
  exfalso. pose proof (store_length _ _ _ _ H1) as Hlen.
  apply store_inv in H1 as [H1 _]. apply store_inv in H2 as [H2 _]. lia.
Qed.

Lemma send_msg_inv (msg : list Z) (msg_length : Z) (w : world)
  (msg' : list Z) (w' : world) :
  send_msg msg msg_length w = Some (msg', w') ->
  w' = transmitted (take (Z.to_nat msg_length) msg) w
  /\ length msg' = length msg.
Proof.
  intros H.
  destruct (decide (0 <= msg_length /\ msg_length + 2 <= Z.of_nat (length msg)))
    as [[H0 H2]|Hno].
  - destruct (send_msg_take crc16_bytes msg msg_length w H0 H2)
      as (m & Hm & Hlen).
    rewrite Hm in H. by injection H as <- <-.
  - rewrite send_msg_None in H by done. discriminate.
Qed.

(** X7.  [send_msg] has a defined result exactly when the array has
    room for the two checksum bytes behind the message.  Then it raises
    the driver-enable pin, writes the message followed by its two
    checksum bytes in one piece, and lowers the pin; the array keeps its
    size and holds the frame sent. *)
Theorem send_msg_frame (msg : list Z) (msg_length : Z) (w : world) :
  let body := take (Z.to_nat msg_length) msg in
  if (0 <=? msg_length) && (msg_length + 2 <=? Z.of_nat (length msg)) then
    exists msg',
      send_msg msg msg_length w = Some (msg', transmitted body w)
      /\ length msg' = length msg
      /\ take (Z.to_nat msg_length + 2) msg'
         = body ++ [(crc16_bytes body).1; (crc16_bytes body).2]
      /\ out (transmitted body w)
         = out w ++ [DigitalWrite (pin_DE w) 1;
                     SerialWrite
                       (body ++ [(crc16_bytes body).1; (crc16_bytes body).2]);
                     DigitalWrite (pin_DE w) 0]
  else send_msg msg msg_length w = None.
Proof.
  intros body.
  destruct (Z.leb_spec 0 msg_length) as [H0|H0];
    [destruct (Z.leb_spec (msg_length + 2) (Z.of_nat (length msg))) as [H2|H2]|];
    cbn [andb]; try (apply send_msg_None; lia).
  pose proof (take_drop (Z.to_nat msg_length) msg) as Hsplit.
  assert (Hlen : Z.of_nat (length body) = msg_length)
    by (unfold body; rewrite length_take; lia).
  assert (Hrest : (2 <= length (drop (Z.to_nat msg_length) msg))%nat)
    by (rewrite length_drop; lia).
  fold body in Hsplit.
  exists (framed body ++ drop 2 (drop (Z.to_nat msg_length) msg)).
  split; [|split; [|split]].
  - transitivity (send_msg (body ++ drop (Z.to_nat msg_length) msg)
                    (Z.of_nat (length body)) w).
    + by rewrite Hsplit, Hlen.
    + by apply send_msg_app.
  - unfold framed. rewrite !length_app, !length_drop. simpl. lia.
  - replace (Z.to_nat msg_length + 2)%nat with (length (framed body))
      by (unfold framed; rewrite length_app; simpl; lia).
    by rewrite take_app_length.
  - apply out_transmitted.
Qed.

End SendFacts.

(** ** What a cycle sends *)

Section OutFacts.

Variable crc16 : list Z -> Z.
Variable crc16_bytes : list Z -> Z * Z.
Variable MODBUS_INFORMATIVE_NOT_FOR_US : Z.
Variable MODBUS_INFORMATIVE_RX_TIMEOUT : Z.

Abbreviation end_of_step :=
  (end_of_step crc16_bytes MODBUS_INFORMATIVE_NOT_FOR_US).
Abbreviation receive_loop :=
  (receive_loop crc16_bytes MODBUS_INFORMATIVE_NOT_FOR_US
     MODBUS_INFORMATIVE_RX_TIMEOUT).
Abbreviation receive_trace :=
  (receive_trace crc16_bytes MODBUS_INFORMATIVE_NOT_FOR_US
     MODBUS_INFORMATIVE_RX_TIMEOUT).
Abbreviation receive :=
  (receive crc16 crc16_bytes MODBUS_INFORMATIVE_NOT_FOR_US
     MODBUS_INFORMATIVE_RX_TIMEOUT).
Abbreviation loop :=
  (loop crc16 crc16_bytes MODBUS_INFORMATIVE_NOT_FOR_US
     MODBUS_INFORMATIVE_RX_TIMEOUT).
Abbreviation reply := (reply crc16_bytes).
Abbreviation transmitted := (transmitted crc16_bytes).
Abbreviation send_msg := (send_msg crc16_bytes).
Abbreviation receive_effect := (receive_effect crc16_bytes).

Lemma response_exception_inv (slave fn code : Z) (rsp rsp' : list Z) (len : Z) :
  response_exception slave fn code rsp = Some (rsp', len) ->
  rsp' = [slave; u8 (fn + 0x80); code] ++ drop 3 rsp /\ len = 3.
Proof.
  intros H.
  assert (Hlen : (3 <= length rsp)%nat).
  { revert H. unfold response_exception, build_response_basis.
    destruct (store rsp 0 slave) as [r1|] eqn:H1; [|discriminate].
    cbn [mbind option_bind].
    destruct (store r1 1 _) as [r2|] eqn:H2; [|discriminate].
    cbn [mbind option_bind].
    destruct (store r2 _ code) as [r3|] eqn:H3; [|discriminate].
    intros _.
    pose proof (store_length _ _ _ _ H1). pose proof (store_length _ _ _ _ H2).
    apply store_inv in H3 as [H3 _].
    unfold _MODBUS_RTU_PRESET_RSP_LENGTH in H3. lia. }
  rewrite response_exception_cells in H by done. by injection H as <- <-.
Qed.

Lemma exception_out (_slave fn code : Z) (rq rq1 : list Z) (w w2 : world) :
  (response_exception _slave fn code rq
     ≫= λ '(rq0, rsp_length),
       send_msg rq0 rsp_length w ≫= λ '(rq1, w2), Some (rq1, w2))
  = Some (rq1, w2) ->
  w2 = transmitted [_slave; u8 (fn + 0x80); code] w.
Proof.
  destruct (response_exception _ _ _ _) as [[rq0 len]|] eqn:Hex; [|discriminate].
  cbn [mbind option_bind].
  apply response_exception_inv in Hex as [-> ->].
  destruct (send_msg _ _ _) as [[rq2 w3]|] eqn:Hs; [|discriminate].
  cbn [mbind option_bind]. intros [= <- <-].
  apply send_msg_inv in Hs as [-> _]. reflexivity.
Qed.

Lemma end_of_step_out (_slave : Z) (st : rstate) (w : world) (c : ctl) :
  end_of_step _slave st w = Some c ->
  match c with
  | Continue _ w2 => w2 = w
  | Return rc _ w2 => receive_effect _slave w rc w2
  end.
Proof.
  assert (Hquiet : forall rc, receive_effect _slave w rc (flush w)).
  { intros rc. split; [apply pin_flush | left; apply out_flush]. }
  assert (Hexc : forall fn code,
    code = MODBUS_EXCEPTION_ILLEGAL_FUNCTION
    \/ code = MODBUS_EXCEPTION_ILLEGAL_DATA_VALUE ->
    ('(rq, rsp_length) ← response_exception _slave fn code (req st);
     '(rq1, w2) ← send_msg rq rsp_length (flush w);
     Some (Return (-1 - MODBUS_EXCEPTION_ILLEGAL_FUNCTION) rq1 w2)) = Some c ->
    match c with
    | Continue _ w2 => w2 = w
    | Return rc _ w2 => receive_effect _slave w rc w2
    end).
  { intros fn code Hcode H.
    destruct (response_exception _ _ _ _) as [[rq0 len]|] eqn:Hex;
      [|discriminate].
    cbn [mbind option_bind] in H.
    apply response_exception_inv in Hex as [-> ->].
    destruct (send_msg _ _ _) as [[rq2 w3]|] eqn:Hs; [|discriminate].
    cbn [mbind option_bind] in H. injection H as <-.
    apply send_msg_inv in Hs as [-> _]. cbn [take Z.to_nat Pos.to_nat
      Pos.iter_op Nat.add app].
    split.
    - unfold transmitted. simpl. apply pin_flush.
    - right. split; [reflexivity|]. exists fn, code. split; [exact Hcode|].
      rewrite out_transmitted, out_flush, pin_flush. reflexivity. }
  unfold end_of_step.
  change (if _MODBUS_RTU_SLAVE =? MODBUS_BROADCAST_ADDRESS then 0 else 1)
    with _MODBUS_RTU_SLAVE.
  destruct (load (req st) _MODBUS_RTU_SLAVE) as [a|]; [|discriminate].
  cbn [mbind option_bind].
  destruct (negb (a =? _slave) && negb (a =? 0)).
  { intros [= <-]. apply Hquiet. }
  destruct (step st).
  - destruct (load (req st) _MODBUS_RTU_FUNCTION) as [f|]; [|discriminate].
    cbn [mbind option_bind].
    destruct (f =? _FC_READ_HOLDING_REGISTERS); [by intros [= <-]|].
    destruct (f =? _FC_WRITE_MULTIPLE_REGISTERS); [by intros [= <-]|].
    destruct (for_me a _slave).
    + apply (Hexc f MODBUS_EXCEPTION_ILLEGAL_FUNCTION). by left.
    + intros [= <-]. apply Hquiet.
  - destruct (if function st =? _FC_WRITE_MULTIPLE_REGISTERS then _ else _)
      as [len|]; [|discriminate].
    cbn [mbind option_bind].
    destruct (req_index st + len >? _MODBUSINO_RTU_MAX_ADU_LENGTH);
      [|by intros [= <-]].
    destruct (for_me a _slave).
    + apply (Hexc (function st) MODBUS_EXCEPTION_ILLEGAL_DATA_VALUE).
      by right.
    + intros [= <-]. apply Hquiet.
  - by intros [= <-].
Qed.

Lemma receive_effect_from (_slave : Z) (w w0 w1 : world) (rc : Z) :
  out w0 = out w -> pin_DE w0 = pin_DE w ->
  receive_effect _slave w0 rc w1 -> receive_effect _slave w rc w1.
Proof.
  intros Ho Hp [Hpin Hout]. split; [congruence|].
  destruct Hout as [Hout | [Hrc (fn & code & Hcode & Hout)]].
  - left. congruence.
  - right. split; [exact Hrc|]. exists fn, code. split; [exact Hcode|].
    by rewrite <- Ho, <- Hp.
Qed.

Lemma receive_loop_out (_slave : Z) (fuel : nat) :
  forall (st : rstate) (w : world) (wl : list Z) (r : rres),
    receive_loop fuel _slave st w wl = Some r ->
    match r with
    | Completed _ w1 _ => out w1 = out w /\ pin_DE w1 = pin_DE w
    | Returned rc _ w1 _ => receive_effect _slave w rc w1
    end.
Proof.
  induction fuel as [|fuel IH]; intros st w wl r; cbn [receive_loop].
  - destruct (length_to_read st =? 0); [|discriminate]. by intros [= <-].
  - destruct (length_to_read st =? 0); [by intros [= <-]|].
    destruct (next_byte w) as [b w1|w1] eqn:Hnb.
    2: { intros [= <-]. apply next_byte_timeout_quiet in Hnb as [Ho Hp].
         split; [exact Hp | by left]. }
    apply next_byte_quiet in Hnb as [Ho Hp].
    destruct (store (req st) (req_index st) (u8 b)) as [rq|]; [|discriminate].
    cbn [mbind option_bind length_to_read].
    assert (Hrec : forall st' wl' r,
      receive_loop fuel _slave st' w1 wl' = Some r ->
      match r with
      | Completed _ w2 _ => out w2 = out w /\ pin_DE w2 = pin_DE w
      | Returned rc _ w2 _ => receive_effect _slave w rc w2
      end).
    { intros st' wl' r' H. apply IH in H. destruct r'.
      - by apply (receive_effect_from _ _ w1).
      - destruct H. split; congruence. }
    destruct (u8 (length_to_read st - 1) =? 0); [|apply Hrec].
    destruct (end_of_step _ _ _) as [c|] eqn:Hes; [|discriminate].
    cbn [mbind option_bind]. apply end_of_step_out in Hes.
    destruct c as [st2 w2 | rc rq1 w2].
    + subst w2. apply Hrec.
    + intros [= <-]. by apply (receive_effect_from _ _ w1).
Qed.

Lemma receive_trace_out (req0 : list Z) (_slave : Z) (w : world) (r : rres) :
  receive_trace req0 _slave w = Some r ->
  match r with
  | Completed _ w1 _ => out w1 = out w /\ pin_DE w1 = pin_DE w
  | Returned rc _ w1 _ => receive_effect _slave w rc w1
  end.
Proof. unfold receive_trace. apply receive_loop_out. Qed.

(** Every reception has a result; its status is one of five kinds. *)
Lemma receive_total (req0 : list Z) (_slave : Z) (w : world) :
  length req0 = 256%nat ->
  exists rc rq w1,
    receive req0 _slave w = Some (rc, rq, w1)
    /\ length rq = 256%nat
    /\ (rc = -1 - MODBUS_INFORMATIVE_RX_TIMEOUT
        \/ rc = -1 - MODBUS_INFORMATIVE_NOT_FOR_US
        \/ rc = -1 - MODBUS_EXCEPTION_ILLEGAL_FUNCTION
        \/ rc = -1
        \/ 2 <= rc <= 255)
    /\ receive_effect _slave w rc w1.
Proof.
  intros Hlen.
  destruct (receive_trace_post crc16_bytes MODBUS_INFORMATIVE_NOT_FOR_US
              MODBUS_INFORMATIVE_RX_TIMEOUT req0 _slave w Hlen)
    as (r & Hr & Hpost).
  pose proof (receive_trace_out _ _ _ _ Hr) as Hout.
  rewrite receive_unfold, Hr. cbn [mbind option_bind].
  destruct r as [rc rq w1 wl | st w1 wl].
  - destruct Hpost as (Hcodes & Hlen1 & _).
    exists rc, rq, w1. split; [done|]. split; [done|]. split; [|done].
    clear - Hcodes. tauto.
  - destruct Hpost as ((Hlen1 & Hwl & Hidx & Hs) & Hstep & Hltr & _).
    assert (Hn : 0 <= req_index st < 256) by (rewrite Hidx; apply u8_range).
    unfold check_integrity.
    destruct (Z.leb_spec 2 (req_index st)) as [H2|H2].
    + unfold load_range. rewrite Hlen1.
      destruct (Z.leb_spec 0 (req_index st)); [|lia].
      destruct (Z.leb_spec (req_index st) (Z.of_nat 256)); [|lia].
      cbn [andb mbind option_bind].
      destruct (crc16 _ =? 0); cbn [mbind option_bind];
        eexists _, _, _; (split; [reflexivity|]); (split; [exact Hlen1|]);
        (split; [|split; [tauto | left; tauto]]).
      * do 4 right. lia.
      * do 3 right. by left.
    + cbn [mbind option_bind].
      eexists _, _, _. split; [reflexivity|]. split; [exact Hlen1|].
      split; [do 3 right; by left|]. split; [tauto | left; tauto].
Qed.

(** [reply] sends one frame or none, and does nothing else to the world. *)
Lemma reply_out (tab_reg : list Z) (nb_reg : Z) (rq : list Z)
  (req_length _slave : Z) (rsp : list Z) (w : world)
  (tab1 : list Z) (acc : list access) (w1 : world) :
  reply tab_reg nb_reg rq req_length _slave rsp w = Some (tab1, acc, w1) ->
  exists a,
    load rq 0 = Some a
    /\ if for_me a _slave then exists body, w1 = transmitted body w
       else w1 = w /\ tab1 = tab_reg /\ acc = [].
Proof.
  unfold reply. generalize register_fuel. intros fuel.
  unfold _MODBUS_RTU_SLAVE.
  destruct (load rq 0) as [a|]; [|discriminate]. cbn [mbind option_bind].
  destruct (load rq _MODBUS_RTU_FUNCTION) as [f|]; [|discriminate].
  cbn [mbind option_bind].
  destruct (load rq (_MODBUS_RTU_FUNCTION + 1)) as [a_hi|]; [|discriminate].
  cbn [mbind option_bind].
  destruct (load rq (_MODBUS_RTU_FUNCTION + 2)) as [a_lo|]; [|discriminate].
  cbn [mbind option_bind].
  destruct (load rq (_MODBUS_RTU_FUNCTION + 3)) as [n_hi|]; [|discriminate].
  cbn [mbind option_bind].
  destruct (load rq (_MODBUS_RTU_FUNCTION + 4)) as [n_lo|]; [|discriminate].
  cbn [mbind option_bind].
  intros H. exists a. split; [reflexivity|].
  unfold for_me. rewrite <- (negb_involutive (_ || _)), negb_orb.
  destruct (negb (a =? _slave) && negb (a =? MODBUS_BROADCAST_ADDRESS)).
  { by injection H as <- <- <-. }
  cbn [negb].
  destruct (_ >? nb_reg).
  { destruct (response_exception _ _ _ _) as [[rsp1 len]|]; [|discriminate].
    cbn [mbind option_bind] in H.
    destruct (send_msg _ _ _) as [[m w2]|] eqn:Hs; [|discriminate].
    cbn [mbind option_bind] in H. injection H as <- <- <-.
    apply send_msg_inv in Hs as [-> _]. by eexists. }
  destruct (f =? _FC_READ_HOLDING_REGISTERS).
  - destruct (build_response_basis _ _ _) as [[rsp1 len]|]; [|discriminate].
    cbn [mbind option_bind] in H.
    destruct (store _ _ _) as [rsp2|]; [|discriminate].
    cbn [mbind option_bind] in H.
    destruct (read_registers _ _ _ _ _ _ _) as [[[rsp3 len3] acc3]|];
      [|discriminate].
    cbn [mbind option_bind] in H.
    destruct (send_msg _ _ _) as [[m w2]|] eqn:Hs; [|discriminate].
    cbn [mbind option_bind] in H. injection H as <- <- <-.
    apply send_msg_inv in Hs as [-> _]. by eexists.
  - destruct (write_registers _ _ _ _ _ _ _) as [[t a1]|]; [|discriminate].
    cbn [mbind option_bind] in H.
    destruct (build_response_basis _ _ _) as [[rsp1 len]|]; [|discriminate].
    cbn [mbind option_bind] in H.
    destruct (memcpy_at _ _ _ _) as [rsp2|]; [|discriminate].
    cbn [mbind option_bind] in H.
    destruct (send_msg _ _ _) as [[m w2]|] eqn:Hs; [|discriminate].
    cbn [mbind option_bind] in H. injection H as <- <- <-.
    apply send_msg_inv in Hs as [-> _]. by eexists.
Qed.

End OutFacts.

Section CycleOut.

Variable crc16 : list Z -> Z.
Variable crc16_bytes : list Z -> Z * Z.
Variable MODBUS_INFORMATIVE_NOT_FOR_US : Z.
Variable MODBUS_INFORMATIVE_RX_TIMEOUT : Z.

Abbreviation receive :=
  (receive crc16 crc16_bytes MODBUS_INFORMATIVE_NOT_FOR_US
     MODBUS_INFORMATIVE_RX_TIMEOUT).
Abbreviation loop :=
  (loop crc16 crc16_bytes MODBUS_INFORMATIVE_NOT_FOR_US
     MODBUS_INFORMATIVE_RX_TIMEOUT).
Abbreviation reply := (reply crc16_bytes).
Abbreviation transmitted := (transmitted crc16_bytes).
Abbreviation receive_effect := (receive_effect crc16_bytes).

(** X8.  Whatever arrives on the line, [receive] returns, and its
    status is the timeout status, the not-for-this-station status, the
    illegal-function status -2, the generic error -1, or a frame length
    from 2 to 255; the request array keeps its 256 cells. *)
Theorem receive_status (req0 : list Z) (_slave : Z) (w : world) :
  length req0 = 256%nat ->
  exists rc rq w1,
    receive req0 _slave w = Some (rc, rq, w1)
    /\ length rq = 256%nat
    /\ (rc = -1 - MODBUS_INFORMATIVE_RX_TIMEOUT
        \/ rc = -1 - MODBUS_INFORMATIVE_NOT_FOR_US
        \/ rc = -1 - MODBUS_EXCEPTION_ILLEGAL_FUNCTION
        \/ rc = -1
        \/ 2 <= rc <= 255).
Proof.
  intros Hlen.
  destruct (receive_total crc16 crc16_bytes MODBUS_INFORMATIVE_NOT_FOR_US
              MODBUS_INFORMATIVE_RX_TIMEOUT req0 _slave w Hlen)
    as (rc & rq & w1 & H & Hl & Hrc & _).
  by exists rc, rq, w1.
Qed.

(** X9.  Whatever arrives on the line, [receive] leaves the
    driver-enable pin as it is and either sends nothing, or returns the
    illegal-function status and has sent exactly one frame, between the
    two toggles of the pin: the station identity, a function byte, and
    exception code 1 or 3, with the checksum. *)
Theorem receive_sends_only_exceptions (req0 : list Z) (_slave : Z) (w : world) :
  length req0 = 256%nat ->
  exists rc rq w1,
    receive req0 _slave w = Some (rc, rq, w1)
    /\ pin_DE w1 = pin_DE w
    /\ (out w1 = out w
        \/ (rc = -1 - MODBUS_EXCEPTION_ILLEGAL_FUNCTION
            /\ exists fn code,
                 (code = MODBUS_EXCEPTION_ILLEGAL_FUNCTION
                  \/ code = MODBUS_EXCEPTION_ILLEGAL_DATA_VALUE)
                 /\ out w1
                    = out w ++ [DigitalWrite (pin_DE w) 1;
                                SerialWrite
                                  (framed crc16_bytes
                                     [_slave; u8 (fn + 0x80); code]);
                                DigitalWrite (pin_DE w) 0])).
Proof.
  intros Hlen.
  destruct (receive_total crc16 crc16_bytes MODBUS_INFORMATIVE_NOT_FOR_US
              MODBUS_INFORMATIVE_RX_TIMEOUT req0 _slave w Hlen)
    as (rc & rq & w1 & H & _ & _ & Hpin & Heff).
  exists rc, rq, w1. split; [exact H|]. split; [exact Hpin|]. exact Heff.
Qed.

Lemma receive_out (req0 : list Z) (_slave : Z) (w w1 : world) (rc : Z)
  (rq : list Z) :
  receive req0 _slave w = Some (rc, rq, w1) -> receive_effect _slave w rc w1.
Proof.
  rewrite receive_unfold.
  destruct (receive_trace _ _ _ _ _ _) as [r|] eqn:Hr; [|discriminate].
  cbn [mbind option_bind].
  apply receive_trace_out in Hr.
  destruct r as [rc' rq' w' wl | st w' wl].
  - by intros [= <- <- <-].
  - destruct (check_integrity _ _ _) as [rc'|]; [|discriminate].
    cbn [mbind option_bind]. intros [= <- <- <-].
    destruct Hr. split; [done | by left].
Qed.

(** X10.  One cycle of [loop] sends at most one frame, and a frame
    sent stands between raising and lowering the driver-enable pin;
    nothing else goes out, and the pin number is left as it is. *)
Theorem loop_sends_at_most_one_frame
  (tab_reg : list Z) (nb_reg : Z) (_slave : Z) (req0 rsp : list Z)
  (w w1 : world) (rc : Z) (tab1 : list Z) (acc : list access) :
  loop tab_reg nb_reg _slave req0 rsp w = Some (rc, tab1, acc, w1) ->
  pin_DE w1 = pin_DE w
  /\ (out w1 = out w
      \/ exists bytes,
           out w1 = out w ++ [DigitalWrite (pin_DE w) 1; SerialWrite bytes;
                              DigitalWrite (pin_DE w) 0]).
Proof.
  unfold loop.
  destruct (Serial2_available w); [|intros [= <- <- <- <-]; by split; [|left]].
  destruct (receive req0 _slave w) as [[[rc' rq] w']|] eqn:Hrecv;
    [|discriminate].
  cbn [mbind option_bind].
  apply receive_out in Hrecv as [Hpin Hout].
  destruct (Z.gtb_spec rc' 0) as [Hpos|Hneg].
  - destruct (reply _ _ _ _ _ _ _) as [[[t a] w2]|] eqn:Hreply; [|discriminate].
    cbn [mbind option_bind]. intros [= <- <- <- <-].
    destruct Hout as [Hout | [Hrc _]];
      [|unfold MODBUS_EXCEPTION_ILLEGAL_FUNCTION in Hrc; lia].
    apply reply_out in Hreply as (a0 & _ & Hw).
    destruct (for_me a0 _slave).
    + destruct Hw as [body ->]. split; [exact Hpin|]. right.
      exists (framed crc16_bytes body).
      by rewrite out_transmitted, Hout, Hpin.
    + destruct Hw as (-> & _). split; [exact Hpin | by left].
  - intros [= <- <- <- <-]. split; [exact Hpin|].
    destruct Hout as [Hout | [_ (fn & code & _ & Hout)]]; [by left|].
    right. by eexists.
Qed.

(** X11.  The status of a cycle of [loop]: 0 exactly when no byte was
    waiting, and then nothing at all has happened; otherwise -1, the
    illegal-function status -2, one of the two informative statuses, or
    a frame length from 2 to 255.  No status is built from the
    Illegal-Data-Address or the Illegal-Data-Value code: [-1 - 2] and
    [-1 - 3] are never returned.  With a status that is not positive
    the register table is untouched. *)
Theorem loop_status
  (tab_reg : list Z) (nb_reg : Z) (_slave : Z) (req0 rsp : list Z)
  (w w1 : world) (rc : Z) (tab1 : list Z) (acc : list access) :
  length req0 = 256%nat ->
  informative_codes MODBUS_INFORMATIVE_NOT_FOR_US
    MODBUS_INFORMATIVE_RX_TIMEOUT ->
  loop tab_reg nb_reg _slave req0 rsp w = Some (rc, tab1, acc, w1) ->
  (rc = 0 <-> Serial2_available w = false)
  /\ (rc = 0 -> w1 = w)
  /\ (rc <= 0 -> tab1 = tab_reg /\ acc = [])
  /\ (rc = 0
      \/ rc = -1
      \/ rc = -1 - MODBUS_EXCEPTION_ILLEGAL_FUNCTION
      \/ rc = -1 - MODBUS_INFORMATIVE_NOT_FOR_US
      \/ rc = -1 - MODBUS_INFORMATIVE_RX_TIMEOUT
      \/ 2 <= rc <= 255)
  /\ rc <> -1 - MODBUS_EXCEPTION_ILLEGAL_DATA_ADDRESS
  /\ rc <> -1 - MODBUS_EXCEPTION_ILLEGAL_DATA_VALUE.
Proof.
  intros Hlen (Hnfu & Hto & _).
  unfold MODBUS_EXCEPTION_ILLEGAL_DATA_VALUE in Hnfu, Hto.
  unfold loop.
  destruct (Serial2_available w) eqn:Hav.
  2: { intros [= <- <- <- <-].
       unfold MODBUS_EXCEPTION_ILLEGAL_DATA_ADDRESS,
         MODBUS_EXCEPTION_ILLEGAL_DATA_VALUE.
       repeat split; first [done | lia | by left]. }
  destruct (receive_total crc16 crc16_bytes MODBUS_INFORMATIVE_NOT_FOR_US
              MODBUS_INFORMATIVE_RX_TIMEOUT req0 _slave w Hlen)
    as (rc' & rq & w' & -> & _ & Hrc & _).
  cbn [mbind option_bind].
  assert (Hkinds :
    rc' <> 0
    /\ (rc' = 0 \/ rc' = -1
        \/ rc' = -1 - MODBUS_EXCEPTION_ILLEGAL_FUNCTION
        \/ rc' = -1 - MODBUS_INFORMATIVE_NOT_FOR_US
        \/ rc' = -1 - MODBUS_INFORMATIVE_RX_TIMEOUT
        \/ 2 <= rc' <= 255)
    /\ rc' <> -1 - MODBUS_EXCEPTION_ILLEGAL_DATA_ADDRESS
    /\ rc' <> -1 - MODBUS_EXCEPTION_ILLEGAL_DATA_VALUE).
  { unfold MODBUS_EXCEPTION_ILLEGAL_FUNCTION,
      MODBUS_EXCEPTION_ILLEGAL_DATA_ADDRESS,
      MODBUS_EXCEPTION_ILLEGAL_DATA_VALUE in *.
    clear - Hrc Hnfu Hto. lia. }
  destruct Hkinds as (Hne & Hk & Hn3 & Hn4).
  destruct (Z.gtb_spec rc' 0) as [Hpos|Hneg].
  - destruct (reply _ _ _ _ _ _ _) as [[[t a] w2]|]; [|discriminate].
    cbn [mbind option_bind]. intros [= <- <- <- <-].
    split; [split; [done | discriminate]|].
    split; [done|]. split; [intros; exfalso; clear - Hpos H; lia|]. done.
  - intros [= <- <- <- <-].
    split; [split; [done | discriminate]|].
    split; [done|]. split; [done|]. done.
Qed.

End CycleOut.

(** ** Whole frames on the line *)

Lemma stored_length (got req0 : list Z) :
  (length got <= length req0)%nat -> length (stored got req0) = length req0.
Proof.
  intros H. unfold stored. rewrite length_app, length_fmap, length_drop. lia.
Qed.

Lemma stored_snoc (got req0 : list Z) (b : Z) :
  (length got < length req0)%nat ->
  <[length got := u8 b]> (stored got req0) = stored (got ++ [b]) req0.
Proof.
  intros H. unfold stored.
  rewrite insert_app_r_alt by (rewrite length_fmap; lia).
  rewrite length_fmap, Nat.sub_diag, fmap_app, length_app, <- app_assoc.
  destruct (lookup_lt_is_Some_2 req0 (length got) H) as [y Hy].
  rewrite (drop_S _ _ _ Hy). simpl. by rewrite Nat.add_1_r.
Qed.

Lemma stored_take (got req0 : list Z) :
  take (length got) (stored got req0) = u8 <$> got.
Proof.
  unfold stored. rewrite take_app_length'; [done | by rewrite length_fmap].
Qed.

Lemma stored_load (got req0 : list Z) (i : nat) (b : Z) :
  got !! i = Some b -> load (stored got req0) (Z.of_nat i) = Some (u8 b).
Proof.
  intros H. rewrite load_nat. unfold stored.
  apply lookup_app_l_Some. by rewrite list_lookup_fmap, H.
Qed.

Section Frames.

Variable crc16 : list Z -> Z.
Variable crc16_bytes : list Z -> Z * Z.
Variable MODBUS_INFORMATIVE_NOT_FOR_US : Z.
Variable MODBUS_INFORMATIVE_RX_TIMEOUT : Z.

Abbreviation end_of_step :=
  (end_of_step crc16_bytes MODBUS_INFORMATIVE_NOT_FOR_US).
Abbreviation receive_loop :=
  (receive_loop crc16_bytes MODBUS_INFORMATIVE_NOT_FOR_US
     MODBUS_INFORMATIVE_RX_TIMEOUT).
Abbreviation receive_trace :=
  (receive_trace crc16_bytes MODBUS_INFORMATIVE_NOT_FOR_US
     MODBUS_INFORMATIVE_RX_TIMEOUT).
Abbreviation receive :=
  (receive crc16 crc16_bytes MODBUS_INFORMATIVE_NOT_FOR_US
     MODBUS_INFORMATIVE_RX_TIMEOUT).

(** The bytes [bs] wait on the line and do not end the current step:
    they are stored one after the other. *)
Lemma receive_loop_feed (_slave : Z) (req0 : list Z) (stp : step_t) (fn : Z)
  (rest : list Z) (bs : list Z) :
  forall (fuel : nat) (ltr : Z) (got : list Z) (w : world) (wl : list Z),
    length req0 = 256%nat ->
    rx w = bs ++ rest ->
    Z.of_nat (length bs) < ltr < 256 ->
    (length got + length bs <= 255)%nat ->
    receive_loop (length bs + fuel) _slave
      (RState ltr (Z.of_nat (length got)) stp fn (stored got req0)) w wl
    = receive_loop fuel _slave
        (RState (ltr - Z.of_nat (length bs))
                (Z.of_nat (length (got ++ bs))) stp fn
                (stored (got ++ bs) req0))
        (set_rx rest w)
        (wl ++ seqZ (Z.of_nat (length got)) (Z.of_nat (length bs))).
Proof.
  induction bs as [|b bs IH]; intros fuel ltr got w wl Hlen Hrx Hltr Hfit.
  - simpl in *. rewrite !app_nil_r, Z.sub_0_r.
    destruct w as [r a o p]. simpl in Hrx. subst r. reflexivity.
  - cbn [length] in *. cbn [Nat.add].
    rewrite (receive_loop_round crc16_bytes MODBUS_INFORMATIVE_NOT_FOR_US
               MODBUS_INFORMATIVE_RX_TIMEOUT _ _ _ w
               (set_rx (bs ++ rest) w) wl b);
      cbn [req req_index length_to_read step function].
    2: { by apply next_byte_waiting. }
    2: { lia. }
    2: { lia. }
    2: { rewrite stored_length; lia. }
    rewrite Nat2Z.id, stored_snoc by lia.
    replace (Z.of_nat (length got) + 1) with (Z.of_nat (length (got ++ [b])))
      by (rewrite length_app; simpl; lia).
    rewrite IH; try done.
    + rewrite <- !app_assoc. cbn [app].
      replace (ltr - 1 - Z.of_nat (length bs))
        with (ltr - Z.of_nat (S (length bs))) by lia.
      f_equal.
      rewrite (seqZ_cons (Z.of_nat (length got)) (Z.of_nat (S (length bs))))
        by lia.
      rewrite length_app. cbn [length].
      do 3 f_equal; lia.
    + lia.
    + rewrite length_app. simpl. lia.
Qed.

(** The byte [b] waits on the line and ends the current step. *)
Lemma receive_loop_feed_last (_slave : Z) (req0 : list Z) (stp : step_t)
  (fn : Z) (fuel : nat) (got : list Z) (w : world) (wl : list Z)
  (b : Z) (r : list Z) :
  length req0 = 256%nat ->
  rx w = b :: r ->
  (length got < 255)%nat ->
  receive_loop (S fuel) _slave
    (RState 1 (Z.of_nat (length got)) stp fn (stored got req0)) w wl
  = c ← end_of_step _slave
          (RState 0 (Z.of_nat (length (got ++ [b]))) stp fn
                  (stored (got ++ [b]) req0))
          (set_rx r w);
    match c with
    | Continue st2 w2 =>
        receive_loop fuel _slave st2 w2 (wl ++ [Z.of_nat (length got)])
    | Return rc rq1 w2 =>
        Some (Returned rc rq1 w2 (wl ++ [Z.of_nat (length got)]))
    end.
Proof.
  intros Hlen Hrx Hfit.
  rewrite (receive_loop_last_round crc16_bytes MODBUS_INFORMATIVE_NOT_FOR_US
             MODBUS_INFORMATIVE_RX_TIMEOUT _ _ _ w (set_rx r w) wl b);
    cbn [req req_index length_to_read step function].
  2: { by apply next_byte_waiting. }
  2: { reflexivity. }
  2: { lia. }
  2: { rewrite stored_length; lia. }
  rewrite Nat2Z.id, stored_snoc by lia.
  replace (Z.of_nat (length got) + 1) with (Z.of_nat (length (got ++ [b])))
    by (rewrite length_app; simpl; lia).
  reflexivity.
Qed.

(** The integrity check on a frame stored in full. *)
Lemma check_integrity_stored (got req0 : list Z) :
  (2 <= length got <= length req0)%nat ->
  check_integrity crc16 (stored got req0) (Z.of_nat (length got))
  = Some (if crc16 (u8 <$> got) =? 0 then Z.of_nat (length got) else -1).
Proof.
  intros H. unfold check_integrity.
  destruct (Z.leb_spec 2 (Z.of_nat (length got))); [|lia].
  unfold load_range. rewrite stored_length by lia.
  destruct (Z.leb_spec 0 (Z.of_nat (length got))); [|lia].
  destruct (Z.leb_spec (Z.of_nat (length got)) (Z.of_nat (length req0))); [|lia].
  cbn [andb mbind option_bind]. rewrite Nat2Z.id, stored_take.
  by destruct (crc16 (u8 <$> got) =? 0).
Qed.

Lemma receive_loop_done (fuel : nat) (_slave : Z) (st : rstate) (w : world)
  (wl : list Z) :
  length_to_read st = 0 ->
  receive_loop fuel _slave st w wl = Some (Completed st w wl).
Proof. intros H. destruct fuel; cbn [receive_loop]; by rewrite H. Qed.

End Frames.

Section Frames2.

Variable crc16 : list Z -> Z.
Variable crc16_bytes : list Z -> Z * Z.
Variable MODBUS_INFORMATIVE_NOT_FOR_US : Z.
Variable MODBUS_INFORMATIVE_RX_TIMEOUT : Z.

Abbreviation end_of_step :=
  (end_of_step crc16_bytes MODBUS_INFORMATIVE_NOT_FOR_US).
Abbreviation receive_loop :=
  (receive_loop crc16_bytes MODBUS_INFORMATIVE_NOT_FOR_US
     MODBUS_INFORMATIVE_RX_TIMEOUT).
Abbreviation receive_trace :=
  (receive_trace crc16_bytes MODBUS_INFORMATIVE_NOT_FOR_US
     MODBUS_INFORMATIVE_RX_TIMEOUT).
Abbreviation receive :=
  (receive crc16 crc16_bytes MODBUS_INFORMATIVE_NOT_FOR_US
     MODBUS_INFORMATIVE_RX_TIMEOUT).

(** A whole step: the bytes [bs] and then [b], which ends it. *)
Lemma receive_loop_phase (_slave : Z) (req0 : list Z) (stp : step_t) (fn : Z)
  (fuel : nat) (got bs : list Z) (b : Z) (r : list Z) (w : world)
  (wl : list Z) :
  length req0 = 256%nat ->
  rx w = bs ++ b :: r ->
  (length got + length bs < 255)%nat ->
  exists wl',
    receive_loop (length bs + S fuel) _slave
      (RState (Z.of_nat (length bs) + 1) (Z.of_nat (length got)) stp fn
              (stored got req0)) w wl
    = c ← end_of_step _slave
            (RState 0 (Z.of_nat (length (got ++ bs ++ [b]))) stp fn
                    (stored (got ++ bs ++ [b]) req0))
            (set_rx r w);
      match c with
      | Continue st2 w2 => receive_loop fuel _slave st2 w2 wl'
      | Return rc rq1 w2 => Some (Returned rc rq1 w2 wl')
      end.
Proof.
  intros Hlen Hrx Hfit. eexists.
  rewrite (receive_loop_feed crc16_bytes MODBUS_INFORMATIVE_NOT_FOR_US
             MODBUS_INFORMATIVE_RX_TIMEOUT _slave req0 stp fn (b :: r) bs
             (S fuel) _ got w wl Hlen Hrx); [|lia|lia].
  replace (Z.of_nat (length bs) + 1 - Z.of_nat (length bs)) with 1 by lia.
  rewrite (receive_loop_feed_last crc16_bytes MODBUS_INFORMATIVE_NOT_FOR_US
             MODBUS_INFORMATIVE_RX_TIMEOUT _slave req0 stp fn fuel (got ++ bs)
             (set_rx (b :: r) w) _ b r Hlen eq_refl);
    [|rewrite length_app; lia].
  rewrite <- !app_assoc. reflexivity.
Qed.

Lemma receive_loop_fuel_split (k fuel : nat) :
  (k < fuel)%nat -> exists fuel', fuel = (k + S fuel')%nat.
Proof. intros H. exists (fuel - S k)%nat. lia. Qed.

(** A read request on the line: eight bytes are taken. *)
Lemma receive_loop_read_frame (_slave : Z) (req0 : list Z) (w : world)
  (a b2 b3 b4 b5 c1 c2 : Z) (rest : list Z) (fuel : nat) :
  let bytes := [a; _FC_READ_HOLDING_REGISTERS; b2; b3; b4; b5; c1; c2] in
  length req0 = 256%nat ->
  rx w = bytes ++ rest ->
  for_me (u8 a) _slave = true ->
  (8 <= fuel)%nat ->
  exists wl,
    receive_loop fuel _slave (receive_init req0) w []
    = Some (Completed (RState 0 8 _STEP_DATA _FC_READ_HOLDING_REGISTERS
                              (stored bytes req0))
              (set_rx rest w) wl).
Proof.
  intros bytes Hlen Hrx Hme Hfuel.
  destruct (receive_loop_fuel_split 7 fuel) as [f0 ->]; [lia|].
  (* address and function code *)
  destruct (receive_loop_phase _slave req0 _STEP_FUNCTION 0 (6 + f0) [] [a]
              _FC_READ_HOLDING_REGISTERS
              ([b2; b3; b4; b5; c1; c2] ++ rest) w [] Hlen Hrx)
    as [wl1 H1]; [simpl; lia|].
  change (receive_init req0)
    with (RState (Z.of_nat (length [a]) + 1) (Z.of_nat (length (@nil Z)))
            _STEP_FUNCTION 0 (stored [] req0)).
  change (7 + S f0)%nat with (length [a] + S (6 + f0))%nat.
  rewrite H1. clear H1.
  pose proof (end_of_step_function crc16_bytes MODBUS_INFORMATIVE_NOT_FOR_US
                _slave
                (RState 0 2 _STEP_FUNCTION 0
                   (stored [a; _FC_READ_HOLDING_REGISTERS] req0))
                (set_rx ([b2; b3; b4; b5; c1; c2] ++ rest) w)
                (u8 a) _FC_READ_HOLDING_REGISTERS eq_refl) as Hes.
  cbn [req req_index] in Hes.
  rewrite stored_length in Hes by (simpl; lia).
  specialize (Hes Hlen eq_refl eq_refl Hme).
  change (_FC_READ_HOLDING_REGISTERS =? _FC_READ_HOLDING_REGISTERS)
    with true in Hes. cbn iota in Hes.
  change (Z.of_nat (length ([] ++ [a] ++ [_FC_READ_HOLDING_REGISTERS])))
    with 2.
  change ([] ++ [a] ++ [_FC_READ_HOLDING_REGISTERS])
    with [a; _FC_READ_HOLDING_REGISTERS].
  rewrite Hes. clear Hes. cbn [mbind option_bind].
  (* start address and count *)
  destruct (receive_loop_phase _slave req0 _STEP_META
              _FC_READ_HOLDING_REGISTERS (2 + f0)
              [a; _FC_READ_HOLDING_REGISTERS] [b2; b3; b4] b5
              ([c1; c2] ++ rest)
              (set_rx ([b2; b3; b4; b5; c1; c2] ++ rest) w) wl1 Hlen eq_refl)
    as [wl2 H2]; [simpl; lia|].
  change (RState 4 2 _STEP_META _FC_READ_HOLDING_REGISTERS
            (stored [a; _FC_READ_HOLDING_REGISTERS] req0))
    with (RState (Z.of_nat (length [b2; b3; b4]) + 1)
            (Z.of_nat (length [a; _FC_READ_HOLDING_REGISTERS])) _STEP_META
            _FC_READ_HOLDING_REGISTERS
            (stored [a; _FC_READ_HOLDING_REGISTERS] req0)).
  change (6 + f0)%nat with (length [b2; b3; b4] + S (2 + f0))%nat.
  rewrite H2. clear H2.
  cbn [app length].
  destruct (end_of_step_meta crc16_bytes MODBUS_INFORMATIVE_NOT_FOR_US _slave
              (RState 0 6 _STEP_META _FC_READ_HOLDING_REGISTERS
                 (stored [a; _FC_READ_HOLDING_REGISTERS; b2; b3; b4; b5] req0))
              (set_rx (c1 :: c2 :: rest)
                 (set_rx (b2 :: b3 :: b4 :: b5 :: c1 :: c2 :: rest) w))
              (u8 a) eq_refl) as (len & Hlenspec & Hes).
  { cbn [req]. rewrite stored_length; simpl; lia. }
  { reflexivity. }
  { exact Hme. }
  cbn [req req_index function] in Hlenspec, Hes.
  change (_FC_READ_HOLDING_REGISTERS =? _FC_WRITE_MULTIPLE_REGISTERS)
    with false in Hlenspec. cbn iota in Hlenspec. subst len.
  change (6 + 2 >? _MODBUSINO_RTU_MAX_ADU_LENGTH) with false in Hes.
  cbn iota in Hes.
  change (Z.of_nat 6) with 6. rewrite Hes. clear Hes.
  cbn [mbind option_bind].
  (* checksum *)
  destruct (receive_loop_phase _slave req0 _STEP_DATA
              _FC_READ_HOLDING_REGISTERS f0
              [a; _FC_READ_HOLDING_REGISTERS; b2; b3; b4; b5] [c1] c2 rest
              (set_rx (c1 :: c2 :: rest)
                 (set_rx (b2 :: b3 :: b4 :: b5 :: c1 :: c2 :: rest) w))
              wl2 Hlen eq_refl)
    as [wl3 H3]; [simpl; lia|].
  change (RState 2 6 _STEP_DATA _FC_READ_HOLDING_REGISTERS
            (stored [a; _FC_READ_HOLDING_REGISTERS; b2; b3; b4; b5] req0))
    with (RState (Z.of_nat (length [c1]) + 1)
            (Z.of_nat (length [a; _FC_READ_HOLDING_REGISTERS; b2; b3; b4; b5]))
            _STEP_DATA _FC_READ_HOLDING_REGISTERS
            (stored [a; _FC_READ_HOLDING_REGISTERS; b2; b3; b4; b5] req0)).
  change (2 + f0)%nat with (length [c1] + S f0)%nat.
  rewrite H3. clear H3.
  cbn [app length].
  erewrite end_of_step_data; [|reflexivity|reflexivity|exact Hme].
  cbn [mbind option_bind].
  rewrite receive_loop_done by reflexivity.
  exists wl3. reflexivity.
Qed.

End Frames2.

Section Frames3.

Variable crc16 : list Z -> Z.
Variable crc16_bytes : list Z -> Z * Z.
Variable MODBUS_INFORMATIVE_NOT_FOR_US : Z.
Variable MODBUS_INFORMATIVE_RX_TIMEOUT : Z.

Abbreviation end_of_step :=
  (end_of_step crc16_bytes MODBUS_INFORMATIVE_NOT_FOR_US).
Abbreviation receive_loop :=
  (receive_loop crc16_bytes MODBUS_INFORMATIVE_NOT_FOR_US
     MODBUS_INFORMATIVE_RX_TIMEOUT).
Abbreviation receive_trace :=
  (receive_trace crc16_bytes MODBUS_INFORMATIVE_NOT_FOR_US
     MODBUS_INFORMATIVE_RX_TIMEOUT).
Abbreviation receive :=
  (receive crc16 crc16_bytes MODBUS_INFORMATIVE_NOT_FOR_US
     MODBUS_INFORMATIVE_RX_TIMEOUT).

(** X12.  A read request (function 0x03) for this station waiting on
    the line: [receive] takes exactly its 8 bytes, stores them at the
    start of the request array and leaves the bytes behind them on the
    line; the status is 8 when the checksum over the 8 bytes is 0, and
    -1 otherwise. *)
Theorem receive_read_request (_slave : Z) (req0 : list Z) (w : world)
  (a b2 b3 b4 b5 c1 c2 : Z) (rest : list Z) :
  let bytes := [a; _FC_READ_HOLDING_REGISTERS; b2; b3; b4; b5; c1; c2] in
  length req0 = 256%nat ->
  rx w = bytes ++ rest ->
  for_me (u8 a) _slave = true ->
  receive req0 _slave w
  = Some (if crc16 (u8 <$> bytes) =? 0 then 8 else -1,
          (u8 <$> bytes) ++ drop 8 req0, set_rx rest w).
Proof.
  intros bytes Hlen Hrx Hme.
  destruct (receive_loop_read_frame crc16_bytes MODBUS_INFORMATIVE_NOT_FOR_US
              MODBUS_INFORMATIVE_RX_TIMEOUT _slave req0 w a b2 b3 b4 b5 c1 c2
              rest receive_fuel Hlen Hrx Hme) as [wl Hloop].
  { unfold receive_fuel. lia. }
  rewrite receive_unfold. unfold receive_trace. rewrite Hloop.
  cbn [mbind option_bind req req_index].
  change 8 with (Z.of_nat (length bytes)) at 1.
  rewrite check_integrity_stored by (rewrite Hlen; simpl; lia).
  reflexivity.
Qed.

(** A write request on the line: the byte count read at offset 6 tells
    how many more bytes are taken. *)
Lemma receive_loop_write_frame (_slave : Z) (req0 : list Z) (w : world)
  (a b2 b3 b4 b5 c1 c2 : Z) (body rest : list Z) (fuel : nat) :
  let n := Z.of_nat (length body) in
  let bytes :=
    [a; _FC_WRITE_MULTIPLE_REGISTERS; b2; b3; b4; b5; n] ++ body ++ [c1; c2] in
  length req0 = 256%nat ->
  rx w = bytes ++ rest ->
  for_me (u8 a) _slave = true ->
  n <= 246 ->
  (length bytes <= fuel)%nat ->
  exists wl,
    receive_loop fuel _slave (receive_init req0) w []
    = Some (Completed (RState 0 (9 + n) _STEP_DATA _FC_WRITE_MULTIPLE_REGISTERS
                              (stored bytes req0))
              (set_rx rest w) wl).
Proof.
  intros n bytes Hlen Hrx Hme Hn Hfuel.
  assert (Hbytes : length bytes = (9 + length body)%nat).
  { unfold bytes. cbn [app length]. rewrite length_app. simpl. lia. }
  destruct (receive_loop_fuel_split 1 fuel) as [f1 ->]; [lia|].
  destruct (receive_loop_fuel_split 4 f1) as [f2 ->]; [lia|].
  destruct (receive_loop_fuel_split (length (body ++ [c1])) f2) as [f3 ->].
  { rewrite length_app. simpl. lia. }
  clear Hfuel.
  (* address and function code *)
  destruct (receive_loop_phase crc16_bytes MODBUS_INFORMATIVE_NOT_FOR_US
              MODBUS_INFORMATIVE_RX_TIMEOUT _slave req0 _STEP_FUNCTION 0
              (4 + S (length (body ++ [c1]) + S f3)) [] [a]
              _FC_WRITE_MULTIPLE_REGISTERS
              ([b2; b3; b4; b5; n] ++ body ++ [c1; c2] ++ rest) w [] Hlen)
    as [wl1 H1].
  { rewrite Hrx. unfold bytes. by rewrite <- !app_assoc. }
  { simpl; lia. }
  change (receive_init req0)
    with (RState (Z.of_nat (length [a]) + 1) (Z.of_nat (length (@nil Z)))
            _STEP_FUNCTION 0 (stored [] req0)).
  change (1 + S (4 + S (length (body ++ [c1]) + S f3)))%nat
    with (length [a] + S (4 + S (length (body ++ [c1]) + S f3)))%nat.
  rewrite H1. clear H1.
  pose proof (end_of_step_function crc16_bytes MODBUS_INFORMATIVE_NOT_FOR_US
                _slave
                (RState 0 2 _STEP_FUNCTION 0
                   (stored [a; _FC_WRITE_MULTIPLE_REGISTERS] req0))
                (set_rx ([b2; b3; b4; b5; n] ++ body ++ [c1; c2] ++ rest) w)
                (u8 a) _FC_WRITE_MULTIPLE_REGISTERS eq_refl) as Hes.
  cbn [req req_index] in Hes.
  rewrite stored_length in Hes by (simpl; lia).
  specialize (Hes Hlen eq_refl eq_refl Hme).
  change (_FC_WRITE_MULTIPLE_REGISTERS =? _FC_READ_HOLDING_REGISTERS)
    with false in Hes.
  change (_FC_WRITE_MULTIPLE_REGISTERS =? _FC_WRITE_MULTIPLE_REGISTERS)
    with true in Hes.
  cbn iota in Hes.
  change (Z.of_nat (length ([] ++ [a] ++ [_FC_WRITE_MULTIPLE_REGISTERS])))
    with 2.
  change ([] ++ [a] ++ [_FC_WRITE_MULTIPLE_REGISTERS])
    with [a; _FC_WRITE_MULTIPLE_REGISTERS].
  rewrite Hes. clear Hes. cbn [mbind option_bind].
  (* start address, count and byte count *)
  destruct (receive_loop_phase crc16_bytes MODBUS_INFORMATIVE_NOT_FOR_US
              MODBUS_INFORMATIVE_RX_TIMEOUT _slave req0 _STEP_META
              _FC_WRITE_MULTIPLE_REGISTERS (length (body ++ [c1]) + S f3)
              [a; _FC_WRITE_MULTIPLE_REGISTERS] [b2; b3; b4; b5] n
              (body ++ [c1; c2] ++ rest)
              (set_rx ([b2; b3; b4; b5; n] ++ body ++ [c1; c2] ++ rest) w)
              wl1 Hlen eq_refl)
    as [wl2 H2]; [simpl; lia|].
  change (RState 5 2 _STEP_META _FC_WRITE_MULTIPLE_REGISTERS
            (stored [a; _FC_WRITE_MULTIPLE_REGISTERS] req0))
    with (RState (Z.of_nat (length [b2; b3; b4; b5]) + 1)
            (Z.of_nat (length [a; _FC_WRITE_MULTIPLE_REGISTERS])) _STEP_META
            _FC_WRITE_MULTIPLE_REGISTERS
            (stored [a; _FC_WRITE_MULTIPLE_REGISTERS] req0)).
  change (4 + S (length (body ++ [c1]) + S f3))%nat
    with (length [b2; b3; b4; b5] + S (length (body ++ [c1]) + S f3))%nat.
  rewrite H2. clear H2.
  cbn [app length].
  set (hdr := [a; _FC_WRITE_MULTIPLE_REGISTERS; b2; b3; b4; b5; n]).
  set (w7 := set_rx (body ++ c1 :: c2 :: rest) _).
  destruct (end_of_step_meta crc16_bytes MODBUS_INFORMATIVE_NOT_FOR_US _slave
              (RState 0 7 _STEP_META _FC_WRITE_MULTIPLE_REGISTERS
                 (stored hdr req0)) w7 (u8 a) eq_refl)
    as (len & Hlenspec & Hes).
  { cbn [req]. rewrite stored_length; simpl; lia. }
  { reflexivity. }
  { exact Hme. }
  cbn [req req_index function] in Hlenspec, Hes.
  change (_FC_WRITE_MULTIPLE_REGISTERS =? _FC_WRITE_MULTIPLE_REGISTERS)
    with true in Hlenspec. cbn iota in Hlenspec.
  destruct Hlenspec as (n' & Hn' & ->).
  assert (n' = u8 n) as ->.
  { change (load (stored hdr req0) 6) with (Some (u8 n)) in Hn'. congruence. }
  rewrite (u8_small n), (u8_small (2 + n)) in Hes by lia.
  destruct (Z.gtb_spec (7 + (2 + n)) _MODBUSINO_RTU_MAX_ADU_LENGTH) as [Hbig|_];
    [unfold _MODBUSINO_RTU_MAX_ADU_LENGTH in Hbig; lia|].
  change (Z.of_nat 7) with 7. rewrite Hes. clear Hes.
  cbn [mbind option_bind].
  (* register values and checksum *)
  destruct (receive_loop_phase crc16_bytes MODBUS_INFORMATIVE_NOT_FOR_US
              MODBUS_INFORMATIVE_RX_TIMEOUT _slave req0 _STEP_DATA
              _FC_WRITE_MULTIPLE_REGISTERS f3 hdr (body ++ [c1]) c2 rest
              w7 wl2 Hlen)
    as [wl3 H3].
  { unfold w7. cbn [rx set_rx]. by rewrite <- app_assoc. }
  { rewrite length_app. simpl. lia. }
  replace (2 + n) with (Z.of_nat (length (body ++ [c1])) + 1)
    by (rewrite length_app; simpl; lia).
  change 7 with (Z.of_nat (length hdr)).
  rewrite H3. clear H3.
  erewrite end_of_step_data; [|reflexivity|reflexivity|exact Hme].
  cbn [mbind option_bind].
  rewrite receive_loop_done by reflexivity.
  exists wl3.
  replace (hdr ++ (body ++ [c1]) ++ [c2]) with bytes
    by (unfold bytes, hdr; by rewrite <- !app_assoc).
  replace (Z.of_nat (length bytes)) with (9 + n) by (unfold n; lia).
  reflexivity.
Qed.

(** X13.  A write request (function 0x10) for this station waiting on
    the line, whose byte-count field [n] is at most 246 and which is
    followed by [n] bytes and 2 checksum bytes: [receive] takes exactly
    these [9 + n] bytes, stores them at the start of the request array
    and leaves the bytes behind them on the line; the status is [9 + n]
    when the checksum over them is 0, and -1 otherwise. *)
Theorem receive_write_request (_slave : Z) (req0 : list Z) (w : world)
  (a b2 b3 b4 b5 c1 c2 : Z) (body rest : list Z) :
  let n := Z.of_nat (length body) in
  let bytes :=
    [a; _FC_WRITE_MULTIPLE_REGISTERS; b2; b3; b4; b5; n] ++ body ++ [c1; c2] in
  length req0 = 256%nat ->
  rx w = bytes ++ rest ->
  for_me (u8 a) _slave = true ->
  n <= 246 ->
  receive req0 _slave w
  = Some (if crc16 (u8 <$> bytes) =? 0 then 9 + n else -1,
          (u8 <$> bytes) ++ drop (length bytes) req0, set_rx rest w).
Proof.
  intros n bytes Hlen Hrx Hme Hn.
  assert (Hbytes : length bytes = (9 + length body)%nat).
  { unfold bytes. cbn [app length]. rewrite length_app. simpl. lia. }
  destruct (receive_loop_write_frame _slave req0 w a b2 b3 b4 b5 c1 c2
              body rest receive_fuel Hlen Hrx Hme Hn) as [wl Hloop].
  { change (length bytes <= receive_fuel)%nat.
    rewrite Hbytes. unfold receive_fuel. lia. }
  rewrite receive_unfold. unfold receive_trace. rewrite Hloop.
  cbn [mbind option_bind req req_index]. fold n. fold bytes.
  replace (9 + n) with (Z.of_nat (length bytes)) by (rewrite Hbytes; lia).
  rewrite check_integrity_stored by (rewrite Hlen, Hbytes; lia).
  reflexivity.
Qed.

End Frames3.

(** ** The accesses to the register table *)

Lemma read_registers_log (fuel : nat) :
  forall (i lim : Z) (tab_reg rsp : list Z) (rsp_length : Z)
         (acc : list access) (rsp' : list Z) (rsp_length' : Z)
         (acc' : list access),
    read_registers fuel i lim tab_reg rsp rsp_length acc
    = Some (rsp', rsp_length', acc') ->
    0 <= i <= lim -> lim <= 65535 ->
    acc' = acc ++ (TabRead <$> seqZ i (lim - i)).
Proof.
  induction fuel as [|fuel IH];
    intros i lim tab_reg rsp rsp_length acc rsp' rsp_length' acc';
    cbn [read_registers]; destruct (Z.ltb_spec i lim) as [Hlt|Hge].
  - discriminate.
  - intros [= _ _ <-] Hi _. assert (E : lim - i = 0) by lia. rewrite E.
    by rewrite app_nil_r.
  - destruct (load tab_reg i) as [v|]; [|discriminate]. cbn [mbind option_bind].
    destruct (store rsp rsp_length _) as [rsp1|]; [|discriminate].
    cbn [mbind option_bind].
    destruct (store rsp1 _ _) as [rsp2|]; [|discriminate].
    cbn [mbind option_bind].
    intros H Hi Hlim. rewrite (u16_small (i + 1)) in H by lia.
    apply IH in H; [|lia|lia]. rewrite H, <- app_assoc.
    f_equal. rewrite (seqZ_cons i (lim - i)) by lia.
    rewrite fmap_cons. cbn [app]. do 3 f_equal; lia.
  - intros [= _ _ <-] Hi _. assert (E : lim - i = 0) by lia. rewrite E.
    by rewrite app_nil_r.
Qed.

Lemma write_registers_log (fuel : nat) :
  forall (i j lim : Z) (rq tab_reg : list Z) (acc : list access)
         (tab1 : list Z) (acc' : list access),
    write_registers fuel i j lim rq tab_reg acc = Some (tab1, acc') ->
    0 <= i <= lim -> lim <= 65535 ->
    length tab1 = length tab_reg
    /\ access_index <$> acc' = (access_index <$> acc) ++ seqZ i (lim - i)
    /\ (forall x, 0 <= x -> ~ (i <= x < lim) -> load tab1 x = load tab_reg x).
Proof.
  induction fuel as [|fuel IH]; intros i j lim rq tab_reg acc tab1 acc';
    cbn [write_registers]; destruct (Z.ltb_spec i lim) as [Hlt|Hge].
  - discriminate.
  - intros [= <- <-] Hi _. assert (E : lim - i = 0) by lia. rewrite E.
    by rewrite app_nil_r.
  - destruct (load rq (_MODBUS_RTU_FUNCTION + j)) as [hi|]; [|discriminate].
    cbn [mbind option_bind].
    destruct (load rq (_MODBUS_RTU_FUNCTION + j + 1)) as [lo|]; [|discriminate].
    cbn [mbind option_bind].
    destruct (store tab_reg i (word hi lo)) as [tab2|] eqn:Hst; [|discriminate].
    cbn [mbind option_bind].
    intros H Hi Hlim. rewrite (u16_small (i + 1)) in H by lia.
    apply IH in H as (Hlen & Hord & Hout); [|lia|lia].
    split; [rewrite Hlen; by apply store_length in Hst|]. split.
    + rewrite Hord, fmap_app, <- app_assoc. f_equal.
      rewrite (seqZ_cons i (lim - i)) by lia.
      cbn [fmap list_fmap access_index app]. do 2 f_equal; lia.
    + intros x Hx Hnot. rewrite Hout by lia.
      apply (load_store_ne _ _ _ _ _ Hst); lia.
  - intros [= <- <-] Hi _. assert (E : lim - i = 0) by lia. rewrite E.
    by rewrite app_nil_r.
Qed.

Section ReplySafety.

Variable crc16_bytes : list Z -> Z * Z.

Abbreviation reply := (reply crc16_bytes).
Abbreviation transmitted := (transmitted crc16_bytes).
Abbreviation send_msg := (send_msg crc16_bytes).

(** X14.  Whenever [reply] has a result: if the address byte of the
    request is the station identity or 0, the broadcast address, exactly
    one frame has been sent, between the two toggles of the
    driver-enable pin, and the world is otherwise as before; if not,
    nothing has happened at all. *)
Theorem reply_sends_one_frame (tab_reg : list Z) (nb_reg : Z) (rq : list Z)
  (req_length _slave : Z) (rsp : list Z) (w : world)
  (tab1 : list Z) (acc : list access) (w1 : world) :
  reply tab_reg nb_reg rq req_length _slave rsp w = Some (tab1, acc, w1) ->
  exists a,
    load rq 0 = Some a
    /\ if for_me a _slave then exists body, w1 = transmitted body w
       else w1 = w /\ tab1 = tab_reg /\ acc = [].
Proof. apply reply_out. Qed.

(** X15.  Whenever [reply] has a result, whatever the request: every
    access it made to the register table is at an index below the
    declared size [nb_reg], the table has kept its length, and every
    register it did not access holds the value it held. *)
Theorem reply_table_bounds (tab_reg : list Z) (nb_reg : Z) (rq : list Z)
  (req_length _slave : Z) (rsp : list Z) (w : world)
  (tab1 : list Z) (acc : list access) (w1 : world) :
  reply tab_reg nb_reg rq req_length _slave rsp w = Some (tab1, acc, w1) ->
  nb_reg <= 65535 ->
  length tab1 = length tab_reg
  /\ Forall (fun e => 0 <= access_index e < nb_reg) acc
  /\ (forall i, 0 <= i -> i ∉ (access_index <$> acc) ->
        load tab1 i = load tab_reg i).
Proof.
  unfold reply. generalize register_fuel. intros fuel.
  destruct (load rq _MODBUS_RTU_SLAVE) as [a|]; [|discriminate].
  cbn [mbind option_bind].
  destruct (load rq _MODBUS_RTU_FUNCTION) as [f|]; [|discriminate].
  cbn [mbind option_bind].
  destruct (load rq (_MODBUS_RTU_FUNCTION + 1)) as [a_hi|]; [|discriminate].
  cbn [mbind option_bind].
  destruct (load rq (_MODBUS_RTU_FUNCTION + 2)) as [a_lo|]; [|discriminate].
  cbn [mbind option_bind].
  destruct (load rq (_MODBUS_RTU_FUNCTION + 3)) as [n_hi|]; [|discriminate].
  cbn [mbind option_bind].
  destruct (load rq (_MODBUS_RTU_FUNCTION + 4)) as [n_lo|]; [|discriminate].
  cbn [mbind option_bind].
  pose proof (word_range a_hi a_lo) as Ha.
  pose proof (word_range n_hi n_lo) as Hn.
  remember (word a_hi a_lo) as address eqn:Eaddr.
  remember (word n_hi n_lo) as nb eqn:Enb. clear Eaddr Enb.
  intros H H16.
  destruct (negb (a =? _slave) && negb (a =? MODBUS_BROADCAST_ADDRESS)).
  { injection H as <- <- <-. by repeat split. }
  destruct (Z.gtb_spec (address + nb) nb_reg) as [Hover|Hin].
  { destruct (response_exception _ _ _ _) as [[rsp1 len]|]; [|discriminate].
    cbn [mbind option_bind] in H.
    destruct (send_msg _ _ _) as [[m w2]|]; [|discriminate].
    cbn [mbind option_bind] in H. injection H as <- <- <-. by repeat split. }
  assert (Hidx : Forall (fun i => 0 <= i < nb_reg) (seqZ address nb)).
  { apply list.Forall_forall. intros i Hi. apply elem_of_seqZ in Hi. lia. }
  destruct (f =? _FC_READ_HOLDING_REGISTERS).
  - destruct (build_response_basis _ _ _) as [[rsp1 len]|]; [|discriminate].
    cbn [mbind option_bind] in H.
    destruct (store _ _ _) as [rsp2|]; [|discriminate].
    cbn [mbind option_bind] in H.
    destruct (read_registers _ _ _ _ _ _ _) as [[[rsp3 len3] acc3]|] eqn:Hrd;
      [|discriminate].
    cbn [mbind option_bind] in H.
    destruct (send_msg _ _ _) as [[m w2]|]; [|discriminate].
    cbn [mbind option_bind] in H. injection H as <- <- <-.
    apply read_registers_log in Hrd; [|lia|lia]. subst acc3. cbn [app].
    replace (address + nb - address) with nb by lia.
    split; [done|]. split; [|done].
    apply list.Forall_fmap. by apply (list.Forall_impl _ _ _ Hidx).
  - destruct (write_registers _ _ _ _ _ _ _) as [[t a1]|] eqn:Hwr;
      [|discriminate].
    cbn [mbind option_bind] in H.
    destruct (build_response_basis _ _ _) as [[rsp1 len]|]; [|discriminate].
    cbn [mbind option_bind] in H.
    destruct (memcpy_at _ _ _ _) as [rsp2|]; [|discriminate].
    cbn [mbind option_bind] in H.
    destruct (send_msg _ _ _) as [[m w2]|]; [|discriminate].
    cbn [mbind option_bind] in H. injection H as <- <- <-.
    apply write_registers_log in Hwr as (Hlen & Hord & Hout); [|lia|lia].
    cbn [fmap list_fmap app] in Hord.
    replace (address + nb - address) with nb in Hord by lia.
    split; [exact Hlen|]. split.
    + apply list.Forall_fmap in Hidx as Hidx'. rewrite <- Hord in Hidx.
      by apply list.Forall_fmap in Hidx.
    + intros i Hi Hnot. apply Hout; [exact Hi|].
      rewrite Hord, elem_of_seqZ in Hnot. lia.
Qed.

End ReplySafety.

(** ** Writing and reading back *)

(** Registers that were decoded from a byte sequence, two bytes each,
    encode back to that sequence. *)
Lemma big_endian_decoded (regs : list Z) :
  forall bs : list Z,
    length bs = (2 * length regs)%nat ->
    (forall m : nat, (m < length regs)%nat ->
       exists hi lo,
         bs !! (2 * m)%nat = Some hi /\ bs !! (2 * m + 1)%nat = Some lo
         /\ 0 <= hi < 256 /\ 0 <= lo < 256
         /\ regs !! m = Some (word hi lo)) ->
    big_endian regs = bs.
Proof.
  induction regs as [|v regs IH]; intros bs Hlen Hdec.
  - by destruct bs.
  - destruct bs as [|hi [|lo bs]]; simpl in Hlen; try lia.
    destruct (Hdec 0%nat) as (hi' & lo' & H1 & H2 & Hhi & Hlo & Hv);
      [simpl; lia|].
    simpl in H1, H2, Hv. injection H1 as <-. injection H2 as <-.
    injection Hv as ->.
    change (big_endian (word hi lo :: regs))
      with (big_endian [word hi lo] ++ big_endian regs).
    rewrite big_endian_bytes by done. cbn [app]. do 2 f_equal.
    apply IH; [lia|].
    intros m Hm. destruct (Hdec (S m)) as (h & l & H1 & H2 & Hh & Hl & Hv);
      [simpl; lia|].
    exists h, l.
    replace (2 * S m)%nat with (S (S (2 * m))) in H1 by lia.
    replace (2 * S m + 1)%nat with (S (S (2 * m + 1))) in H2 by lia.
    done.
Qed.

Section RoundTrip.

Variable crc16_bytes : list Z -> Z * Z.

Abbreviation reply := (reply crc16_bytes).
Abbreviation transmitted := (transmitted crc16_bytes).

(** X16.  Writing and reading back.  After [reply] has served a
    well-formed write request in range, a read request for the same
    start address and count, from this station or broadcast, is answered
    with the register bytes of the write request, as they stand in it
    from offset 7: what was written is what is read. *)
Theorem write_then_read_back
  (tab_reg : list Z) (nb_reg : Z) (a a_hi a_lo n_hi n_lo : Z)
  (rest : list Z) (req_length _slave : Z) (rsp : list Z) (w : world) :
  let req :=
    a :: _FC_WRITE_MULTIPLE_REGISTERS :: a_hi :: a_lo :: n_hi :: n_lo :: rest in
  let nb := 256 * n_hi + n_lo in
  all_bytes req = true ->
  for_me a _slave = true ->
  length req = 256%nat ->
  length rsp = 256%nat ->
  write_request_valid req req_length = true ->
  256 * a_hi + a_lo + nb <= nb_reg ->
  nb_reg <= Z.of_nat (length tab_reg) ->
  nb_reg <= 65535 ->
  exists tab1 acc w1,
    reply tab_reg nb_reg req req_length _slave rsp w = Some (tab1, acc, w1)
    /\ forall (a' : Z) (rest' : list Z) (req_length' : Z) (rsp' : list Z)
              (w' : world),
         for_me a' _slave = true ->
         length rsp' = 256%nat ->
         exists acc',
           reply tab1 nb_reg
             (a' :: _FC_READ_HOLDING_REGISTERS :: a_hi :: a_lo :: n_hi :: n_lo
                 :: rest')
             req_length' _slave rsp' w'
           = Some (tab1, acc',
                   transmitted
                     ([a'; _FC_READ_HOLDING_REGISTERS; 2 * nb]
                        ++ take (Z.to_nat (2 * nb)) (drop 7 req))
                     w').
Proof.
  intros req nb Hbytes Hme Hreq Hrsp Hvalid Hin Htab H16.
  assert (Hhdr : (0 <= a_hi < 256 /\ 0 <= a_lo < 256)
                 /\ 0 <= n_hi < 256 /\ 0 <= n_lo < 256).
  { repeat split;
      first [ apply (all_bytes_load req 2 a_hi Hbytes eq_refl)
            | apply (all_bytes_load req 3 a_lo Hbytes eq_refl)
            | apply (all_bytes_load req 4 n_hi Hbytes eq_refl)
            | apply (all_bytes_load req 5 n_lo Hbytes eq_refl) ]. }
  destruct Hhdr as ((Hah & Hal) & Hnh & Hnl).
  assert (Eaddr : word a_hi a_lo = 256 * a_hi + a_lo) by (by apply word_bytes).
  assert (Enb : word n_hi n_lo = nb) by (by apply word_bytes).
  assert (Hfit : 9 + 2 * nb <= 256).
  { subst req. destruct rest as [|bc rest]; [discriminate|].
    cbn [write_request_valid] in Hvalid.
    apply andb_prop in Hvalid as [Hvalid H4].
    apply andb_prop in Hvalid as [Hvalid H3].
    apply andb_prop in Hvalid as [_ H2].
    apply Z.eqb_eq in H2, H3. apply Z.leb_le in H4.
    unfold _MODBUSINO_RTU_MAX_ADU_LENGTH in H4. rewrite Enb in H2. lia. }
  remember (256 * a_hi + a_lo) as address eqn:Eaddress.
  assert (Hnb0 : 0 <= nb) by (unfold nb; lia).
  assert (Haddr0 : 0 <= address) by lia.
  destruct (reply_write_run crc16_bytes tab_reg nb_reg a a_hi a_lo n_hi n_lo
              rest req_length _slave rsp w)
    as (tab1 & acc & Hrun & Hlen & _ & Hval & _); try assumption.
  { fold req. rewrite Hreq, Enb. unfold _MODBUS_RTU_FUNCTION. lia. }
  { rewrite Eaddr, Enb. exact Hin. }
  fold req in Hrun, Hval. rewrite Eaddr, Enb in Hval.
  eexists tab1, acc, _. split; [exact Hrun|].
  intros a' rest' req_length' rsp' w' Hme' Hrsp'.
  eexists.
  rewrite (reply_read_run crc16_bytes tab1 nb_reg a' a_hi a_lo n_hi n_lo rest'
             req_length' _slave rsp' w' Hme' Hrsp');
    rewrite ?Eaddr, ?Enb; [|lia|lia|lia|lia].
  do 4 f_equal.
  apply big_endian_decoded.
  { rewrite !length_take, !length_drop. lia. }
  intros m Hm. rewrite length_take, length_drop in Hm.
  destruct (Hval (address + Z.of_nat m)) as (hi & lo & Hhi & Hlo & Hst); [lia|].
  exists hi, lo.
  unfold _MODBUS_RTU_FUNCTION in Hhi, Hlo.
  replace (1 + 6 + 2 * (address + Z.of_nat m - address))
    with (Z.of_nat (7 + 2 * m)) in Hhi, Hlo by lia.
  replace (Z.of_nat (7 + 2 * m) + 1) with (Z.of_nat (7 + (2 * m + 1)))
    in Hlo by lia.
  replace (address + Z.of_nat m) with (Z.of_nat (Z.to_nat address + m))
    in Hst by lia.
  rewrite load_nat in Hhi, Hlo, Hst.
  rewrite !lookup_take_lt, !lookup_drop by lia.
  split; [exact Hhi|]. split; [exact Hlo|].
  split; [exact (all_bytes_load req (Z.of_nat (7 + 2 * m)) hi Hbytes
                   ltac:(by rewrite load_nat))|].
  split; [exact (all_bytes_load req (Z.of_nat (7 + (2 * m + 1))) lo Hbytes
                   ltac:(by rewrite load_nat))|].
  exact Hst.
Qed.

End RoundTrip.

(** ** Whole cycles *)

Lemma all_bytes_u8 (bs : list Z) : all_bytes bs = true -> u8 <$> bs = bs.
Proof.
  induction bs as [|b bs IH]; [done|]. unfold all_bytes. cbn [forallb].
  intros H. apply andb_prop in H as [Hb Hbs].
  rewrite fmap_cons, IH by exact Hbs. f_equal. apply u8_small. lia.
Qed.

Lemma all_bytes_app (l k : list Z) :
  all_bytes (l ++ k) = all_bytes l && all_bytes k.
Proof. unfold all_bytes. apply forallb_app. Qed.

Lemma all_bytes_lookup (bs : list Z) (i : nat) (b : Z) :
  all_bytes bs = true -> bs !! i = Some b -> 0 <= b < 256.
Proof.
  intros Hall Hb. apply (all_bytes_load bs (Z.of_nat i) b Hall).
  by rewrite load_nat.
Qed.

Section Cycles.

Variable crc16 : list Z -> Z.
Variable crc16_bytes : list Z -> Z * Z.
Variable MODBUS_INFORMATIVE_NOT_FOR_US : Z.
Variable MODBUS_INFORMATIVE_RX_TIMEOUT : Z.

Abbreviation receive :=
  (receive crc16 crc16_bytes MODBUS_INFORMATIVE_NOT_FOR_US
     MODBUS_INFORMATIVE_RX_TIMEOUT).
Abbreviation loop :=
  (loop crc16 crc16_bytes MODBUS_INFORMATIVE_NOT_FOR_US
     MODBUS_INFORMATIVE_RX_TIMEOUT).
Abbreviation reply := (reply crc16_bytes).
Abbreviation transmitted := (transmitted crc16_bytes).

(** X17.  A whole cycle on a read request.  The 8 bytes of a read
    request for this station wait on the line, their checksum verifies,
    the range lies inside the declared table and the count is at most
    125: [loop] returns 8, leaves the table as it is and the bytes
    behind the frame on the line, and sends address, function, twice
    the count, and the registers of the range, most significant byte
    first. *)
Theorem loop_read_cycle
  (tab_reg : list Z) (nb_reg : Z) (_slave : Z) (req0 rsp : list Z) (w : world)
  (a a_hi a_lo n_hi n_lo c1 c2 : Z) (rest : list Z) :
  let bytes :=
    [a; _FC_READ_HOLDING_REGISTERS; a_hi; a_lo; n_hi; n_lo; c1; c2] in
  let address := 256 * a_hi + a_lo in
  let nb := 256 * n_hi + n_lo in
  length req0 = 256%nat ->
  length rsp = 256%nat ->
  rx w = bytes ++ rest ->
  all_bytes bytes = true ->
  crc16 bytes = 0 ->
  for_me a _slave = true ->
  address + nb <= nb_reg ->
  nb_reg <= Z.of_nat (length tab_reg) ->
  nb_reg <= 65535 ->
  nb <= 125 ->
  exists acc,
    loop tab_reg nb_reg _slave req0 rsp w
    = Some (8, tab_reg, acc,
            transmitted
              ([a; _FC_READ_HOLDING_REGISTERS; 2 * nb]
                 ++ big_endian (take (Z.to_nat nb)
                                  (drop (Z.to_nat address) tab_reg)))
              (set_rx rest w)).
Proof.
  intros bytes address nb Hreq Hrsp Hrx Hbytes Hcrc Hme Hin Htab H16 Hnb.
  assert (Hb : forall i b, bytes !! i = Some b -> 0 <= b < 256)
    by (intros i b; by apply all_bytes_lookup).
  pose proof (Hb 0%nat a eq_refl) as Ha.
  pose proof (Hb 2%nat a_hi eq_refl) as Hah.
  pose proof (Hb 3%nat a_lo eq_refl) as Hal.
  pose proof (Hb 4%nat n_hi eq_refl) as Hnh.
  pose proof (Hb 5%nat n_lo eq_refl) as Hnl.
  assert (Eaddr : word a_hi a_lo = address) by (by apply word_bytes).
  assert (Enb : word n_hi n_lo = nb) by (by apply word_bytes).
  eexists. unfold loop.
  assert (Hav : Serial2_available w = true)
    by (unfold Serial2_available; by rewrite Hrx).
  rewrite Hav.
  rewrite (receive_read_request crc16 crc16_bytes MODBUS_INFORMATIVE_NOT_FOR_US
             MODBUS_INFORMATIVE_RX_TIMEOUT _slave req0 w a a_hi a_lo n_hi n_lo
             c1 c2 rest Hreq Hrx)
    by (by rewrite u8_small).
  fold bytes. rewrite (all_bytes_u8 bytes Hbytes), Hcrc.
  change (0 =? 0) with true. cbn iota. cbn [mbind option_bind].
  change (8 >? 0) with true. cbn iota.
  unfold bytes at 1. cbn [app].
  rewrite (reply_read_run crc16_bytes tab_reg nb_reg a a_hi a_lo n_hi n_lo
             (c1 :: c2 :: drop 8 req0) (u8 8) _slave rsp (set_rx rest w)
             Hme Hrsp);
    rewrite ?Eaddr, ?Enb; try assumption.
  reflexivity.
Qed.

(** X18.  A whole cycle on a write request.  A write request for this
    station waits on the line, with byte count twice its register
    count, at most 123 registers, a checksum that verifies and a range
    inside the declared table: [loop] returns the frame length, stores
    [256 * hi + lo] of each pair of value bytes at the indices of the
    range in ascending order, leaves every other register as it is, and
    sends address, function and the start address and count fields. *)
Theorem loop_write_cycle
  (tab_reg : list Z) (nb_reg : Z) (_slave : Z) (req0 rsp : list Z) (w : world)
  (a a_hi a_lo n_hi n_lo c1 c2 : Z) (body rest : list Z) :
  let address := 256 * a_hi + a_lo in
  let nb := 256 * n_hi + n_lo in
  let bytes :=
    [a; _FC_WRITE_MULTIPLE_REGISTERS; a_hi; a_lo; n_hi; n_lo; 2 * nb]
      ++ body ++ [c1; c2] in
  length req0 = 256%nat ->
  length rsp = 256%nat ->
  rx w = bytes ++ rest ->
  all_bytes bytes = true ->
  Z.of_nat (length body) = 2 * nb ->
  nb <= 123 ->
  crc16 bytes = 0 ->
  for_me a _slave = true ->
  address + nb <= nb_reg ->
  nb_reg <= Z.of_nat (length tab_reg) ->
  nb_reg <= 65535 ->
  exists tab1 acc,
    loop tab_reg nb_reg _slave req0 rsp w
    = Some (9 + 2 * nb, tab1, acc,
            transmitted
              [a; _FC_WRITE_MULTIPLE_REGISTERS; a_hi; a_lo; n_hi; n_lo]
              (set_rx rest w))
    /\ length tab1 = length tab_reg
    /\ access_index <$> acc = seqZ address nb
    /\ (forall m : nat, Z.of_nat m < nb ->
          exists hi lo,
            body !! (2 * m)%nat = Some hi /\ body !! (2 * m + 1)%nat = Some lo
            /\ load tab1 (address + Z.of_nat m) = Some (256 * hi + lo))
    /\ (forall i, 0 <= i -> ~ (address <= i < address + nb) ->
          load tab1 i = load tab_reg i).
Proof.
  intros address nb bytes Hreq Hrsp Hrx Hbytes Hbody Hnb Hcrc Hme Hin Htab H16.
  assert (Hb : forall i b, bytes !! i = Some b -> 0 <= b < 256)
    by (intros i b; by apply all_bytes_lookup).
  pose proof (Hb 0%nat a eq_refl) as Ha.
  pose proof (Hb 2%nat a_hi eq_refl) as Hah.
  pose proof (Hb 3%nat a_lo eq_refl) as Hal.
  pose proof (Hb 4%nat n_hi eq_refl) as Hnh.
  pose proof (Hb 5%nat n_lo eq_refl) as Hnl.
  assert (Eaddr : word a_hi a_lo = address) by (by apply word_bytes).
  assert (Enb : word n_hi n_lo = nb) by (by apply word_bytes).
  assert (Hnb0 : 0 <= nb) by (unfold nb; lia).
  assert (Hlenb : length bytes = (9 + length body)%nat).
  { unfold bytes. cbn [app length]. rewrite length_app. simpl. lia. }
  pose proof Hbytes as Hbytes'. unfold bytes in Hbytes'.
  rewrite all_bytes_app in Hbytes'. apply andb_prop in Hbytes' as [_ Hbytes'].
  rewrite all_bytes_app in Hbytes'. apply andb_prop in Hbytes' as [Hbodyb _].
  assert (Hav : Serial2_available w = true)
    by (unfold Serial2_available; by rewrite Hrx).
  assert (Hrecv :
    receive req0 _slave w
    = Some (9 + 2 * nb, bytes ++ drop (length bytes) req0, set_rx rest w)).
  { pose proof (receive_write_request crc16 crc16_bytes
                  MODBUS_INFORMATIVE_NOT_FOR_US MODBUS_INFORMATIVE_RX_TIMEOUT
                  _slave req0 w a a_hi a_lo n_hi n_lo c1 c2 body rest) as H.
    cbv zeta in H. rewrite Hbody in H. fold bytes in H.
    rewrite H; [|done|done|by rewrite u8_small|lia].
    by rewrite (all_bytes_u8 bytes Hbytes), Hcrc. }
  set (rq := bytes ++ drop (length bytes) req0) in *.
  assert (Hrq : rq = a :: _FC_WRITE_MULTIPLE_REGISTERS :: a_hi :: a_lo :: n_hi
                       :: n_lo
                       :: (2 * nb :: body ++ [c1; c2]
                             ++ drop (length bytes) req0)).
  { unfold rq, bytes. by rewrite <- !app_assoc. }
  assert (Hrql : length rq = 256%nat).
  { unfold rq. rewrite length_app, length_drop. lia. }
  destruct (reply_write_run crc16_bytes tab_reg nb_reg a a_hi a_lo n_hi n_lo
              (2 * nb :: body ++ [c1; c2] ++ drop (length bytes) req0)
              (u8 (9 + 2 * nb)) _slave rsp (set_rx rest w))
    as (tab1 & acc & Hrun & Hlen & Hord & Hval & Hout); try assumption.
  { by rewrite <- Hrq. }
  { rewrite <- Hrq, Hrql, Enb. unfold _MODBUS_RTU_FUNCTION. lia. }
  { rewrite Eaddr, Enb. exact Hin. }
  rewrite <- Hrq in Hrun, Hval. rewrite Eaddr, Enb in Hord, Hval, Hout.
  exists tab1, acc. split; [|split; [exact Hlen|split; [exact Hord|split]]].
  - unfold loop. rewrite Hav, Hrecv. cbn [mbind option_bind].
    destruct (Z.gtb_spec (9 + 2 * nb) 0); [|lia].
    by rewrite Hrun.
  - intros m Hm.
    destruct (Hval (address + Z.of_nat m)) as (hi & lo & Hhi & Hlo & Hst); [lia|].
    exists hi, lo. unfold _MODBUS_RTU_FUNCTION in Hhi, Hlo.
    replace (1 + 6 + 2 * (address + Z.of_nat m - address))
      with (Z.of_nat (7 + 2 * m)) in Hhi, Hlo by lia.
    replace (Z.of_nat (7 + 2 * m) + 1) with (Z.of_nat (7 + (2 * m + 1)))
      in Hlo by lia.
    rewrite load_nat in Hhi, Hlo.
    assert (Hat : forall k : nat, (k < length body)%nat ->
                    rq !! (7 + k)%nat = body !! k).
    { intros k Hk. rewrite Hrq.
      change ((body ++ [c1; c2] ++ drop (length bytes) req0) !! k = body !! k).
      by apply lookup_app_l. }
    rewrite Hat in Hhi, Hlo by lia.
    split; [exact Hhi|]. split; [exact Hlo|].
    rewrite Hst. f_equal. apply word_bytes.
    + exact (all_bytes_lookup body _ hi Hbodyb Hhi).
    + exact (all_bytes_lookup body _ lo Hbodyb Hlo).
  - exact Hout.
Qed.

End Cycles.

(** ** The largest read *)

Section ReadBound.

Variable crc16_bytes : list Z -> Z * Z.

Abbreviation reply := (reply crc16_bytes).

(** X19.  125 registers is the most a read can return: for a read
    request of 126 registers in range, the response fills the 256-byte
    array up to index 254 and the checksum is stored at 255 and 256,
    outside the array.  [reply] has no defined result. *)
Theorem reply_read_126_overflows
  (tab_reg : list Z) (nb_reg : Z) (a a_hi a_lo n_hi n_lo : Z)
  (rest : list Z) (req_length _slave : Z) (rsp : list Z) (w : world) :
  for_me a _slave = true ->
  length rsp = 256%nat ->
  word n_hi n_lo = 126 ->
  word a_hi a_lo + 126 <= nb_reg ->
  nb_reg <= Z.of_nat (length tab_reg) ->
  nb_reg <= 65535 ->
  reply tab_reg nb_reg
        (a :: _FC_READ_HOLDING_REGISTERS :: a_hi :: a_lo :: n_hi :: n_lo :: rest)
        req_length _slave rsp w
  = None.
Proof.
  intros Hme Hrsp Hnb Hin Htab H16.
  pose proof (word_range a_hi a_lo) as Ha.
  unfold reply.
  generalize register_fuel_val. generalize register_fuel. intros fuel Hfuel.
  simpl. rewrite Hnb.
  remember (word a_hi a_lo) as address eqn:Eaddr. clear Eaddr.
  rewrite (for_me_filter _ _ Hme).
  destruct (Z.gtb_spec (address + 126) nb_reg); [lia|].
  rewrite build_response_basis_cells by lia. cbn [mbind option_bind].
  destruct rsp as [|x0 [|x1 [|x2 rsp]]]; simpl in Hrsp; try lia.
  simpl. rewrite store_Some by (simpl; lia). simpl.
  change (u8 (Z.shiftl 126 1)) with 252.
  change (u8 (2 + 1)) with 3.
  pose proof (read_registers_run 126 fuel address tab_reg
                [a; _FC_READ_HOLDING_REGISTERS; 252] rsp []) as Hrun.
  cbn [app length] in Hrun. change (Z.of_nat 3) with 3 in Hrun.
  change (Z.of_nat 126) with 126 in Hrun.
  rewrite Hrun by lia.
  clear Hrun. cbn [mbind option_bind].
  rewrite send_msg_None; [reflexivity|].
  cbn [length]. rewrite length_app, big_endian_length, length_take, length_drop,
    length_drop.
  lia.
Qed.

End ReadBound.

(** ** The model at work

    Station 5 on a line with CRC-16/MODBUS; the examples run whole
    cycles with [run] and single calls of the functions. *)

Lemma informative_codes_5_6 : informative_codes 5 6.
Proof. unfold informative_codes, MODBUS_EXCEPTION_ILLEGAL_DATA_VALUE. lia. Qed.

(** The read scenario of the specification: registers 10 and 11 hold 100
    and 200, and the answer is [05 03 04 00 64 00 C8] and its checksum. *)
Example read_two_registers :
  run (replicate 10 0 ++ [100; 200]) 5 (frame [5; 3; 0; 10; 0; 2])
  = Some (8, replicate 10 0 ++ [100; 200], [TabRead 10; TabRead 11],
          World [] [] [DigitalWrite 33 1;
                       SerialWrite (frame [5; 3; 4; 0; 100; 0; 200]);
                       DigitalWrite 33 0] 33).
Proof. vm_compute. reflexivity. Qed.

(** Nothing on the line: the cycle does nothing and returns 0. *)
Example idle_cycle : run [1; 2] 5 [] = Some (0, [1; 2], [], line []).
Proof. vm_compute. reflexivity. Qed.

(** A frame that stops after three bytes: the wait for the fourth byte
    runs out, the status is the timeout status and nothing is sent. *)
Example timeout_mid_frame :
  run [1; 2] 5 [5; 3; 0] = Some (-1 - 6, [1; 2], [], line []).
Proof. vm_compute. reflexivity. Qed.

(** C1.  The function byte of an exception response is computed as
    [function + 0x80] in a [uint8_t], and for a function code with its
    high bit set the sum wraps.  Function code 0x99 sent to station 5:
    the line is flushed, the status is that of the illegal function, but
    the frame that goes out is [05 19 01] and its checksum; the function
    byte 0x19 has bit 7 clear and is not 0x99 OR 0x80, so what is sent
    is not an exception response.  The same holds for every function
    code from 0x80 to 0xFF: the function byte built is the code minus
    0x80, with bit 7 clear. *)
Theorem exception_function_byte_wraps :
  run [] 5 [5; 0x99]
  = Some (-1 - MODBUS_EXCEPTION_ILLEGAL_FUNCTION, [], [],
          World [] [] [DigitalWrite 33 1;
                       SerialWrite (frame [5; 0x19; 1]);
                       DigitalWrite 33 0] 33)
  /\ Z.testbit 0x19 7 = false
  /\ 0x19 <> Z.lor 0x99 0x80
  /\ Forall (fun f =>
               response_exception 5 f MODBUS_EXCEPTION_ILLEGAL_FUNCTION zeros
               = Some ([5; f - 0x80; MODBUS_EXCEPTION_ILLEGAL_FUNCTION]
                         ++ drop 3 zeros, 3)
               /\ Z.testbit (f - 0x80) 7 = false
               /\ f - 0x80 <> Z.lor f 0x80)
            (seqZ 0x80 0x80).
Proof.
  split; [vm_compute; reflexivity|].
  split; [reflexivity|]. split; [vm_compute; discriminate|].
  assert (Hall :
    forallb (fun f => (u8 (f + 0x80) =? f - 0x80)
                      && negb (Z.testbit (f - 0x80) 7)
                      && negb (f - 0x80 =? Z.lor f 0x80))
            (seqZ 0x80 0x80) = true) by (vm_compute; reflexivity).
  rewrite forallb_forall in Hall.
  apply list.Forall_forall. intros f Hf.
  apply list_elem_of_In, Hall in Hf.
  apply andb_prop in Hf as [Hf Hne]. apply andb_prop in Hf as [Hu Hbit].
  apply Z.eqb_eq in Hu. apply negb_true_iff in Hbit, Hne.
  apply Z.eqb_neq in Hne.
  rewrite response_exception_cells by (vm_compute; lia).
  by rewrite Hu.
Qed.

(** C2.  A write request for station 5 announcing 248 data bytes: 7
    bytes are in, 7 + 2 + 248 exceeds 256, the line is flushed and the
    Illegal-Data-Value exception (code 3) goes out, but the status
    returned is -2, the illegal-function status, and not the status of
    the exception that was sent. *)
Theorem oversize_write_status :
  run [] 5 [5; 0x10; 0; 0; 0; 1; 0xF8]
  = Some (-1 - MODBUS_EXCEPTION_ILLEGAL_FUNCTION, [], [],
          World [] [] [DigitalWrite 33 1;
                       SerialWrite
                         (frame [5; 0x90; MODBUS_EXCEPTION_ILLEGAL_DATA_VALUE]);
                       DigitalWrite 33 0] 33)
  /\ -1 - MODBUS_EXCEPTION_ILLEGAL_FUNCTION
     <> -1 - MODBUS_EXCEPTION_ILLEGAL_DATA_VALUE
  /\ run [] 5 [5; 0x99]
     = Some (-1 - MODBUS_EXCEPTION_ILLEGAL_FUNCTION, [], [],
             World [] [] [DigitalWrite 33 1;
                          SerialWrite
                            (frame [5; 0x19; MODBUS_EXCEPTION_ILLEGAL_FUNCTION]);
                          DigitalWrite 33 0] 33).
Proof.
  split; [vm_compute; reflexivity|].
  split; [vm_compute; discriminate | vm_compute; reflexivity].
Qed.

(** The byte count is added to the checksum length in a [uint8_t]: with
    254 data bytes announced the sum wraps to 0, the size test passes,
    and the 7 bytes read so far are taken for the whole frame. *)
Example oversize_write_wraps :
  receive_trace Crc.crc16_bytes 5 6 zeros 5
    (line [5; 0x10; 0; 0; 0; 1; 0xFE])
  = Some (Completed
            (RState 0 7 _STEP_DATA 0x10
               ([5; 0x10; 0; 0; 0; 1; 0xFE] ++ replicate 249 0))
            (line []) (seqZ 0 7)).
Proof. vm_compute. reflexivity. Qed.

(** A read of 128 registers from a table of 128: the five bytes that go
    out are not the frame of address, function, byte length and
    registers. *)
Lemma read_128_registers_garbled :
  run (replicate 128 0x0102) 5 (frame [5; 3; 0; 0; 0; 128])
  = Some (8, replicate 128 0x0102, TabRead <$> seqZ 0 128,
          World [] [] [DigitalWrite 33 1;
                       SerialWrite [2; 1; 2; 80; 81];
                       DigitalWrite 33 0] 33)
  /\ [2; 1; 2; 80; 81]
     <> frame ([5; 3; 2 * 128] ++ big_endian (replicate 128 0x0102)).
Proof.
  split; [vm_compute; reflexivity|].
  intros H. apply (f_equal length) in H. vm_compute in H. discriminate.
Qed.

(** Function code 0x99 sent to station 7 while this station is 5: the
    status is the not-for-this-station status, not the generic -1. *)
Lemma unsupported_function_other_station :
  run [] 5 [7; 0x99] = Some (-1 - 5, [], [], line [])
  /\ -1 - 5 <> -1.
Proof. split; [vm_compute; reflexivity | vm_compute; discriminate]. Qed.

(** ** The theorems at concrete inputs *)

Lemma response_exception_frame_witness :
  response_exception 5 3 MODBUS_EXCEPTION_ILLEGAL_DATA_ADDRESS zeros
  = Some ([5; (3 + 0x80) mod 256; MODBUS_EXCEPTION_ILLEGAL_DATA_ADDRESS]
            ++ drop 3 zeros, 3)
  /\ ((3 + 0x80) mod 256 = Z.lor 3 0x80 <-> 3 < 0x80)
  /\ response_exception 5 0x99 MODBUS_EXCEPTION_ILLEGAL_FUNCTION zeros
     = Some ([5; 0x19; MODBUS_EXCEPTION_ILLEGAL_FUNCTION] ++ drop 3 zeros, 3).
Proof.
  apply (response_exception_frame 5 3 MODBUS_EXCEPTION_ILLEGAL_DATA_ADDRESS
           zeros); [vm_compute; lia | lia].
Defined.

Lemma not_for_us_sends_nothing_witness :
  let rq := <[1%nat := u8 3]> (<[0%nat := u8 7]> zeros) in
  receive Crc.crc16 Crc.crc16_bytes 5 6 zeros 5 (line [7; 3; 0; 0])
  = Some (-1 - 5, rq, flush (line [0; 0]))
  /\ loop Crc.crc16 Crc.crc16_bytes 5 6 [1; 2] 2 5 zeros zeros
       (line [7; 3; 0; 0])
     = Some (-1 - 5, [1; 2], [], flush (line [0; 0]))
  /\ out (flush (line [0; 0])) = out (line [7; 3; 0; 0])
  /\ (forall tab' nb' len rsp' w',
        reply Crc.crc16_bytes tab' nb' rq len 5 rsp' w' = Some (tab', [], w')).
Proof.
  apply (not_for_us_sends_nothing Crc.crc16 Crc.crc16_bytes 5 6 [1; 2] 2
           zeros zeros 5 (line [7; 3; 0; 0]) (line [3; 0; 0]) (line [0; 0])
           7 3).
  - reflexivity.
  - exact informative_codes_5_6.
  - reflexivity.
  - reflexivity.
  - reflexivity.
  - vm_compute. discriminate.
  - vm_compute. discriminate.
Defined.

Lemma receive_check_integrity_witness :
  let st :=
    RState 0 8 _STEP_DATA 3 (frame [5; 3; 0; 10; 0; 2] ++ replicate 248 0) in
  let n := req_index st in
  (if (2 <=? n) && (Crc.crc16 (take (Z.to_nat n) (req st)) =? 0) then
     receive Crc.crc16 Crc.crc16_bytes 5 6 zeros 5
       (line (frame [5; 3; 0; 10; 0; 2]))
     = Some (n, req st, line [])
     /\ n = Z.of_nat (length (seqZ 0 8))
   else
     receive Crc.crc16 Crc.crc16_bytes 5 6 zeros 5
       (line (frame [5; 3; 0; 10; 0; 2]))
     = Some (-1, req st, line [])
     /\ out (line []) = out (line (frame [5; 3; 0; 10; 0; 2]))
     /\ (Serial2_available (line (frame [5; 3; 0; 10; 0; 2])) = true ->
         loop Crc.crc16 Crc.crc16_bytes 5 6 [1; 2] 2 5 zeros zeros
           (line (frame [5; 3; 0; 10; 0; 2]))
         = Some (-1, [1; 2], [], line [])))
  /\ -1 <> -1 - 6
  /\ -1 <> -1 - 5
  /\ -1 <> -1 - MODBUS_EXCEPTION_ILLEGAL_FUNCTION
  /\ -1 <> -1 - MODBUS_EXCEPTION_ILLEGAL_DATA_ADDRESS
  /\ -1 <> -1 - MODBUS_EXCEPTION_ILLEGAL_DATA_VALUE.
Proof.
  apply (receive_check_integrity Crc.crc16 Crc.crc16_bytes 5 6 [1; 2] 2
           zeros zeros 5 (line (frame [5; 3; 0; 10; 0; 2])) (line [])
           (RState 0 8 _STEP_DATA 3
              (frame [5; 3; 0; 10; 0; 2] ++ replicate 248 0))
           (seqZ 0 8)).
  - reflexivity.
  - exact informative_codes_5_6.
  - vm_compute. reflexivity.
Defined.

(** C5.  A frame of exactly 256 bytes with a good checksum, for
    station 5: it passes the size test, all 256 bytes are accumulated
    and the checksum over them is 0, but [req_index], a [uint8_t], has
    wrapped to 0 when the loop is left; the integrity check is given the
    length 0, and the cycle returns the generic error -1 and sends
    nothing, where the length 256 was to be returned.  The frame one
    byte shorter is accepted with its length, 255. *)
Theorem full_size_frame_rejected :
  let bytes := frame ([5; 0x10; 0; 0; 0; 0; 247] ++ replicate 247 0) in
  let shorter := frame ([5; 0x10; 0; 0; 0; 0; 246] ++ replicate 246 0) in
  length bytes = 256%nat
  /\ Crc.crc16 bytes = 0
  /\ receive_trace Crc.crc16_bytes 5 6 zeros 5 (line bytes)
     = Some (Completed (RState 0 0 _STEP_DATA 0x10 bytes) (line [])
               (seqZ 0 256))
  /\ check_integrity Crc.crc16 bytes 0 = Some (-1)
  /\ run [1; 2] 5 bytes = Some (-1, [1; 2], [], line [])
  /\ length shorter = 255%nat
  /\ receive Crc.crc16 Crc.crc16_bytes 5 6 zeros 5 (line shorter)
     = Some (255, shorter ++ [0], line []).
Proof. repeat split; vm_compute; reflexivity. Qed.

(** A read frame with its last byte damaged is dropped with -1. *)
Example damaged_frame_dropped :
  run [1; 2] 5 [5; 3; 0; 0; 0; 1; 0x85; 0x8F]
  = Some (-1, [1; 2], [], line []).
Proof. vm_compute. reflexivity. Qed.

Lemma reply_read_holding_registers_witness :
  exists acc,
    reply Crc.crc16_bytes (replicate 10 0 ++ [100; 200]) 12
      [5; _FC_READ_HOLDING_REGISTERS; 0; 10; 0; 2; 0xE5; 0x8D] 8 5 zeros
      (line [])
    = Some (replicate 10 0 ++ [100; 200], acc,
            transmitted Crc.crc16_bytes
              ([5; _FC_READ_HOLDING_REGISTERS; 2 * word 0 2]
                 ++ big_endian
                      (take (Z.to_nat (word 0 2))
                         (drop (Z.to_nat (word 0 10))
                            (replicate 10 0 ++ [100; 200]))))
              (line [])).
Proof.
  apply (reply_read_holding_registers Crc.crc16_bytes
           (replicate 10 0 ++ [100; 200]) 12 5 0 10 0 2 [0xE5; 0x8D] 8 5
           zeros (line [])).
  - reflexivity.
  - reflexivity.
  - vm_compute. discriminate.
  - vm_compute. discriminate.
  - lia.
  - vm_compute. discriminate.
Defined.

Lemma reply_write_multiple_registers_witness :
  let req :=
    5 :: _FC_WRITE_MULTIPLE_REGISTERS :: 0 :: 3 :: 0 :: 2
      :: ([4; 0x12; 0x34; 0x56; 0x78; 0xB0; 0x4C] ++ replicate 243 0) in
  let address := 256 * 0 + 3 in
  let nb := 256 * 0 + 2 in
  exists tab1 acc,
    reply Crc.crc16_bytes (replicate 12 0) 12 req 13 5 zeros (line [])
    = Some (tab1, acc,
            transmitted Crc.crc16_bytes
              [5; _FC_WRITE_MULTIPLE_REGISTERS; 0; 3; 0; 2] (line []))
    /\ length tab1 = length (replicate 12 0)
    /\ access_index <$> acc = seqZ address nb
    /\ (forall i, address <= i < address + nb ->
          exists hi lo,
            load req (_MODBUS_RTU_FUNCTION + 6 + 2 * (i - address)) = Some hi
            /\ load req (_MODBUS_RTU_FUNCTION + 6 + 2 * (i - address) + 1)
               = Some lo
            /\ load tab1 i = Some (256 * hi + lo))
    /\ (forall i, 0 <= i -> ~ (address <= i < address + nb) ->
          load tab1 i = load (replicate 12 0) i).
Proof.
  apply (reply_write_multiple_registers Crc.crc16_bytes (replicate 12 0) 12
           5 0 3 0 2
           ([4; 0x12; 0x34; 0x56; 0x78; 0xB0; 0x4C] ++ replicate 243 0)
           13 5 zeros (line [])).
  - vm_compute. reflexivity.
  - reflexivity.
  - reflexivity.
  - reflexivity.
  - vm_compute. reflexivity.
  - vm_compute. discriminate.
  - vm_compute. discriminate.
  - lia.
Defined.

(** The write scenario, run as a whole cycle. *)
Example write_two_registers :
  run (replicate 12 0) 5
    (frame [5; 0x10; 0; 3; 0; 2; 4; 0x12; 0x34; 0x56; 0x78])
  = Some (13, [0; 0; 0; 0x1234; 0x5678; 0; 0; 0; 0; 0; 0; 0],
          [TabWrite 3 0x1234; TabWrite 4 0x5678],
          World [] [] [DigitalWrite 33 1;
                       SerialWrite (frame [5; 0x10; 0; 3; 0; 2]);
                       DigitalWrite 33 0] 33).
Proof. vm_compute. reflexivity. Qed.

Lemma receive_unsupported_function_witness :
  if for_me (u8 5) 5 then
    let w3 :=
      transmitted Crc.crc16_bytes
        [5; u8 (u8 0x99 + 0x80); MODBUS_EXCEPTION_ILLEGAL_FUNCTION]
        (flush (line [])) in
    (exists rq,
        receive Crc.crc16 Crc.crc16_bytes 5 6 zeros 5 (line [5; 0x99])
        = Some (-1 - MODBUS_EXCEPTION_ILLEGAL_FUNCTION, rq, w3))
    /\ loop Crc.crc16 Crc.crc16_bytes 5 6 [1; 2] 2 5 zeros zeros
         (line [5; 0x99])
       = Some (-1 - MODBUS_EXCEPTION_ILLEGAL_FUNCTION, [1; 2], [], w3)
  else
    loop Crc.crc16 Crc.crc16_bytes 5 6 [1; 2] 2 5 zeros zeros
      (line [5; 0x99])
    = Some (-1 - 5, [1; 2], [], flush (line []))
    /\ out (flush (line [])) = out (line [5; 0x99]).
Proof.
  apply (receive_unsupported_function Crc.crc16 Crc.crc16_bytes 5 6 [1; 2] 2
           zeros zeros 5 (line [5; 0x99]) (line [0x99]) (line []) 5 0x99).
  - reflexivity.
  - exact informative_codes_5_6.
  - reflexivity.
  - reflexivity.
  - reflexivity.
  - vm_compute. discriminate.
  - vm_compute. discriminate.
Defined.

Lemma receive_writes_in_bounds_witness :
  exists r,
    receive_trace Crc.crc16_bytes 5 6 zeros 5
      (line (frame [5; 0x10; 0; 3; 0; 2; 4; 0x12; 0x34; 0x56; 0x78]))
    = Some r
    /\ writes r = seqZ 0 (Z.of_nat (length (writes r)))
    /\ Z.of_nat (length (writes r)) <= _MODBUSINO_RTU_MAX_ADU_LENGTH
    /\ Forall (fun i => 0 <= i < _MODBUSINO_RTU_MAX_ADU_LENGTH) (writes r).
Proof.
  apply (receive_writes_in_bounds Crc.crc16_bytes 5 6 zeros 5
           (line (frame [5; 0x10; 0; 3; 0; 2; 4; 0x12; 0x34; 0x56; 0x78]))).
  reflexivity.
Defined.

Lemma reply_read_keeps_table_witness :
  let req :=
    [5; _FC_READ_HOLDING_REGISTERS; 0; 10; 0; 2; 0xE5; 0x8D] in
  let tab_reg := replicate 10 0 ++ [100; 200] in
  (forall tab1 acc w1,
      reply Crc.crc16_bytes tab_reg 12 req 8 5 zeros (line [])
      = Some (tab1, acc, w1) ->
      tab1 = tab_reg /\ exists idx, acc = TabRead <$> idx)
  /\ exists acc w1,
       reply Crc.crc16_bytes tab_reg 12 req 8 5 zeros (line [])
       = Some (tab_reg, acc, w1).
Proof.
  intros req tab_reg.
  destruct (reply_read_keeps_table Crc.crc16_bytes tab_reg 12 5 0 10 0 2
              [0xE5; 0x8D] 8 5 zeros (line [])) as [Hkeep Hrun].
  split; [exact Hkeep|].
  apply Hrun.
  - reflexivity.
  - reflexivity.
  - vm_compute. discriminate.
  - vm_compute. discriminate.
  - lia.
  - vm_compute. discriminate.
Defined.

Lemma dispatch_illegal_data_address_witness :
  let w2 :=
    transmitted Crc.crc16_bytes
      [5; Z.lor 3 0x80; MODBUS_EXCEPTION_ILLEGAL_DATA_ADDRESS] (line []) in
  reply Crc.crc16_bytes (replicate 12 7) 8
    (5 :: 3 :: 0 :: 10 :: 0 :: 2 :: [0xE5; 0x8D] ++ replicate 248 0)
    (u8 8) 5 zeros (line [])
  = Some (replicate 12 7, [], w2)
  /\ loop Crc.crc16 Crc.crc16_bytes 5 6 (replicate 12 7) 8 5 zeros zeros
       (line (frame [5; 3; 0; 10; 0; 2]))
     = Some (8, replicate 12 7, [], w2)
  /\ Z.testbit (Z.lor 3 0x80) 7 = true.
Proof.
  apply (dispatch_illegal_data_address Crc.crc16 Crc.crc16_bytes 5 6
           (replicate 12 7) 8 zeros zeros 5
           (line (frame [5; 3; 0; 10; 0; 2])) (line [])
           8 5 3 0 10 0 2 ([0xE5; 0x8D] ++ replicate 248 0)).
  - reflexivity.
  - reflexivity.
  - exact informative_codes_5_6.
  - reflexivity.
  - vm_compute. reflexivity.
  - lia.
  - vm_compute. reflexivity.
Defined.

(** ** Further properties at concrete inputs *)

Lemma register_encode_decode_witness :
  big_endian [word 0x12 0x34] = [0x12; 0x34].
Proof. apply (register_encode_decode 0x12 0x34); lia. Defined.

Lemma register_decode_encode_witness :
  word (u8 (Z.shiftr 0x1234 8)) (u8 (Z.land 0x1234 0xFF)) = 0x1234.
Proof. apply (register_decode_encode 0x1234). lia. Defined.

Lemma flush_quiet_line_witness :
  flush (World [1; 2] [[]; []; []; [9]] [] 33) = World [] [[9]] [] 33.
Proof.
  apply (flush_quiet_line (World [1; 2] [[]; []; []; [9]] [] 33)).
  reflexivity.
Defined.

Lemma next_byte_arrival_witness :
  next_byte (World [] [[]; []; [7; 8]] [] 33)
  = RxByte 7 (set_rx [8] (delay 3 (World [] [[]; []; [7; 8]] [] 33))).
Proof.
  apply (next_byte_arrival (World [] [[]; []; [7; 8]] [] 33) 3 7 [8]).
  - lia.
  - intros [|[|[|j]]] Hj; first [reflexivity | lia].
  - reflexivity.
Defined.

Lemma receive_status_witness :
  exists rc rq w1,
    receive Crc.crc16 Crc.crc16_bytes 5 6 zeros 5 (line [5; 3; 0])
    = Some (rc, rq, w1)
    /\ length rq = 256%nat
    /\ (rc = -1 - 6 \/ rc = -1 - 5
        \/ rc = -1 - MODBUS_EXCEPTION_ILLEGAL_FUNCTION
        \/ rc = -1 \/ 2 <= rc <= 255).
Proof.
  apply (receive_status Crc.crc16 Crc.crc16_bytes 5 6 zeros 5 (line [5; 3; 0])).
  reflexivity.
Defined.

Lemma receive_sends_only_exceptions_witness :
  exists rc rq w1,
    receive Crc.crc16 Crc.crc16_bytes 5 6 zeros 5 (line [5; 0x99])
    = Some (rc, rq, w1)
    /\ pin_DE w1 = pin_DE (line [5; 0x99])
    /\ (out w1 = out (line [5; 0x99])
        \/ (rc = -1 - MODBUS_EXCEPTION_ILLEGAL_FUNCTION
            /\ exists fn code,
                 (code = MODBUS_EXCEPTION_ILLEGAL_FUNCTION
                  \/ code = MODBUS_EXCEPTION_ILLEGAL_DATA_VALUE)
                 /\ out w1
                    = out (line [5; 0x99])
                        ++ [DigitalWrite (pin_DE (line [5; 0x99])) 1;
                            SerialWrite
                              (framed Crc.crc16_bytes [5; u8 (fn + 0x80); code]);
                            DigitalWrite (pin_DE (line [5; 0x99])) 0])).
Proof.
  apply (receive_sends_only_exceptions Crc.crc16 Crc.crc16_bytes 5 6 zeros 5
           (line [5; 0x99])).
  reflexivity.
Defined.

Lemma loop_sends_at_most_one_frame_witness :
  let w := line (frame [5; 3; 0; 10; 0; 2]) in
  let w1 :=
    World [] [] [DigitalWrite 33 1;
                 SerialWrite (frame [5; 3; 4; 0; 100; 0; 200]);
                 DigitalWrite 33 0] 33 in
  pin_DE w1 = pin_DE w
  /\ (out w1 = out w
      \/ exists bytes,
           out w1 = out w ++ [DigitalWrite (pin_DE w) 1; SerialWrite bytes;
                              DigitalWrite (pin_DE w) 0]).
Proof.
  apply (loop_sends_at_most_one_frame Crc.crc16 Crc.crc16_bytes 5 6
           (replicate 10 0 ++ [100; 200]) 12 5 zeros zeros
           (line (frame [5; 3; 0; 10; 0; 2])) _ 8
           (replicate 10 0 ++ [100; 200]) [TabRead 10; TabRead 11]).
  vm_compute. reflexivity.
Defined.

Lemma loop_status_witness :
  let rc := -1 - 6 in
  (rc = 0 <-> Serial2_available (line [5; 3; 0]) = false)
  /\ (rc = 0 -> line [] = line [5; 3; 0])
  /\ (rc <= 0 -> [1; 2] = [1; 2] /\ @nil access = [])
  /\ (rc = 0 \/ rc = -1
      \/ rc = -1 - MODBUS_EXCEPTION_ILLEGAL_FUNCTION
      \/ rc = -1 - 5 \/ rc = -1 - 6 \/ 2 <= rc <= 255)
  /\ rc <> -1 - MODBUS_EXCEPTION_ILLEGAL_DATA_ADDRESS
  /\ rc <> -1 - MODBUS_EXCEPTION_ILLEGAL_DATA_VALUE.
Proof.
  apply (loop_status Crc.crc16 Crc.crc16_bytes 5 6 [1; 2] 2 5 zeros zeros
           (line [5; 3; 0]) (line []) (-1 - 6) [1; 2] []).
  - reflexivity.
  - exact informative_codes_5_6.
  - vm_compute. reflexivity.
Defined.

Lemma receive_read_request_witness :
  let bytes := [5; _FC_READ_HOLDING_REGISTERS; 0; 10; 0; 2; 0xE5; 0x8D] in
  receive Crc.crc16 Crc.crc16_bytes 5 6 zeros 5 (line (bytes ++ [1; 2; 3]))
  = Some (if Crc.crc16 (u8 <$> bytes) =? 0 then 8 else -1,
          (u8 <$> bytes) ++ drop 8 zeros,
          set_rx [1; 2; 3] (line (bytes ++ [1; 2; 3]))).
Proof.
  apply (receive_read_request Crc.crc16 Crc.crc16_bytes 5 6 5 zeros
           (line ([5; _FC_READ_HOLDING_REGISTERS; 0; 10; 0; 2; 0xE5; 0x8D]
                    ++ [1; 2; 3]))
           5 0 10 0 2 0xE5 0x8D [1; 2; 3]).
  - reflexivity.
  - reflexivity.
  - reflexivity.
Defined.

Lemma receive_write_request_witness :
  let body := [0x12; 0x34; 0x56; 0x78] in
  let n := Z.of_nat (length body) in
  let bytes :=
    [5; _FC_WRITE_MULTIPLE_REGISTERS; 0; 3; 0; 2; n] ++ body ++ [0xDD; 0xBE] in
  receive Crc.crc16 Crc.crc16_bytes 5 6 zeros 5 (line bytes)
  = Some (if Crc.crc16 (u8 <$> bytes) =? 0 then 9 + n else -1,
          (u8 <$> bytes) ++ drop (length bytes) zeros,
          set_rx [] (line bytes)).
Proof.
  apply (receive_write_request Crc.crc16 Crc.crc16_bytes 5 6 5 zeros
           (line ([5; _FC_WRITE_MULTIPLE_REGISTERS; 0; 3; 0; 2; 4]
                    ++ [0x12; 0x34; 0x56; 0x78] ++ [0xDD; 0xBE]))
           5 0 3 0 2 0xDD 0xBE [0x12; 0x34; 0x56; 0x78] []).
  - reflexivity.
  - reflexivity.
  - reflexivity.
  - vm_compute. discriminate.
Defined.

Lemma reply_sends_one_frame_witness :
  exists a,
    load [0; 3; 0; 10; 0; 2] 0 = Some a
    /\ if for_me a 5
       then exists body,
              transmitted Crc.crc16_bytes [0; 3; 4; 0; 100; 0; 200] (line [])
              = transmitted Crc.crc16_bytes body (line [])
       else transmitted Crc.crc16_bytes [0; 3; 4; 0; 100; 0; 200] (line [])
            = line []
            /\ replicate 10 0 ++ [100; 200] = replicate 10 0 ++ [100; 200]
            /\ [TabRead 10; TabRead 11] = [].
Proof.
  apply (reply_sends_one_frame Crc.crc16_bytes (replicate 10 0 ++ [100; 200])
           12 [0; 3; 0; 10; 0; 2] 8 5 zeros (line [])).
  vm_compute. reflexivity.
Defined.

Lemma reply_table_bounds_witness :
  let tab1 := [0; 0; 0; 0x1234; 0x5678; 0; 0; 0; 0; 0; 0; 0] in
  let acc := [TabWrite 3 0x1234; TabWrite 4 0x5678] in
  length tab1 = length (replicate 12 0)
  /\ Forall (fun e => 0 <= access_index e < 12) acc
  /\ (forall i, 0 <= i -> i ∉ (access_index <$> acc) ->
        load tab1 i = load (replicate 12 0) i).
Proof.
  apply (reply_table_bounds Crc.crc16_bytes (replicate 12 0) 12
           ([5; 0x10; 0; 3; 0; 2; 4; 0x12; 0x34; 0x56; 0x78; 0xDD; 0xBE]
              ++ replicate 243 0)
           13 5 zeros (line []) _ _
           (transmitted Crc.crc16_bytes [5; 0x10; 0; 3; 0; 2] (line []))).
  - vm_compute. reflexivity.
  - lia.
Defined.

Lemma write_then_read_back_witness :
  let req :=
    5 :: _FC_WRITE_MULTIPLE_REGISTERS :: 0 :: 3 :: 0 :: 2
      :: ([4; 0x12; 0x34; 0x56; 0x78; 0xDD; 0xBE] ++ replicate 243 0) in
  let nb := 256 * 0 + 2 in
  exists tab1 acc w1,
    reply Crc.crc16_bytes (replicate 12 0) 12 req 13 5 zeros (line [])
    = Some (tab1, acc, w1)
    /\ forall (a' : Z) (rest' : list Z) (req_length' : Z) (rsp' : list Z)
              (w' : world),
         for_me a' 5 = true ->
         length rsp' = 256%nat ->
         exists acc',
           reply Crc.crc16_bytes tab1 12
             (a' :: _FC_READ_HOLDING_REGISTERS :: 0 :: 3 :: 0 :: 2 :: rest')
             req_length' 5 rsp' w'
           = Some (tab1, acc',
                   transmitted Crc.crc16_bytes
                     ([a'; _FC_READ_HOLDING_REGISTERS; 2 * nb]
                        ++ take (Z.to_nat (2 * nb)) (drop 7 req))
                     w').
Proof.
  apply (write_then_read_back Crc.crc16_bytes (replicate 12 0) 12 5 0 3 0 2
           ([4; 0x12; 0x34; 0x56; 0x78; 0xDD; 0xBE] ++ replicate 243 0)
           13 5 zeros (line [])).
  - vm_compute. reflexivity.
  - reflexivity.
  - reflexivity.
  - reflexivity.
  - vm_compute. reflexivity.
  - vm_compute. discriminate.
  - vm_compute. discriminate.
  - lia.
Defined.

Lemma loop_read_cycle_witness :
  let tab_reg := replicate 10 0 ++ [100; 200] in
  let bytes := [5; _FC_READ_HOLDING_REGISTERS; 0; 10; 0; 2; 0xE5; 0x8D] in
  let address := 256 * 0 + 10 in
  let nb := 256 * 0 + 2 in
  exists acc,
    loop Crc.crc16 Crc.crc16_bytes 5 6 tab_reg 12 5 zeros zeros (line bytes)
    = Some (8, tab_reg, acc,
            transmitted Crc.crc16_bytes
              ([5; _FC_READ_HOLDING_REGISTERS; 2 * nb]
                 ++ big_endian (take (Z.to_nat nb)
                                  (drop (Z.to_nat address) tab_reg)))
              (set_rx [] (line bytes))).
Proof.
  apply (loop_read_cycle Crc.crc16 Crc.crc16_bytes 5 6
           (replicate 10 0 ++ [100; 200]) 12 5 zeros zeros
           (line [5; _FC_READ_HOLDING_REGISTERS; 0; 10; 0; 2; 0xE5; 0x8D])
           5 0 10 0 2 0xE5 0x8D []).
  - reflexivity.
  - reflexivity.
  - reflexivity.
  - reflexivity.
  - vm_compute. reflexivity.
  - reflexivity.
  - vm_compute. discriminate.
  - vm_compute. discriminate.
  - lia.
  - vm_compute. discriminate.
Defined.

Lemma loop_write_cycle_witness :
  let address := 256 * 0 + 3 in
  let nb := 256 * 0 + 2 in
  let body := [0x12; 0x34; 0x56; 0x78] in
  let bytes :=
    [5; _FC_WRITE_MULTIPLE_REGISTERS; 0; 3; 0; 2; 2 * nb]
      ++ body ++ [0xDD; 0xBE] in
  exists tab1 acc,
    loop Crc.crc16 Crc.crc16_bytes 5 6 (replicate 12 0) 12 5 zeros zeros
      (line bytes)
    = Some (9 + 2 * nb, tab1, acc,
            transmitted Crc.crc16_bytes
              [5; _FC_WRITE_MULTIPLE_REGISTERS; 0; 3; 0; 2]
              (set_rx [] (line bytes)))
    /\ length tab1 = length (replicate 12 0)
    /\ access_index <$> acc = seqZ address nb
    /\ (forall m : nat, Z.of_nat m < nb ->
          exists hi lo,
            body !! (2 * m)%nat = Some hi /\ body !! (2 * m + 1)%nat = Some lo
            /\ load tab1 (address + Z.of_nat m) = Some (256 * hi + lo))
    /\ (forall i, 0 <= i -> ~ (address <= i < address + nb) ->
          load tab1 i = load (replicate 12 0) i).
Proof.
  apply (loop_write_cycle Crc.crc16 Crc.crc16_bytes 5 6 (replicate 12 0) 12 5
           zeros zeros
           (line ([5; _FC_WRITE_MULTIPLE_REGISTERS; 0; 3; 0; 2; 4]
                    ++ [0x12; 0x34; 0x56; 0x78] ++ [0xDD; 0xBE]))
           5 0 3 0 2 0xDD 0xBE [0x12; 0x34; 0x56; 0x78] []).
  - reflexivity.
  - reflexivity.
  - reflexivity.
  - reflexivity.
  - reflexivity.
  - vm_compute. discriminate.
  - vm_compute. reflexivity.
  - reflexivity.
  - vm_compute. discriminate.
  - vm_compute. discriminate.
  - lia.
Defined.

Lemma reply_read_126_overflows_witness :
  reply Crc.crc16_bytes (replicate 126 7) 126
    (5 :: _FC_READ_HOLDING_REGISTERS :: 0 :: 0 :: 0 :: 126 :: [])
    8 5 zeros (line [])
  = None.
Proof.
  apply (reply_read_126_overflows Crc.crc16_bytes (replicate 126 7) 126
           5 0 0 0 126 [] 8 5 zeros (line [])).
  - reflexivity.
  - reflexivity.
  - reflexivity.
  - vm_compute. discriminate.
  - vm_compute. discriminate.
  - lia.
Defined.
